(** * Metrics core of the Google Ads / Shopify integration guides

    The repository is a pair of guides whose JavaScript samples fetch
    campaign rows, reshape them (micro-units to currency units), fold them
    into totals, derive ratios (ROAS, ROI, CPC, CTR, conversion rate) and
    map an ROI to a budget recommendation.

    The samples are embedded shallowly.  A JavaScript Number is an IEEE-754
    binary64 value, so numbers are Rocq's primitive [float]s and [+], [-],
    [*], [/], [>] are the primitive operations, with their rounding, signed
    zeros, infinities and NaN.  Property reads of an absent field give
    [undefined]; reads through an absent object throw a TypeError. *)

From Stdlib Require Import ZArith NArith PArith Lia List String Ascii Bool.
From Stdlib Require Import Floats DecimalString Permutation Sorted.
From Stdlib Require Uint63 QArith Qabs.
Import ListNotations.

Set Warnings "-inexact-float".

Open Scope string_scope.

(** ** The fragment of JavaScript the samples rely on *)

Module JS.

(** A value read from a field that is copied verbatim: absent, a number or
    a string. *)
Inductive value : Type :=
| Undefined
| Num (x : float)
| Str (s : string).

(** A numeric field of an API row: a number, or [None] when the field is
    absent and the read yields [undefined]. *)
Definition field := option float.

(** [ToNumber] on a number or [undefined]. *)
Definition ToNumber (v : field) : float :=
  match v with
  | Some x => x
  | None => nan
  end.

(** Errors a sample can throw at its caller. *)
Inductive error : Type :=
| TypeError (msg : string)
| Rejected (reason : string).

Inductive result (A : Type) : Type :=
| Ok (a : A)
| Throw (e : error).

Arguments Ok {A} a.
Arguments Throw {A} e.

Definition bind {A B : Type} (r : result A) (k : A -> result B) : result B :=
  match r with
  | Ok a => k a
  | Throw e => Throw e
  end.

Notation "x <- c ;; k" := (bind c (fun x => k))
  (at level 61, c at next level, right associativity).

(** [o.p] where [o] may be [undefined]: reading a property of [undefined]
    throws. *)
Definition get {A : Type} (what : string) (o : option A) : result A :=
  match o with
  | Some a => Ok a
  | None => Throw (TypeError ("Cannot read properties of undefined (reading " ++ what ++ ")"))
  end.

(** *** Number.prototype.toFixed *)

Definition string_of_Z (n : Z) : string :=
  NilEmpty.string_of_uint (N.to_uint (Z.to_N n)).

Fixpoint zeros (k : nat) : string :=
  match k with
  | O => EmptyString
  | S k' => String "0"%char (zeros k')
  end.

(** The integer [n] for which [n / 10^f - m * 2^e] is closest to zero, the
    larger one when two are equally close. *)
Definition fixed_integer (f : nat) (m : positive) (e : Z) : Z :=
  let scaled := (Zpos m * 10 ^ Z.of_nat f)%Z in
  match e with
  | Zneg k => ((2 * scaled + 2 ^ Zpos k) / 2 ^ (Zpos k + 1))%Z
  | _ => (scaled * 2 ^ e)%Z
  end.

(** The digits of [n] with a decimal point before the last [f] of them. *)
Definition fixed_string (f : nat) (n : Z) : string :=
  let m := string_of_Z n in
  match f with
  | O => m
  | _ =>
    let k := String.length m in
    let m' := if (k <=? f)%nat then zeros (f + 1 - k) ++ m else m in
    let k' := String.length m' in
    substring 0 (k' - f) m' ++ "." ++ substring (k' - f) f m'
  end.

(** *** Number::toString for finite values of at least 10^21 *)

Fixpoint strip_zeros_fuel (fuel : nat) (s j : Z) : Z * Z :=
  match fuel with
  | O => (s, j)
  | S fuel' =>
    if ((s mod 10 =? 0) && (0 <? s))%Z%bool
    then strip_zeros_fuel fuel' (s / 10)%Z (j + 1)%Z
    else (s, j)
  end.

Definition decimal_length (n : Z) : Z := Z.of_nat (String.length (string_of_Z n)).

(** Does the real number [v] round to the double [m * 2^e] (round to
    nearest, ties to even)?  [m] has 53 bits and [e >= 1]. *)
Definition rounds_to (m : positive) (e v : Z) : bool :=
  let x2 := (2 * Zpos m * 2 ^ e)%Z in
  let above := (2 ^ e)%Z in
  let below := (if Zpos m =? 2 ^ 52 then 2 ^ (e - 1) else 2 ^ e)%Z in
  if Z.even (Zpos m)
  then ((x2 - below <=? 2 * v) && (2 * v <=? x2 + above))%Z%bool
  else ((x2 - below <? 2 * v) && (2 * v <? x2 + above))%Z%bool.

(** The shortest decimal [s * 10^j] that rounds to [m * 2^e], the closest
    one among the shortest, searched from [k] significant digits up. *)
Fixpoint shortest_decimal (fuel : nat) (k : Z) (m : positive) (e : Z) : Z * Z :=
  let x := (Zpos m * 2 ^ e)%Z in
  let j := (decimal_length x - k)%Z in
  let lo := (x / 10 ^ j)%Z in
  let hi := (lo + 1)%Z in
  let lo_ok := rounds_to m e (lo * 10 ^ j) in
  let hi_ok := rounds_to m e (hi * 10 ^ j) in
  let d_lo := (x - lo * 10 ^ j)%Z in
  let d_hi := (hi * 10 ^ j - x)%Z in
  match fuel with
  | O => (lo, j)
  | S fuel' =>
    if lo_ok && hi_ok then
      if (d_lo <? d_hi)%Z then (lo, j)
      else if (d_hi <? d_lo)%Z then (hi, j)
      else if Z.even lo then (lo, j) else (hi, j)
    else if lo_ok then (lo, j)
    else if hi_ok then (hi, j)
    else shortest_decimal fuel' (k + 1)%Z m e
  end.

Definition Number_toString_large (m : positive) (e : Z) : string :=
  let '(s, j) := shortest_decimal 17 1 m e in
  let '(s, j) := strip_zeros_fuel 17 s j in
  let digits := string_of_Z s in
  let k := String.length digits in
  let n := (Z.of_nat k + j)%Z in
  let mantissa :=
    match k with
    | 1%nat => digits
    | _ => substring 0 1 digits ++ "." ++ substring 1 (k - 1) digits
    end in
  mantissa ++ "e+" ++ string_of_Z (n - 1).

(** [x.toFixed(f)] for [0 <= f <= 100]. *)
Definition toFixed (x : float) (f : nat) : string :=
  match Prim2SF x with
  | S754_nan => "NaN"
  | S754_infinity s => if s then "-Infinity" else "Infinity"
  | S754_zero _ => fixed_string f 0
  | S754_finite s m e =>
    (if s then "-" else "") ++
    (if (1e21 <=? abs x)%float
     then Number_toString_large m e
     else fixed_string f (fixed_integer f m e))
  end.

(** *** Array.prototype.sort and map

    The standard requires [sort] to be stable and fixes its result when
    the comparator orders the elements consistently: the one stable
    arrangement, which [sort] computes by insertion.  [a] is placed after
    [b] when [comparefn a b > 0]; a comparator result of NaN counts as
    [+0].  When the comparator is not consistent on the elements, as
    [(a, b) => b.key - a.key] is not once a key is NaN, the standard leaves
    the arrangement to the engine and [sort] is one admissible engine, not
    necessarily the host's.  What is stated of a sorted list below is
    therefore stated for keys that are numbers. *)

Section Arrays.
Context {A B : Type}.
Variable comparefn : A -> A -> float.

Definition after (a b : A) : bool := (0 <? comparefn a b)%float.

Fixpoint insert (x : A) (l : list A) : list A :=
  match l with
  | [] => [x]
  | y :: l' => if after x y then y :: insert x l' else x :: y :: l'
  end.

Fixpoint sort (l : list A) : list A :=
  match l with
  | [] => []
  | x :: l' => insert x (sort l')
  end.

(** [l.map((x, index) => f x index)], the index counted from [i]. *)
Fixpoint map_from (f : A -> nat -> B) (i : nat) (l : list A) : list B :=
  match l with
  | [] => []
  | x :: l' => f x i :: map_from f (S i) l'
  end.

Definition map_index (f : A -> nat -> B) (l : list A) : list B := map_from f 0 l.

End Arrays.

(** [a === s] for a string literal [s]. *)
Definition strict_eq_string (a : value) (s : string) : bool :=
  match a with
  | Str s' => String.eqb s' s
  | _ => false
  end.

End JS.

Import JS.

(** ** First guide: services/GoogleAdsService.js of the dashboard backend *)

Module Dashboard.

(** A row of [customer.query]: [row.campaign] and [row.metrics], either of
    which may be absent. *)
Module Row.
Record campaign : Type := {
  id : value;
  name : value;
  status : value;
  advertising_channel_type : value
}.
Record metrics : Type := {
  cost_micros : field;
  clicks : field;
  impressions : field;
  conversions : field;
  conversions_value : field;
  average_cpc : field;
  ctr : field
}.
Record t : Type := {
  campaign_of : option campaign;
  metrics_of : option metrics
}.
End Row.

(** The object pushed for each row by [getCampaigns]. *)
Module Campaign.
Record t : Type := {
  id : value;
  name : value;
  status : value;
  type : value;
  cost : float;
  clicks : field;
  impressions : field;
  conversions : field;
  revenue : field;
  avgCpc : float;
  ctr : field
}.
End Campaign.

(** The body of the [for (const row of results)] loop of [getCampaigns]. *)
Definition push_row (row : Row.t) : result Campaign.t :=
  c <- get "'id'" (Row.campaign_of row) ;;
  m <- get "'cost_micros'" (Row.metrics_of row) ;;
  Ok {| Campaign.id := Row.id c;
        Campaign.name := Row.name c;
        Campaign.status := Row.status c;
        Campaign.type := Row.advertising_channel_type c;
        Campaign.cost := (ToNumber (Row.cost_micros m) / 1000000)%float;
        Campaign.clicks := Row.clicks m;
        Campaign.impressions := Row.impressions m;
        Campaign.conversions := Row.conversions m;
        Campaign.revenue := Row.conversions_value m;
        Campaign.avgCpc := (ToNumber (Row.average_cpc m) / 1000000)%float;
        Campaign.ctr := Row.ctr m |}.

Fixpoint push_rows (rows : list Row.t) (campaigns : list Campaign.t)
  : result (list Campaign.t) :=
  match rows with
  | [] => Ok campaigns
  | row :: rest =>
    c <- push_row row ;;
    push_rows rest (campaigns ++ [c])%list
  end.

(** [getCampaigns], from the outcome of [await this.customer.query(query)]
    on; the [catch] logs and rethrows. *)
Definition getCampaigns (results : result (list Row.t)) : result (list Campaign.t) :=
  rows <- results ;;
  push_rows rows [].

(** The accumulator of [campaigns.reduce]. *)
Record Totals : Type := {
  totalCost : float;
  totalClicks : float;
  totalImpressions : float;
  totalConversions : float;
  totalRevenue : float
}.

Definition reducer (acc : Totals) (campaign : Campaign.t) : Totals :=
  {| totalCost := (totalCost acc + Campaign.cost campaign)%float;
     totalClicks := (totalClicks acc + ToNumber (Campaign.clicks campaign))%float;
     totalImpressions := (totalImpressions acc + ToNumber (Campaign.impressions campaign))%float;
     totalConversions := (totalConversions acc + ToNumber (Campaign.conversions campaign))%float;
     totalRevenue := (totalRevenue acc + ToNumber (Campaign.revenue campaign))%float |}.

Definition initial : Totals :=
  {| totalCost := 0; totalClicks := 0; totalImpressions := 0;
     totalConversions := 0; totalRevenue := 0 |}.

Definition reduce (campaigns : list Campaign.t) : Totals :=
  fold_left reducer campaigns initial.

(** The metrics assigned to [summary] after the reduction: a two-decimal
    string when the denominator is positive, the number [0] otherwise. *)
Record Metrics : Type := {
  roas : value;
  roi : value;
  avgCpc : value;
  conversionRate : value;
  avgCtr : value
}.

Definition calculateMetrics (summary : Totals) : Metrics :=
  {| roas :=
       if (0 <? totalCost summary)%float
       then Str (toFixed (totalRevenue summary / totalCost summary) 2)
       else Num 0;
     roi :=
       if (0 <? totalCost summary)%float
       then Str (toFixed (((totalRevenue summary - totalCost summary) / totalCost summary) * 100) 2)
       else Num 0;
     avgCpc :=
       if (0 <? totalClicks summary)%float
       then Str (toFixed (totalCost summary / totalClicks summary) 2)
       else Num 0;
     conversionRate :=
       if (0 <? totalClicks summary)%float
       then Str (toFixed ((totalConversions summary / totalClicks summary) * 100) 2)
       else Num 0;
     avgCtr :=
       if (0 <? totalImpressions summary)%float
       then Str (toFixed ((totalClicks summary / totalImpressions summary) * 100) 2)
       else Num 0 |}.

Record Summary : Type := {
  totals : Totals;
  metrics : Metrics;
  activeCampaigns : nat;
  totalCampaigns : nat
}.

Definition getCampaignSummary (results : result (list Row.t)) : result Summary :=
  campaigns <- getCampaigns results ;;
  let summary := reduce campaigns in
  Ok {| totals := summary;
        metrics := calculateMetrics summary;
        activeCampaigns :=
          List.length (filter (fun c => strict_eq_string (Campaign.status c) "ENABLED") campaigns);
        totalCampaigns := List.length campaigns |}.

End Dashboard.

(** ** Second guide: the Shopify integration's services *)

Module Shopify.

(** *** services/googleAdsService.js *)

Module GoogleAdsService.

Module Row.
Record campaign : Type := {
  id : value;
  name : value
}.
Record metrics : Type := {
  cost_micros : field;
  clicks : field;
  impressions : field;
  conversions : field;
  conversions_value : field
}.
Record t : Type := {
  campaign_of : option campaign;
  metrics_of : option metrics
}.
End Row.

(** The object pushed for each row by [getAdSpend]. *)
Module Campaign.
Record t : Type := {
  campaignId : value;
  campaignName : value;
  cost : float;
  clicks : field;
  impressions : field;
  conversions : field;
  conversionValue : field
}.
End Campaign.

Definition push_row (row : Row.t) : result Campaign.t :=
  c <- get "'id'" (Row.campaign_of row) ;;
  m <- get "'cost_micros'" (Row.metrics_of row) ;;
  Ok {| Campaign.campaignId := Row.id c;
        Campaign.campaignName := Row.name c;
        Campaign.cost := (ToNumber (Row.cost_micros m) / 1000000)%float;
        Campaign.clicks := Row.clicks m;
        Campaign.impressions := Row.impressions m;
        Campaign.conversions := Row.conversions m;
        Campaign.conversionValue := Row.conversions_value m |}.

Fixpoint push_rows (rows : list Row.t) (campaigns : list Campaign.t)
  : result (list Campaign.t) :=
  match rows with
  | [] => Ok campaigns
  | row :: rest =>
    c <- push_row row ;;
    push_rows rest (campaigns ++ [c])%list
  end.

Definition getAdSpend (results : result (list Row.t)) : result (list Campaign.t) :=
  rows <- results ;;
  push_rows rows [].

Record Totals : Type := {
  totalSpend : float;
  totalClicks : float;
  totalImpressions : float;
  totalConversions : float;
  totalRevenue : float
}.

Definition reducer (acc : Totals) (campaign : Campaign.t) : Totals :=
  {| totalSpend := (totalSpend acc + Campaign.cost campaign)%float;
     totalClicks := (totalClicks acc + ToNumber (Campaign.clicks campaign))%float;
     totalImpressions := (totalImpressions acc + ToNumber (Campaign.impressions campaign))%float;
     totalConversions := (totalConversions acc + ToNumber (Campaign.conversions campaign))%float;
     totalRevenue := (totalRevenue acc + ToNumber (Campaign.conversionValue campaign))%float |}.

Definition initial : Totals :=
  {| totalSpend := 0; totalClicks := 0; totalImpressions := 0;
     totalConversions := 0; totalRevenue := 0 |}.

Definition reduce (campaigns : list Campaign.t) : Totals :=
  fold_left reducer campaigns initial.

(** [summary.roas], [summary.cpc] and [summary.conversionRate], kept as
    numbers. *)
Record Metrics : Type := {
  roas : float;
  cpc : float;
  conversionRate : float
}.

Definition calculateMetrics (summary : Totals) : Metrics :=
  {| roas :=
       if (0 <? totalSpend summary)%float
       then (totalRevenue summary / totalSpend summary)%float else 0%float;
     cpc :=
       if (0 <? totalClicks summary)%float
       then (totalSpend summary / totalClicks summary)%float else 0%float;
     conversionRate :=
       if (0 <? totalClicks summary)%float
       then ((totalConversions summary / totalClicks summary) * 100)%float else 0%float |}.

Record Summary : Type := {
  totals : Totals;
  metrics : Metrics
}.

Definition getCampaignSummary (results : result (list Row.t)) : result Summary :=
  campaigns <- getAdSpend results ;;
  let summary := reduce campaigns in
  Ok {| totals := summary; metrics := calculateMetrics summary |}.

(** What [getProductAdPerformance] returns. *)
Module AdData.
Record t : Type := {
  productId : string;
  adSpend : float;
  conversions : float;
  revenue : float;
  roas : float
}.
End AdData.

(** The running totals of [getProductAdPerformance] over its rows. *)
Definition add_product_row (acc : float * float * float) (row : Row.metrics)
  : float * float * float :=
  let '(totalCost, totalConversions, totalRevenue) := acc in
  ((totalCost + ToNumber (Row.cost_micros row) / 1000000)%float,
   (totalConversions + ToNumber (Row.conversions row))%float,
   (totalRevenue + ToNumber (Row.conversions_value row))%float).

Fixpoint product_rows (rows : list Row.t) (acc : float * float * float)
  : result (float * float * float) :=
  match rows with
  | [] => Ok acc
  | row :: rest =>
    m <- get "'cost_micros'" (Row.metrics_of row) ;;
    product_rows rest (add_product_row acc m)
  end.

Definition getProductAdPerformance (productId : string) (results : result (list Row.t))
  : result AdData.t :=
  rows <- results ;;
  acc <- product_rows rows (0%float, 0%float, 0%float) ;;
  let '(totalCost, totalConversions, totalRevenue) := acc in
  Ok {| AdData.productId := productId;
        AdData.adSpend := totalCost;
        AdData.conversions := totalConversions;
        AdData.revenue := totalRevenue;
        AdData.roas := if (0 <? totalCost)%float
                       then (totalRevenue / totalCost)%float else 0%float |}.

End GoogleAdsService.

(** *** services/shopifyService.js: what [getProductSales] returns *)

Module SalesData.
Record t : Type := {
  productId : string;
  revenue : float;
  quantity : float;
  orderCount : float;
  averageOrderValue : float
}.
End SalesData.

(** *** services/roiAnalysisService.js *)

Module ROIAnalysisService.

Import GoogleAdsService.

Inductive Action : Type :=
| INCREASE_BUDGET
| MAINTAIN_BUDGET
| OPTIMIZE
| DECREASE_BUDGET.

Record Recommendation : Type := {
  action : Action;
  message : string;
  suggestedBudgetChange : float
}.

(** The object literal [roi] of [calculateProductROI], before
    [roi.recommendation] is assigned. *)
Record ROI : Type := {
  productId : string;
  adSpend : float;
  revenue : float;
  profit : float;
  roi : float;
  roas : float;
  quantity : float;
  orderCount : float
}.

Record ProductROI : Type := {
  fields : ROI;
  recommendation : Recommendation
}.

Definition getRecommendation (r : ROI) : Recommendation :=
  if (100 <? roi r)%float then
    {| action := INCREASE_BUDGET;
       message := "Strong performance! ROI is " ++ toFixed (roi r) 2
                  ++ "%. Consider increasing ad spend by 20-30%.";
       suggestedBudgetChange := 0.25 |}
  else if (30 <? roi r)%float then
    {| action := MAINTAIN_BUDGET;
       message := "Good performance. ROI is " ++ toFixed (roi r) 2
                  ++ "%. Maintain current budget and monitor.";
       suggestedBudgetChange := 0 |}
  else if (0 <? roi r)%float then
    {| action := OPTIMIZE;
       message := "Low ROI (" ++ toFixed (roi r) 2
                  ++ "%). Review ad targeting and creative. Consider A/B testing.";
       suggestedBudgetChange := 0 |}
  else
    {| action := DECREASE_BUDGET;
       message := "Negative ROI (" ++ toFixed (roi r) 2
                  ++ "%). Consider reducing spend by 30-50% or pausing campaign.";
       suggestedBudgetChange := (-0.4)%float |}.

Definition calculateProductROI (adData : AdData.t) (salesData : SalesData.t) : ProductROI :=
  let r :=
    {| productId := AdData.productId adData;
       adSpend := AdData.adSpend adData;
       revenue := SalesData.revenue salesData;
       profit := (SalesData.revenue salesData - AdData.adSpend adData)%float;
       roi := if (0 <? AdData.adSpend adData)%float
              then (((SalesData.revenue salesData - AdData.adSpend adData)
                     / AdData.adSpend adData) * 100)%float
              else 0%float;
       roas := AdData.roas adData;
       quantity := SalesData.quantity salesData;
       orderCount := SalesData.orderCount salesData |} in
  {| fields := r; recommendation := getRecommendation r |}.

(** An element of the array [compareProducts] returns: the spread copy of
    the product with [rank] added.  [rank] is [index + 1] for an array
    index, kept as a natural number. *)
Record Ranked : Type := {
  product : ProductROI;
  rank : nat
}.

Definition compareProducts (productsROI : list ProductROI) : list Ranked :=
  map_index (fun product index => {| product := product; rank := index + 1 |})
    (sort (fun a b => (roi (fields b) - roi (fields a))%float) productsROI).

End ROIAnalysisService.

End Shopify.

(** ** More of the JavaScript fragment: loops that push, ordinary objects *)

Module JSMore.

(** [for (const row of rows) out.push(body(row))], stopped by the first
    throw. *)
Section ForOf.
Context {R O : Type}.
Variable body : R -> result O.

Fixpoint push_each (rows : list R) (out : list O) : result (list O) :=
  match rows with
  | [] => Ok out
  | row :: rest =>
    o <- body row ;;
    push_each rest (out ++ [o])%list
  end.

End ForOf.

(** The names every object inherits from [Object.prototype]. *)
Definition Object_prototype_names : list string :=
  ["constructor"; "__defineGetter__"; "__defineSetter__"; "hasOwnProperty";
   "__lookupGetter__"; "__lookupSetter__"; "isPrototypeOf"; "propertyIsEnumerable";
   "toString"; "valueOf"; "__proto__"; "toLocaleString"].

Definition inherited (k : string) : bool :=
  existsb (String.eqb k) Object_prototype_names.

(** A canonical numeric string below 2^32 - 1 is an array index; such keys
    are enumerated first, in ascending order. *)
Definition array_index (k : string) : option N :=
  match NilZero.uint_of_string k with
  | Some u =>
    let n := N.of_uint u in
    if String.eqb (NilEmpty.string_of_uint (N.to_uint n)) k && (n <? 4294967295)%N
    then Some n else None
  | None => None
  end.

Definition is_array_index (k : string) : bool :=
  match array_index k with Some _ => true | None => false end.

(** An object made by [{}]: its own string-keyed properties in creation
    order. *)
Section Objects.
Context {V : Type}.

Definition object : Type := list (string * V).

Fixpoint own (o : object) (k : string) : option V :=
  match o with
  | [] => None
  | (k', v) :: o' => if String.eqb k' k then Some v else own o' k
  end.

(** [o[k] = v] for a key other than [__proto__]. *)
Fixpoint assign (o : object) (k : string) (v : V) : object :=
  match o with
  | [] => [(k, v)]
  | (k', v') :: o' =>
    if String.eqb k' k then (k', v) :: o' else (k', v') :: assign o' k v
  end.

Fixpoint insert_index (n : N) (v : V) (l : list (N * V)) : list (N * V) :=
  match l with
  | [] => [(n, v)]
  | (n', v') :: l' =>
    if (n <? n')%N then (n, v) :: l else (n', v') :: insert_index n v l'
  end.

Fixpoint index_properties (o : object) : list (N * V) :=
  match o with
  | [] => []
  | (k, v) :: o' =>
    match array_index k with
    | Some n => insert_index n v (index_properties o')
    | None => index_properties o'
    end
  end.

Definition Object_values (o : object) : list V :=
  (map snd (index_properties o)
   ++ map snd (filter (fun kv => negb (is_array_index (fst kv))) o))%list.

End Objects.

Arguments object V : clear implicits.

(** A property key made from a string or [undefined]. *)
Definition ToPropertyKey (k : option string) : string :=
  match k with
  | Some s => s
  | None => "undefined"
  end.

(** *** Number::toString

    A finite positive double is [m * 2^e]; the decimals are [s * 10^j]. *)

(** [s * 10^j] compared with [p * 2^q], both sides cleared of fractions. *)
Definition compare_decimal (s j p q : Z) : comparison :=
  (s * 10 ^ Z.max j 0 * 2 ^ Z.max (- q) 0 ?= p * 2 ^ Z.max q 0 * 10 ^ Z.max (- j) 0)%Z.

(** Does the real number [s * 10^j] round to the double [m * 2^e] (round
    to nearest, ties to even)?  It does between the midpoints to the
    neighbouring doubles, which are one unit of [2^e] away, apart from the
    one below a power of two with [e] above the least exponent, which is
    half a unit away. *)
Definition reads_back (m : positive) (e s j : Z) : bool :=
  let above := compare_decimal s j (2 * Zpos m + 1) (e - 1) in
  let below :=
    if ((Zpos m =? 2 ^ 52) && (-1074 <? e))%Z%bool
    then compare_decimal s j (4 * Zpos m - 1) (e - 2)
    else compare_decimal s j (2 * Zpos m - 1) (e - 1) in
  let closed := Z.even (Zpos m) in
  match below, above with
  | Gt, Lt => true
  | Eq, Lt | Gt, Eq => closed
  | _, _ => false
  end.

(** The whole part of [m * 2^e / 10^j]. *)
Definition scaled_floor (m : positive) (e j : Z) : Z :=
  (Zpos m * 2 ^ Z.max e 0 * 10 ^ Z.max (- j) 0 / (2 ^ Z.max (- e) 0 * 10 ^ Z.max j 0))%Z.

(** The [n] with [10^(n-1) <= m * 2^e < 10^n]. *)
Definition decimal_exponent (m : positive) (e : Z) : Z :=
  (decimal_length (scaled_floor m e (-400)) - 400)%Z.

(** The decimal [s * 10^j] of fewest digits that reads back as [m * 2^e],
    the closest one among those, searched from [k] digits up. *)
Fixpoint shortest (fuel : nat) (k : Z) (m : positive) (e : Z) : Z * Z :=
  let j := (decimal_exponent m e - k)%Z in
  let lo := scaled_floor m e j in
  let hi := (lo + 1)%Z in
  match fuel with
  | O => (lo, j)
  | S fuel' =>
    match reads_back m e lo j, reads_back m e hi j with
    | true, true =>
      match compare_decimal (2 * lo + 1) j (2 * Zpos m) e with
      | Gt => (lo, j)
      | Lt => (hi, j)
      | Eq => if Z.even lo then (lo, j) else (hi, j)
      end
    | true, false => (lo, j)
    | false, true => (hi, j)
    | false, false => shortest fuel' (k + 1)%Z m e
    end
  end.

(** The digits of [s] with the decimal point after the first [n] of
    them, in the four layouts of the standard. *)
Definition place_digits (s n : Z) : string :=
  let digits := string_of_Z s in
  let k := Z.of_nat (String.length digits) in
  if ((k <=? n) && (n <=? 21))%Z%bool then
    digits ++ zeros (Z.to_nat (n - k))
  else if ((0 <? n) && (n <=? 21))%Z%bool then
    substring 0 (Z.to_nat n) digits ++ "." ++ substring (Z.to_nat n) (Z.to_nat (k - n)) digits
  else if ((-6 <? n) && (n <=? 0))%Z%bool then
    "0." ++ zeros (Z.to_nat (- n)) ++ digits
  else
    (if (k =? 1)%Z then digits
     else substring 0 1 digits ++ "." ++ substring 1 (Z.to_nat (k - 1)) digits)
    ++ "e" ++ (if (0 <=? n - 1)%Z then "+" else "-") ++ string_of_Z (Z.abs (n - 1)).

(** [x.toString()] for a number [x]. *)
Definition Number_toString (x : float) : string :=
  match Prim2SF x with
  | S754_nan => "NaN"
  | S754_zero _ => "0"
  | S754_infinity s => if s then "-Infinity" else "Infinity"
  | S754_finite s m e =>
    let '(d, j) := shortest 17 1 m e in
    let '(d, j) := strip_zeros_fuel 17 d j in
    (if s then "-" else "") ++ place_digits d (decimal_length d + j)
  end.

End JSMore.

Import JSMore.

(** ** First guide: the other queries of services/GoogleAdsService.js *)

Module DashboardViews.

Import Dashboard.

(** *** getAdGroups *)

Module AdGroupRow.
Record ad_group : Type := {
  id : value;
  name : value;
  status : value
}.
Record campaign : Type := {
  campaign_name : value
}.
Record t : Type := {
  ad_group_of : option ad_group;
  campaign_of : option campaign;
  metrics_of : option Row.metrics
}.
End AdGroupRow.

Module AdGroup.
Record t : Type := {
  id : value;
  name : value;
  status : value;
  campaignName : value;
  cost : float;
  clicks : field;
  impressions : field;
  conversions : field;
  revenue : field
}.
End AdGroup.

Definition push_ad_group (row : AdGroupRow.t) : result AdGroup.t :=
  g <- get "'id'" (AdGroupRow.ad_group_of row) ;;
  c <- get "'name'" (AdGroupRow.campaign_of row) ;;
  m <- get "'cost_micros'" (AdGroupRow.metrics_of row) ;;
  Ok {| AdGroup.id := AdGroupRow.id g;
        AdGroup.name := AdGroupRow.name g;
        AdGroup.status := AdGroupRow.status g;
        AdGroup.campaignName := AdGroupRow.campaign_name c;
        AdGroup.cost := (ToNumber (Row.cost_micros m) / 1000000)%float;
        AdGroup.clicks := Row.clicks m;
        AdGroup.impressions := Row.impressions m;
        AdGroup.conversions := Row.conversions m;
        AdGroup.revenue := Row.conversions_value m |}.

Definition getAdGroups (results : result (list AdGroupRow.t)) : result (list AdGroup.t) :=
  rows <- results ;;
  push_each push_ad_group rows [].

(** *** getKeywords *)

Module KeywordRow.
Record keyword : Type := {
  text : value;
  match_type : value
}.
Record ad_group_criterion : Type := {
  keyword_of : option keyword
}.
Record named : Type := {
  name : value
}.
Record t : Type := {
  ad_group_criterion_of : option ad_group_criterion;
  ad_group_of : option named;
  campaign_of : option named;
  metrics_of : option Row.metrics
}.
End KeywordRow.

Module Keyword.
Record t : Type := {
  keyword : value;
  matchType : value;
  adGroup : value;
  campaign : value;
  cost : float;
  clicks : field;
  impressions : field;
  conversions : field;
  revenue : field;
  avgCpc : float
}.
End Keyword.

Definition push_keyword (row : KeywordRow.t) : result Keyword.t :=
  crit <- get "'keyword'" (KeywordRow.ad_group_criterion_of row) ;;
  k <- get "'text'" (KeywordRow.keyword_of crit) ;;
  g <- get "'name'" (KeywordRow.ad_group_of row) ;;
  c <- get "'name'" (KeywordRow.campaign_of row) ;;
  m <- get "'cost_micros'" (KeywordRow.metrics_of row) ;;
  Ok {| Keyword.keyword := KeywordRow.text k;
        Keyword.matchType := KeywordRow.match_type k;
        Keyword.adGroup := KeywordRow.name g;
        Keyword.campaign := KeywordRow.name c;
        Keyword.cost := (ToNumber (Row.cost_micros m) / 1000000)%float;
        Keyword.clicks := Row.clicks m;
        Keyword.impressions := Row.impressions m;
        Keyword.conversions := Row.conversions m;
        Keyword.revenue := Row.conversions_value m;
        Keyword.avgCpc := (ToNumber (Row.average_cpc m) / 1000000)%float |}.

Definition getKeywords (results : result (list KeywordRow.t)) : result (list Keyword.t) :=
  rows <- results ;;
  push_each push_keyword rows [].

(** *** getProductPerformance *)

Module ProductRow.
Record segments : Type := {
  product_item_id : value;
  product_title : value
}.
Record t : Type := {
  segments_of : option segments;
  metrics_of : option Row.metrics
}.
End ProductRow.

Module Product.
Record t : Type := {
  productId : value;
  productTitle : value;
  cost : float;
  clicks : field;
  impressions : field;
  conversions : field;
  revenue : field;
  roas : value;
  roi : value
}.
End Product.

Definition push_product (row : ProductRow.t) : result Product.t :=
  m <- get "'cost_micros'" (ProductRow.metrics_of row) ;;
  let cost := (ToNumber (Row.cost_micros m) / 1000000)%float in
  let revenue := Row.conversions_value m in
  s <- get "'product_item_id'" (ProductRow.segments_of row) ;;
  Ok {| Product.productId := ProductRow.product_item_id s;
        Product.productTitle := ProductRow.product_title s;
        Product.cost := cost;
        Product.clicks := Row.clicks m;
        Product.impressions := Row.impressions m;
        Product.conversions := Row.conversions m;
        Product.revenue := revenue;
        Product.roas :=
          if (0 <? cost)%float
          then Str (toFixed (ToNumber revenue / cost) 2) else Num 0;
        Product.roi :=
          if (0 <? cost)%float
          then Str (toFixed (((ToNumber revenue - cost) / cost) * 100) 2) else Num 0 |}.

Definition getProductPerformance (results : result (list ProductRow.t))
  : result (list Product.t) :=
  rows <- results ;;
  push_each push_product rows [].

(** *** getDailyPerformance *)

Module DailyRow.
Record segments : Type := {
  date : option string
}.
Record t : Type := {
  segments_of : option segments;
  metrics_of : option Row.metrics
}.
End DailyRow.

Module Day.
Record t : Type := {
  date : option string;
  cost : float;
  clicks : float;
  impressions : float;
  conversions : float;
  revenue : float
}.
End Day.

(** The object stored under a date seen for the first time. *)
Definition fresh (date : option string) : Day.t :=
  {| Day.date := date; Day.cost := 0; Day.clicks := 0; Day.impressions := 0;
     Day.conversions := 0; Day.revenue := 0 |}.

(** The five [+=] of the loop body. *)
Definition add_metrics (day : Day.t) (m : Row.metrics) : Day.t :=
  {| Day.date := Day.date day;
     Day.cost := (Day.cost day + ToNumber (Row.cost_micros m) / 1000000)%float;
     Day.clicks := (Day.clicks day + ToNumber (Row.clicks m))%float;
     Day.impressions := (Day.impressions day + ToNumber (Row.impressions m))%float;
     Day.conversions := (Day.conversions day + ToNumber (Row.conversions m))%float;
     Day.revenue := (Day.revenue day + ToNumber (Row.conversions_value m))%float |}.

(** One turn of the loop over [dailyData].  When the date names a member
    of [Object.prototype], [dailyData[date]] is that member: it is truthy,
    nothing is stored in [dailyData] and the sums land on the member. *)
Definition visit (dailyData : object Day.t) (row : DailyRow.t) : result (object Day.t) :=
  s <- get "'date'" (DailyRow.segments_of row) ;;
  let date := DailyRow.date s in
  let key := ToPropertyKey date in
  let dailyData :=
    match own dailyData key with
    | Some _ => dailyData
    | None => if inherited key then dailyData else assign dailyData key (fresh date)
    end in
  m <- get "'cost_micros'" (DailyRow.metrics_of row) ;;
  match own dailyData key with
  | Some day => Ok (assign dailyData key (add_metrics day m))
  | None => Ok dailyData
  end.

Fixpoint visit_all (rows : list DailyRow.t) (dailyData : object Day.t)
  : result (object Day.t) :=
  match rows with
  | [] => Ok dailyData
  | row :: rest =>
    dailyData' <- visit dailyData row ;;
    visit_all rest dailyData'
  end.

Definition getDailyPerformance (results : result (list DailyRow.t)) : result (list Day.t) :=
  rows <- results ;;
  dailyData <- visit_all rows [] ;;
  Ok (Object_values dailyData).

End DashboardViews.

(** ** Second guide: services/shopifyService.js *)

Module ShopifyService.

(** A line item: the product's id, a number ([None] when the property
    is absent), the price as the API sends it, the quantity (a number, or
    absent). *)
Record Item : Type := {
  product_id : option float;
  price : value;
  quantity : field
}.

Record Order : Type := {
  line_items : option (list Item)
}.

Section Sales.

(** The host's global [parseFloat]. *)
Variable parseFloat : value -> float.

(** The three running totals: [totalRevenue], [totalQuantity],
    [orderCount]. *)
Definition Running : Type := (float * float * float)%type.

Definition each_item (productId : string) (acc : Running) (item : Item) : result Running :=
  let '(totalRevenue, totalQuantity, orderCount) := acc in
  id <- get "'toString'" (product_id item) ;;
  if String.eqb (Number_toString id) productId
  then Ok ((totalRevenue + parseFloat (price item) * ToNumber (quantity item))%float,
           (totalQuantity + ToNumber (quantity item))%float,
           (orderCount + 1)%float)
  else Ok acc.

Fixpoint each_items (productId : string) (items : list Item) (acc : Running)
  : result Running :=
  match items with
  | [] => Ok acc
  | item :: rest =>
    acc' <- each_item productId acc item ;;
    each_items productId rest acc'
  end.

Fixpoint each_order (productId : string) (orders : list Order) (acc : Running)
  : result Running :=
  match orders with
  | [] => Ok acc
  | order :: rest =>
    items <- get "'forEach'" (line_items order) ;;
    acc' <- each_items productId items acc ;;
    each_order productId rest acc'
  end.

Definition getProductSales (productId : string) (orders : result (list Order))
  : result Shopify.SalesData.t :=
  os <- orders ;;
  acc <- each_order productId os (0%float, 0%float, 0%float) ;;
  let '(totalRevenue, totalQuantity, orderCount) := acc in
  Ok {| Shopify.SalesData.productId := productId;
        Shopify.SalesData.revenue := totalRevenue;
        Shopify.SalesData.quantity := totalQuantity;
        Shopify.SalesData.orderCount := orderCount;
        Shopify.SalesData.averageOrderValue :=
          if (0 <? orderCount)%float then (totalRevenue / orderCount)%float else 0%float |}.

End Sales.

End ShopifyService.

(** ** Vocabulary of the statements *)

(** The sum of a list of numbers as [reduce] accumulates it: from [0],
    left to right, each step one binary64 addition. *)
Definition sum (xs : list float) : float := fold_left PrimFloat.add xs 0%float.

(** [x >= 0] as JavaScript evaluates it; false for NaN. *)
Definition nonneg (x : float) : bool := (0 <=? x)%float.

(** [x] is a number, not NaN: [x === x]. *)
Definition is_number (x : float) : bool := (x =? x)%float.

(** The totals of the example response of the first guide. *)
Definition example_totals : Dashboard.Totals :=
  {| Dashboard.totalCost := 245.67;
     Dashboard.totalClicks := 1234;
     Dashboard.totalImpressions := 45678;
     Dashboard.totalConversions := 89;
     Dashboard.totalRevenue := 1567.89 |}.

(** Two products for [calculateProductROI]: 100 spent for 250 earned
    (ROI 150) and 100 spent for 90 earned (ROI -10). *)
Definition ad_100 : Shopify.GoogleAdsService.AdData.t :=
  {| Shopify.GoogleAdsService.AdData.productId := "gid-1";
     Shopify.GoogleAdsService.AdData.adSpend := 100;
     Shopify.GoogleAdsService.AdData.conversions := 5;
     Shopify.GoogleAdsService.AdData.revenue := 240;
     Shopify.GoogleAdsService.AdData.roas := 2.4 |}.

Definition sales_of (revenue : float) : Shopify.SalesData.t :=
  {| Shopify.SalesData.productId := "gid-1";
     Shopify.SalesData.revenue := revenue;
     Shopify.SalesData.quantity := 5;
     Shopify.SalesData.orderCount := 4;
     Shopify.SalesData.averageOrderValue := (revenue / 4)%float |}.

Definition roi_150 : Shopify.ROIAnalysisService.ProductROI :=
  Shopify.ROIAnalysisService.calculateProductROI ad_100 (sales_of 250).

Definition roi_minus_10 : Shopify.ROIAnalysisService.ProductROI :=
  Shopify.ROIAnalysisService.calculateProductROI ad_100 (sales_of 90).

(** Totals with nothing spent, clicked or shown. *)
Definition idle_totals : Dashboard.Totals := Dashboard.initial.

(** Totals of 3 spent for 1 earned over 3 clicks and 7 impressions. *)
Definition thirds_totals : Dashboard.Totals :=
  {| Dashboard.totalCost := 3;
     Dashboard.totalClicks := 3;
     Dashboard.totalImpressions := 7;
     Dashboard.totalConversions := 1;
     Dashboard.totalRevenue := 1 |}.

(** The same example totals in the second guide's field names. *)
Definition example_spend : Shopify.GoogleAdsService.Totals :=
  {| Shopify.GoogleAdsService.totalSpend := 245.67;
     Shopify.GoogleAdsService.totalClicks := 1234;
     Shopify.GoogleAdsService.totalImpressions := 45678;
     Shopify.GoogleAdsService.totalConversions := 89;
     Shopify.GoogleAdsService.totalRevenue := 1567.89 |}.

Definition ad_idle : Shopify.GoogleAdsService.AdData.t :=
  {| Shopify.GoogleAdsService.AdData.productId := "gid-2";
     Shopify.GoogleAdsService.AdData.adSpend := 0;
     Shopify.GoogleAdsService.AdData.conversions := 0;
     Shopify.GoogleAdsService.AdData.revenue := 0;
     Shopify.GoogleAdsService.AdData.roas := 0 |}.

(** A row that has both nested objects, whatever leaves they hold. *)
Definition dashboard_complete (row : Dashboard.Row.t) : bool :=
  match Dashboard.Row.campaign_of row, Dashboard.Row.metrics_of row with
  | Some _, Some _ => true
  | _, _ => false
  end.

Definition shopify_complete (row : Shopify.GoogleAdsService.Row.t) : bool :=
  match Shopify.GoogleAdsService.Row.campaign_of row,
        Shopify.GoogleAdsService.Row.metrics_of row with
  | Some _, Some _ => true
  | _, _ => false
  end.

(** [units] is what the field [micros] comes to in currency units: the
    number it holds divided by 1,000,000, and NaN when it is absent. *)
Definition converted (micros : field) (units : float) : Prop :=
  (forall x, micros = Some x -> units = (x / 1000000)%float)
  /\ (micros = None -> units = nan).

(** [c] carries the metrics of [row]: the cost converted from micros, the
    other four copied as they are. *)
Definition dashboard_copy (row : Dashboard.Row.t) (c : Dashboard.Campaign.t) : Prop :=
  exists m, Dashboard.Row.metrics_of row = Some m
  /\ converted (Dashboard.Row.cost_micros m) (Dashboard.Campaign.cost c)
  /\ Dashboard.Campaign.clicks c = Dashboard.Row.clicks m
  /\ Dashboard.Campaign.impressions c = Dashboard.Row.impressions m
  /\ Dashboard.Campaign.conversions c = Dashboard.Row.conversions m
  /\ Dashboard.Campaign.revenue c = Dashboard.Row.conversions_value m.

Definition shopify_copy (row : Shopify.GoogleAdsService.Row.t)
  (c : Shopify.GoogleAdsService.Campaign.t) : Prop :=
  exists m, Shopify.GoogleAdsService.Row.metrics_of row = Some m
  /\ converted (Shopify.GoogleAdsService.Row.cost_micros m)
       (Shopify.GoogleAdsService.Campaign.cost c)
  /\ Shopify.GoogleAdsService.Campaign.clicks c = Shopify.GoogleAdsService.Row.clicks m
  /\ Shopify.GoogleAdsService.Campaign.impressions c
     = Shopify.GoogleAdsService.Row.impressions m
  /\ Shopify.GoogleAdsService.Campaign.conversions c
     = Shopify.GoogleAdsService.Row.conversions m
  /\ Shopify.GoogleAdsService.Campaign.conversionValue c
     = Shopify.GoogleAdsService.Row.conversions_value m.

(** Rows of the dashboard query: one with every field, one whose metrics
    object holds nothing but impressions, one without a metrics object. *)
Definition campaign_7 : Dashboard.Row.campaign :=
  {| Dashboard.Row.id := Num 7;
     Dashboard.Row.name := Str "Spring sale";
     Dashboard.Row.status := Str "ENABLED";
     Dashboard.Row.advertising_channel_type := Str "SEARCH" |}.

Definition full_row : Dashboard.Row.t :=
  {| Dashboard.Row.campaign_of := Some campaign_7;
     Dashboard.Row.metrics_of :=
       Some {| Dashboard.Row.cost_micros := Some 12500000%float;
               Dashboard.Row.clicks := Some 40%float;
               Dashboard.Row.impressions := Some 900%float;
               Dashboard.Row.conversions := Some 2.5%float;
               Dashboard.Row.conversions_value := Some 80.25%float;
               Dashboard.Row.average_cpc := Some 312500%float;
               Dashboard.Row.ctr := Some 0.044%float |} |}.

Definition sparse_row : Dashboard.Row.t :=
  {| Dashboard.Row.campaign_of := Some campaign_7;
     Dashboard.Row.metrics_of :=
       Some {| Dashboard.Row.cost_micros := None;
               Dashboard.Row.clicks := None;
               Dashboard.Row.impressions := Some 900%float;
               Dashboard.Row.conversions := None;
               Dashboard.Row.conversions_value := None;
               Dashboard.Row.average_cpc := None;
               Dashboard.Row.ctr := None |} |}.

Definition headless_row : Dashboard.Row.t :=
  {| Dashboard.Row.campaign_of := Some campaign_7;
     Dashboard.Row.metrics_of := None |}.

(** A row of the second guide's query, 3.75 units spent. *)
Definition spend_row : Shopify.GoogleAdsService.Row.t :=
  {| Shopify.GoogleAdsService.Row.campaign_of :=
       Some {| Shopify.GoogleAdsService.Row.id := Num 7;
               Shopify.GoogleAdsService.Row.name := Str "Spring sale" |};
     Shopify.GoogleAdsService.Row.metrics_of :=
       Some {| Shopify.GoogleAdsService.Row.cost_micros := Some 3750000%float;
               Shopify.GoogleAdsService.Row.clicks := Some 12%float;
               Shopify.GoogleAdsService.Row.impressions := Some 340%float;
               Shopify.GoogleAdsService.Row.conversions := Some 2%float;
               Shopify.GoogleAdsService.Row.conversions_value := Some 19.5%float |} |}.

(** Strictly positive and non-negative values of the binary64 format. *)
Definition SFpos (x : spec_float) : bool :=
  match x with
  | S754_finite false _ _ | S754_infinity false => true
  | _ => false
  end.

Definition SFnonneg (x : spec_float) : bool :=
  match x with
  | S754_zero _ => true
  | S754_finite s _ _ | S754_infinity s => negb s
  | S754_nan => false
  end.

(** The double of an integer count, in the format and as a number. *)
Definition SFcount (n : Z) : spec_float := binary_normalize prec emax n 0 false.

Definition count_float (n : Z) : float := of_uint63 (Uint63.of_Z n).

(** The field [x] holds the non-negative integer [n]. *)
Definition is_count (x : field) (n : Z) : Prop :=
  (0 <= n)%Z /\ x = Some (count_float n).

Definition Zsum (ns : list Z) : Z := fold_right Z.add 0%Z ns.



(** Doubles as the rational numbers they stand for, to compare a total
    with the sum of arithmetic. *)
Module Exact.
Import QArith Qabs.

(** The rational a finite double is; [0] for the others. *)
Definition value (x : float) : Q :=
  match Prim2SF x with
  | S754_finite s m e => ((if s then Zneg m else Zpos m) # 1) * Qpower (2 # 1) e
  | _ => 0
  end.




End Exact.

(** Every metric of a normalized campaign is [>= 0]. *)
Definition dashboard_nonneg (c : Dashboard.Campaign.t) : bool :=
  nonneg (Dashboard.Campaign.cost c)
  && nonneg (ToNumber (Dashboard.Campaign.clicks c))
  && nonneg (ToNumber (Dashboard.Campaign.impressions c))
  && nonneg (ToNumber (Dashboard.Campaign.conversions c))
  && nonneg (ToNumber (Dashboard.Campaign.revenue c)).

Definition shopify_nonneg (c : Shopify.GoogleAdsService.Campaign.t) : bool :=
  nonneg (Shopify.GoogleAdsService.Campaign.cost c)
  && nonneg (ToNumber (Shopify.GoogleAdsService.Campaign.clicks c))
  && nonneg (ToNumber (Shopify.GoogleAdsService.Campaign.impressions c))
  && nonneg (ToNumber (Shopify.GoogleAdsService.Campaign.conversions c))
  && nonneg (ToNumber (Shopify.GoogleAdsService.Campaign.conversionValue c)).

(** The campaign [getCampaigns] builds for a row of [micros] cost and
    [n] clicks. *)
Definition priced (micros : float) (n : Z) : Dashboard.Campaign.t :=
  {| Dashboard.Campaign.id := Num 7;
     Dashboard.Campaign.name := Str "Spring sale";
     Dashboard.Campaign.status := Str "ENABLED";
     Dashboard.Campaign.type := Str "SEARCH";
     Dashboard.Campaign.cost := (micros / 1000000)%float;
     Dashboard.Campaign.clicks := Some (count_float n);
     Dashboard.Campaign.impressions := Some (count_float (20 * n));
     Dashboard.Campaign.conversions := Some 1.5%float;
     Dashboard.Campaign.revenue := Some 30%float;
     Dashboard.Campaign.avgCpc := 0.25%float;
     Dashboard.Campaign.ctr := Some 0.05%float |}.

(** [a] before [b] in non-increasing order of ROI; [roi_no_ascent] says
    it of neighbours, also when an ROI is NaN. *)
Definition roi_ge (a b : Shopify.ROIAnalysisService.ProductROI) : Prop :=
  (Shopify.ROIAnalysisService.roi (Shopify.ROIAnalysisService.fields b)
   <=? Shopify.ROIAnalysisService.roi (Shopify.ROIAnalysisService.fields a))%float = true.

Definition roi_no_ascent (a b : Shopify.ROIAnalysisService.ProductROI) : Prop :=
  (Shopify.ROIAnalysisService.roi (Shopify.ROIAnalysisService.fields a)
   <? Shopify.ROIAnalysisService.roi (Shopify.ROIAnalysisService.fields b))%float = false.

Definition roi_is_number (p : Shopify.ROIAnalysisService.ProductROI) : bool :=
  is_number (Shopify.ROIAnalysisService.roi (Shopify.ROIAnalysisService.fields p)).

(** A product whose sales revenue is NaN, as [getProductSales] returns it
    once a line item has no quantity: its ROI is NaN. *)
Definition roi_nan : Shopify.ROIAnalysisService.ProductROI :=
  Shopify.ROIAnalysisService.calculateProductROI ad_100 (sales_of nan).

(** Another product of ROI 150: 200 spent for 500 earned. *)
Definition roi_150_too : Shopify.ROIAnalysisService.ProductROI :=
  Shopify.ROIAnalysisService.calculateProductROI
    {| Shopify.GoogleAdsService.AdData.productId := "gid-3";
       Shopify.GoogleAdsService.AdData.adSpend := 200;
       Shopify.GoogleAdsService.AdData.conversions := 8;
       Shopify.GoogleAdsService.AdData.revenue := 480;
       Shopify.GoogleAdsService.AdData.roas := 2.4 |}
    {| Shopify.SalesData.productId := "gid-3";
       Shopify.SalesData.revenue := 500;
       Shopify.SalesData.quantity := 10;
       Shopify.SalesData.orderCount := 8;
       Shopify.SalesData.averageOrderValue := 62.5 |}.

(** [x] is finite: neither an infinity nor NaN. *)
Definition is_finite (x : float) : bool := (abs x <? infinity)%float.

(** Totals that break even: 3 spent, 3 earned. *)
Definition even_totals : Dashboard.Totals :=
  {| Dashboard.totalCost := 3;
     Dashboard.totalClicks := 3;
     Dashboard.totalImpressions := 7;
     Dashboard.totalConversions := 1;
     Dashboard.totalRevenue := 3 |}.

(** A campaign row whose five metrics are present and [>= 0]. *)
Definition row_nonneg (row : Dashboard.Row.t) : bool :=
  match Dashboard.Row.campaign_of row, Dashboard.Row.metrics_of row with
  | Some _, Some m =>
    nonneg (ToNumber (Dashboard.Row.cost_micros m))
    && nonneg (ToNumber (Dashboard.Row.clicks m))
    && nonneg (ToNumber (Dashboard.Row.impressions m))
    && nonneg (ToNumber (Dashboard.Row.conversions m))
    && nonneg (ToNumber (Dashboard.Row.conversions_value m))
  | _, _ => false
  end.

(** The campaign of the row is enabled. *)
Definition row_enabled (row : Dashboard.Row.t) : bool :=
  match Dashboard.Row.campaign_of row with
  | Some c => strict_eq_string (Dashboard.Row.status c) "ENABLED"
  | None => false
  end.

Definition paused_row : Dashboard.Row.t :=
  {| Dashboard.Row.campaign_of :=
       Some {| Dashboard.Row.id := Num 8;
               Dashboard.Row.name := Str "Clearance";
               Dashboard.Row.status := Str "PAUSED";
               Dashboard.Row.advertising_channel_type := Str "SHOPPING" |};
     Dashboard.Row.metrics_of := Dashboard.Row.metrics_of full_row |}.

(** A shopping row of the second guide with its metrics object. *)
Definition shopify_has_metrics (row : Shopify.GoogleAdsService.Row.t) : bool :=
  match Shopify.GoogleAdsService.Row.metrics_of row with
  | Some _ => true
  | None => false
  end.

Definition shopify_cost (row : Shopify.GoogleAdsService.Row.t) : float :=
  match Shopify.GoogleAdsService.Row.metrics_of row with
  | Some m => (ToNumber (Shopify.GoogleAdsService.Row.cost_micros m) / 1000000)%float
  | None => nan
  end.

Definition shopify_conversions (row : Shopify.GoogleAdsService.Row.t) : float :=
  match Shopify.GoogleAdsService.Row.metrics_of row with
  | Some m => ToNumber (Shopify.GoogleAdsService.Row.conversions m)
  | None => nan
  end.

Definition shopify_value (row : Shopify.GoogleAdsService.Row.t) : float :=
  match Shopify.GoogleAdsService.Row.metrics_of row with
  | Some m => ToNumber (Shopify.GoogleAdsService.Row.conversions_value m)
  | None => nan
  end.

Definition shopping_row (micros value : float) : Shopify.GoogleAdsService.Row.t :=
  {| Shopify.GoogleAdsService.Row.campaign_of := None;
     Shopify.GoogleAdsService.Row.metrics_of :=
       Some {| Shopify.GoogleAdsService.Row.cost_micros := Some micros;
               Shopify.GoogleAdsService.Row.clicks := Some 12%float;
               Shopify.GoogleAdsService.Row.impressions := Some 340%float;
               Shopify.GoogleAdsService.Row.conversions := Some 2%float;
               Shopify.GoogleAdsService.Row.conversions_value := Some value |} |}.

(** [c] is the record [getCampaigns] pushes for [row]. *)
Definition dashboard_pushed (row : Dashboard.Row.t) (c : Dashboard.Campaign.t) : Prop :=
  Dashboard.push_row row = Ok c.

(** Rows of the ad-group, keyword and product queries with every nested
    object present, and what the pushed record takes from its row. *)
Definition adgroup_complete (row : DashboardViews.AdGroupRow.t) : bool :=
  match DashboardViews.AdGroupRow.ad_group_of row,
        DashboardViews.AdGroupRow.campaign_of row,
        DashboardViews.AdGroupRow.metrics_of row with
  | Some _, Some _, Some _ => true
  | _, _, _ => false
  end.

Definition adgroup_copy (row : DashboardViews.AdGroupRow.t) (a : DashboardViews.AdGroup.t)
  : Prop :=
  exists g c m,
    DashboardViews.AdGroupRow.ad_group_of row = Some g
    /\ DashboardViews.AdGroupRow.campaign_of row = Some c
    /\ DashboardViews.AdGroupRow.metrics_of row = Some m
    /\ DashboardViews.AdGroup.id a = DashboardViews.AdGroupRow.id g
    /\ DashboardViews.AdGroup.name a = DashboardViews.AdGroupRow.name g
    /\ DashboardViews.AdGroup.status a = DashboardViews.AdGroupRow.status g
    /\ DashboardViews.AdGroup.campaignName a = DashboardViews.AdGroupRow.campaign_name c
    /\ converted (Dashboard.Row.cost_micros m) (DashboardViews.AdGroup.cost a)
    /\ DashboardViews.AdGroup.clicks a = Dashboard.Row.clicks m
    /\ DashboardViews.AdGroup.impressions a = Dashboard.Row.impressions m
    /\ DashboardViews.AdGroup.conversions a = Dashboard.Row.conversions m
    /\ DashboardViews.AdGroup.revenue a = Dashboard.Row.conversions_value m.

Definition keyword_complete (row : DashboardViews.KeywordRow.t) : bool :=
  match DashboardViews.KeywordRow.ad_group_criterion_of row,
        DashboardViews.KeywordRow.ad_group_of row,
        DashboardViews.KeywordRow.campaign_of row,
        DashboardViews.KeywordRow.metrics_of row with
  | Some crit, Some _, Some _, Some _ =>
    match DashboardViews.KeywordRow.keyword_of crit with
    | Some _ => true
    | None => false
    end
  | _, _, _, _ => false
  end.

Definition keyword_copy (row : DashboardViews.KeywordRow.t) (k : DashboardViews.Keyword.t)
  : Prop :=
  exists crit kw g c m,
    DashboardViews.KeywordRow.ad_group_criterion_of row = Some crit
    /\ DashboardViews.KeywordRow.keyword_of crit = Some kw
    /\ DashboardViews.KeywordRow.ad_group_of row = Some g
    /\ DashboardViews.KeywordRow.campaign_of row = Some c
    /\ DashboardViews.KeywordRow.metrics_of row = Some m
    /\ DashboardViews.Keyword.keyword k = DashboardViews.KeywordRow.text kw
    /\ DashboardViews.Keyword.matchType k = DashboardViews.KeywordRow.match_type kw
    /\ DashboardViews.Keyword.adGroup k = DashboardViews.KeywordRow.name g
    /\ DashboardViews.Keyword.campaign k = DashboardViews.KeywordRow.name c
    /\ converted (Dashboard.Row.cost_micros m) (DashboardViews.Keyword.cost k)
    /\ converted (Dashboard.Row.average_cpc m) (DashboardViews.Keyword.avgCpc k)
    /\ DashboardViews.Keyword.clicks k = Dashboard.Row.clicks m
    /\ DashboardViews.Keyword.impressions k = Dashboard.Row.impressions m
    /\ DashboardViews.Keyword.conversions k = Dashboard.Row.conversions m
    /\ DashboardViews.Keyword.revenue k = Dashboard.Row.conversions_value m.

Definition product_complete (row : DashboardViews.ProductRow.t) : bool :=
  match DashboardViews.ProductRow.segments_of row,
        DashboardViews.ProductRow.metrics_of row with
  | Some _, Some _ => true
  | _, _ => false
  end.

(** The product pushed for [row]: identity and metrics copied, the cost
    converted, and the two ratios in their three cases. *)
Definition product_copy (row : DashboardViews.ProductRow.t) (p : DashboardViews.Product.t)
  : Prop :=
  exists sg m,
    DashboardViews.ProductRow.segments_of row = Some sg
    /\ DashboardViews.ProductRow.metrics_of row = Some m
    /\ DashboardViews.Product.productId p = DashboardViews.ProductRow.product_item_id sg
    /\ DashboardViews.Product.productTitle p = DashboardViews.ProductRow.product_title sg
    /\ converted (Dashboard.Row.cost_micros m) (DashboardViews.Product.cost p)
    /\ DashboardViews.Product.clicks p = Dashboard.Row.clicks m
    /\ DashboardViews.Product.impressions p = Dashboard.Row.impressions m
    /\ DashboardViews.Product.conversions p = Dashboard.Row.conversions m
    /\ DashboardViews.Product.revenue p = Dashboard.Row.conversions_value m
    /\ ((0 <? DashboardViews.Product.cost p)%float = false ->
          DashboardViews.Product.roas p = Num 0 /\ DashboardViews.Product.roi p = Num 0)
    /\ (Dashboard.Row.cost_micros m = None ->
          DashboardViews.Product.roas p = Num 0 /\ DashboardViews.Product.roi p = Num 0)
    /\ ((0 <? DashboardViews.Product.cost p)%float = true ->
        Dashboard.Row.conversions_value m = None ->
          DashboardViews.Product.roas p = Str "NaN"
          /\ DashboardViews.Product.roi p = Str "NaN")
    /\ ((0 <? DashboardViews.Product.cost p)%float = true ->
        is_finite (DashboardViews.Product.cost p) = true ->
        Dashboard.Row.conversions_value m = Some (DashboardViews.Product.cost p) ->
          DashboardViews.Product.roas p = Str "1.00"
          /\ DashboardViews.Product.roi p = Str "0.00").

Definition metrics_7 : Dashboard.Row.metrics :=
  {| Dashboard.Row.cost_micros := Some 12500000%float;
     Dashboard.Row.clicks := Some 40%float;
     Dashboard.Row.impressions := Some 900%float;
     Dashboard.Row.conversions := Some 2.5%float;
     Dashboard.Row.conversions_value := Some 80.25%float;
     Dashboard.Row.average_cpc := Some 312500%float;
     Dashboard.Row.ctr := Some 0.044%float |}.

Definition adgroup_row : DashboardViews.AdGroupRow.t :=
  {| DashboardViews.AdGroupRow.ad_group_of :=
       Some {| DashboardViews.AdGroupRow.id := Num 31;
               DashboardViews.AdGroupRow.name := Str "Shoes";
               DashboardViews.AdGroupRow.status := Str "ENABLED" |};
     DashboardViews.AdGroupRow.campaign_of :=
       Some {| DashboardViews.AdGroupRow.campaign_name := Str "Spring sale" |};
     DashboardViews.AdGroupRow.metrics_of := Some metrics_7 |}.

Definition keyword_row : DashboardViews.KeywordRow.t :=
  {| DashboardViews.KeywordRow.ad_group_criterion_of :=
       Some {| DashboardViews.KeywordRow.keyword_of :=
                 Some {| DashboardViews.KeywordRow.text := Str "running shoes";
                         DashboardViews.KeywordRow.match_type := Str "PHRASE" |} |};
     DashboardViews.KeywordRow.ad_group_of :=
       Some {| DashboardViews.KeywordRow.name := Str "Shoes" |};
     DashboardViews.KeywordRow.campaign_of :=
       Some {| DashboardViews.KeywordRow.name := Str "Spring sale" |};
     DashboardViews.KeywordRow.metrics_of := Some metrics_7 |}.

(** A keyword row whose criterion has no [keyword] object. *)
Definition criterion_only_row : DashboardViews.KeywordRow.t :=
  {| DashboardViews.KeywordRow.ad_group_criterion_of :=
       Some {| DashboardViews.KeywordRow.keyword_of := None |};
     DashboardViews.KeywordRow.ad_group_of :=
       Some {| DashboardViews.KeywordRow.name := Str "Shoes" |};
     DashboardViews.KeywordRow.campaign_of :=
       Some {| DashboardViews.KeywordRow.name := Str "Spring sale" |};
     DashboardViews.KeywordRow.metrics_of := Some metrics_7 |}.

Definition product_row (micros value : field) : DashboardViews.ProductRow.t :=
  {| DashboardViews.ProductRow.segments_of :=
       Some {| DashboardViews.ProductRow.product_item_id := Str "sku-9";
               DashboardViews.ProductRow.product_title := Str "Trail shoe" |};
     DashboardViews.ProductRow.metrics_of :=
       Some {| Dashboard.Row.cost_micros := micros;
               Dashboard.Row.clicks := Some 40%float;
               Dashboard.Row.impressions := Some 900%float;
               Dashboard.Row.conversions := Some 2.5%float;
               Dashboard.Row.conversions_value := value;
               Dashboard.Row.average_cpc := None;
               Dashboard.Row.ctr := None |} |}.

(** A key that is neither inherited from [Object.prototype] nor an array
    index: properties under such keys are enumerated in creation order. *)
Definition plain_key (k : string) : bool :=
  negb (inherited k) && negb (is_array_index k).

(** The key [getDailyPerformance] files a row under. *)
Definition daily_key (row : DashboardViews.DailyRow.t) : string :=
  match DashboardViews.DailyRow.segments_of row with
  | Some s => ToPropertyKey (DashboardViews.DailyRow.date s)
  | None => "undefined"
  end.

Definition daily_date (row : DashboardViews.DailyRow.t) : option string :=
  match DashboardViews.DailyRow.segments_of row with
  | Some s => DashboardViews.DailyRow.date s
  | None => None
  end.

Definition daily_complete (row : DashboardViews.DailyRow.t) : bool :=
  match DashboardViews.DailyRow.segments_of row, DashboardViews.DailyRow.metrics_of row with
  | Some _, Some _ => true
  | _, _ => false
  end.

Definition daily_plain (row : DashboardViews.DailyRow.t) : bool :=
  daily_complete row && plain_key (daily_key row).

(** One metric of a daily row, as the loop adds it. *)
Definition daily_metric (f : Dashboard.Row.metrics -> float) (row : DashboardViews.DailyRow.t)
  : float :=
  match DashboardViews.DailyRow.metrics_of row with
  | Some m => f m
  | None => nan
  end.

(** The distinct elements of a list in order of first appearance. *)
Definition first_seen (ks : list string) : list string :=
  rev (nodup string_dec (rev ks)).

(** The rows filed under [k]. *)
Definition rows_of (k : string) (rows : list DashboardViews.DailyRow.t)
  : list DashboardViews.DailyRow.t :=
  filter (fun row => String.eqb (daily_key row) k) rows.

(** The day made of the rows [rs]: the date of the first, each metric
    summed over all of them. *)
Definition day_total (rs : list DashboardViews.DailyRow.t) : DashboardViews.Day.t :=
  {| DashboardViews.Day.date :=
       match rs with r :: _ => daily_date r | [] => None end;
     DashboardViews.Day.cost :=
       sum (map (daily_metric
                   (fun m => (ToNumber (Dashboard.Row.cost_micros m) / 1000000)%float)) rs);
     DashboardViews.Day.clicks :=
       sum (map (daily_metric (fun m => ToNumber (Dashboard.Row.clicks m))) rs);
     DashboardViews.Day.impressions :=
       sum (map (daily_metric (fun m => ToNumber (Dashboard.Row.impressions m))) rs);
     DashboardViews.Day.conversions :=
       sum (map (daily_metric (fun m => ToNumber (Dashboard.Row.conversions m))) rs);
     DashboardViews.Day.revenue :=
       sum (map (daily_metric (fun m => ToNumber (Dashboard.Row.conversions_value m))) rs) |}.

(** The five [+=] for one row, and the day they build from the rows of
    one date. *)
Definition daily_add (d : DashboardViews.Day.t) (row : DashboardViews.DailyRow.t)
  : DashboardViews.Day.t :=
  {| DashboardViews.Day.date := DashboardViews.Day.date d;
     DashboardViews.Day.cost :=
       (DashboardViews.Day.cost d
        + daily_metric (fun m => (ToNumber (Dashboard.Row.cost_micros m) / 1000000)%float)
            row)%float;
     DashboardViews.Day.clicks :=
       (DashboardViews.Day.clicks d
        + daily_metric (fun m => ToNumber (Dashboard.Row.clicks m)) row)%float;
     DashboardViews.Day.impressions :=
       (DashboardViews.Day.impressions d
        + daily_metric (fun m => ToNumber (Dashboard.Row.impressions m)) row)%float;
     DashboardViews.Day.conversions :=
       (DashboardViews.Day.conversions d
        + daily_metric (fun m => ToNumber (Dashboard.Row.conversions m)) row)%float;
     DashboardViews.Day.revenue :=
       (DashboardViews.Day.revenue d
        + daily_metric (fun m => ToNumber (Dashboard.Row.conversions_value m)) row)%float |}.

Definition day_fold (rs : list DashboardViews.DailyRow.t) : DashboardViews.Day.t :=
  fold_left daily_add rs
    (DashboardViews.fresh (match rs with r :: _ => daily_date r | [] => None end)).

(** [dailyData] after a plain row: its day created or advanced. *)
Definition daily_step (o : object DashboardViews.Day.t) (row : DashboardViews.DailyRow.t)
  : object DashboardViews.Day.t :=
  assign o (daily_key row)
    (daily_add (match own o (daily_key row) with
                | Some d => d
                | None => DashboardViews.fresh (daily_date row)
                end) row).

(** [dailyData] after the rows [rows]. *)
Definition daily_state (rows : list DashboardViews.DailyRow.t) : object DashboardViews.Day.t :=
  map (fun k => (k, day_fold (rows_of k rows))) (first_seen (map daily_key rows)).

(** The string holds a hyphen, as dates written YYYY-MM-DD do. *)
Fixpoint has_hyphen (s : string) : bool :=
  match s with
  | EmptyString => false
  | String c s' => Ascii.eqb c "-" || has_hyphen s'
  end.

(** A field of the metrics object of a daily row. *)
Definition daily_field (g : Dashboard.Row.metrics -> field) (row : DashboardViews.DailyRow.t)
  : field :=
  match DashboardViews.DailyRow.metrics_of row with
  | Some m => g m
  | None => None
  end.

(** One day per distinct date, in order of first appearance. *)
Definition daily_groups (rows : list DashboardViews.DailyRow.t) : list DashboardViews.Day.t :=
  map (fun k => day_total (rows_of k rows)) (first_seen (map daily_key rows)).

Definition daily_row (date : option string) (micros clicks : float)
  : DashboardViews.DailyRow.t :=
  {| DashboardViews.DailyRow.segments_of := Some {| DashboardViews.DailyRow.date := date |};
     DashboardViews.DailyRow.metrics_of :=
       Some {| Dashboard.Row.cost_micros := Some micros;
               Dashboard.Row.clicks := Some clicks;
               Dashboard.Row.impressions := Some 100%float;
               Dashboard.Row.conversions := Some 1%float;
               Dashboard.Row.conversions_value := Some 20%float;
               Dashboard.Row.average_cpc := None;
               Dashboard.Row.ctr := None |} |}.

(** A daily row without its [metrics] object. *)
Definition dateless_metrics_row : DashboardViews.DailyRow.t :=
  {| DashboardViews.DailyRow.segments_of :=
       Some {| DashboardViews.DailyRow.date := Some "2026-01-23" |};
     DashboardViews.DailyRow.metrics_of := None |}.

(** Three rows over two days, the later day first. *)
Definition january_rows : list DashboardViews.DailyRow.t :=
  [daily_row (Some "2026-01-22") 100000 3;
   daily_row (Some "2026-01-21") 200000 4;
   daily_row (Some "2026-01-22") 300000 5].

(** The integer part of a finite double. *)
Definition float_to_Z (x : float) : Z :=
  match Prim2SF x with
  | S754_finite s m e =>
    let n := match e with
             | Zneg k => (Zpos m / 2 ^ Zpos k)%Z
             | _ => (Zpos m * 2 ^ e)%Z
             end in
    if s then (- n)%Z else n
  | _ => 0%Z
  end.

Definition daily_clicks (row : DashboardViews.DailyRow.t) : Z :=
  float_to_Z (ToNumber (daily_field Dashboard.Row.clicks row)).

Definition daily_impressions (row : DashboardViews.DailyRow.t) : Z :=
  float_to_Z (ToNumber (daily_field Dashboard.Row.impressions row)).

(** *** Line items of Shopify orders *)

Definition has_id (item : ShopifyService.Item) : bool :=
  match ShopifyService.product_id item with
  | Some _ => true
  | None => false
  end.

(** The line item is one of product [productId]: its id, printed by
    [toString], is [productId]. *)
Definition sold (productId : string) (item : ShopifyService.Item) : bool :=
  match ShopifyService.product_id item with
  | Some id => String.eqb (Number_toString id) productId
  | None => false
  end.

(** The line items of all orders, in the order they are visited. *)
Definition all_items (orders : list ShopifyService.Order) : list ShopifyService.Item :=
  flat_map (fun o => match ShopifyService.line_items o with
                     | Some items => items
                     | None => []
                     end) orders.

(** The message of the TypeError the traversal runs into first, if any:
    an order without [line_items], or a line item without [product_id]. *)
Fixpoint sales_fault (orders : list ShopifyService.Order) : option string :=
  match orders with
  | [] => None
  | o :: rest =>
    match ShopifyService.line_items o with
    | None => Some "Cannot read properties of undefined (reading 'forEach')"
    | Some items =>
      if forallb has_id items then sales_fault rest
      else Some "Cannot read properties of undefined (reading 'toString')"
    end
  end.

(** ** Order facts about binary64 comparison *)

Section Comparison.

Lemma SFcompare_swap (x y : spec_float) :
  SFcompare y x = option_map CompOpp (SFcompare x y).
Proof.
  destruct x as [sx|sx| |sx mx ex], y as [sy|sy| |sy my ey]; simpl; try reflexivity;
    try (destruct sx; reflexivity); try (destruct sy; reflexivity);
    try (destruct sx, sy; reflexivity).
  change (Pos.compare_cont Eq) with Pos.compare.
  rewrite (Z.compare_antisym ey ex), (Pos.compare_antisym my mx).
  destruct sx, sy, (Z.compare ey ex), (Pos.compare my mx); reflexivity.
Qed.

Ltac cmp_cases :=
  repeat match goal with
  | |- context [Z.compare ?a ?b] => destruct (Z.compare_spec a b)
  | H : context [Z.compare ?a ?b] |- _ => destruct (Z.compare_spec a b)
  | |- context [Pos.compare ?a ?b] => destruct (Pos.compare_spec a b)
  | H : context [Pos.compare ?a ?b] |- _ => destruct (Pos.compare_spec a b)
  end.

Ltac sf_cases x y z :=
  destruct x as [[|]|[|]| |[|] ? ?], y as [[|]|[|]| |[|] ? ?], z as [[|]|[|]| |[|] ? ?];
  simpl; try discriminate; try reflexivity;
  change (Pos.compare_cont Eq) with Pos.compare;
  cmp_cases; simpl; try discriminate; try reflexivity; intros; subst; try lia.

Lemma SFleb_trans (x y z : spec_float) :
  SFleb x y = true -> SFleb y z = true -> SFleb x z = true.
Proof. unfold SFleb. sf_cases x y z. Qed.

Lemma leb_trans (x y z : float) :
  (x <=? y)%float = true -> (y <=? z)%float = true -> (x <=? z)%float = true.
Proof. rewrite !leb_spec. apply SFleb_trans. Qed.

Lemma leb_not_gt (x y : float) :
  (x <=? y)%float = true -> (y <? x)%float = false.
Proof.
  rewrite leb_spec, ltb_spec. unfold SFleb, SFltb.
  rewrite (SFcompare_swap (Prim2SF x) (Prim2SF y)).
  destruct (SFcompare (Prim2SF x) (Prim2SF y)) as [[| |]|]; simpl; congruence.
Qed.

Lemma eqb_not_gt (x y : float) :
  (x =? y)%float = true -> (y <? x)%float = false.
Proof.
  rewrite eqb_spec, ltb_spec. unfold SFeqb, SFltb.
  rewrite (SFcompare_swap (Prim2SF x) (Prim2SF y)).
  destruct (SFcompare (Prim2SF x) (Prim2SF y)) as [[| |]|]; simpl; congruence.
Qed.

(** For numbers, [y < x] is the negation of [x <= y]. *)
Lemma ltb_negb_leb (x y : float) :
  is_number x = true -> is_number y = true ->
  (y <? x)%float = negb (x <=? y)%float.
Proof.
  unfold is_number. rewrite !eqb_spec, leb_spec, ltb_spec.
  unfold SFeqb, SFleb, SFltb.
  rewrite (SFcompare_swap (Prim2SF x) (Prim2SF y)).
  destruct (Prim2SF x) as [[|]|[|]| |[|] mx ex], (Prim2SF y) as [[|]|[|]| |[|] my ey];
    simpl; try discriminate; intros _ _; try reflexivity;
    destruct (Z.compare ex ey); simpl; try reflexivity;
    destruct (Pos.compare_cont Eq mx my); reflexivity.
Qed.

End Comparison.

(** ** Rounding facts about binary64 addition and subtraction *)

Section Binary64.

Local Open Scope Z_scope.

(** Iterated halving of a mantissa. *)
Lemma iter_pos_nat {A} (f : A -> A) (p : positive) (x : A) :
  iter_pos f p x = Nat.iter (Pos.to_nat p) f x.
Proof.
  revert x. induction p as [p IH|p IH|]; intros x; simpl iter_pos.
  - rewrite !IH, Pos2Nat.inj_xI. simpl Nat.mul. rewrite Nat.add_0_r.
    rewrite <- Nat.iter_add. rewrite <- Nat.iter_succ_r. reflexivity.
  - rewrite !IH, Pos2Nat.inj_xO. simpl Nat.mul. rewrite Nat.add_0_r.
    rewrite <- Nat.iter_add. reflexivity.
  - reflexivity.
Qed.

Lemma shr_1_m (mrs : shr_record) :
  0 <= shr_m mrs -> shr_m (shr_1 mrs) = shr_m mrs / 2.
Proof.
  destruct mrs as [m r s]. simpl. intros Hm.
  rewrite <- Z.div2_div.
  destruct m as [|[p|p|]|p]; simpl; try reflexivity; lia.
Qed.

Lemma shr_iter_m (n : nat) (mrs : shr_record) :
  0 <= shr_m mrs -> shr_m (Nat.iter n shr_1 mrs) = shr_m mrs / 2 ^ Z.of_nat n.
Proof.
  intros Hm. induction n as [|n IH].
  - simpl. now rewrite Z.div_1_r.
  - rewrite Nat.iter_succ, shr_1_m, IH.
    + rewrite Z.div_div by lia. f_equal. rewrite Nat2Z.inj_succ, Z.pow_succ_r; lia.
    + rewrite IH. apply Z.div_pos; lia.
Qed.

Lemma shr_iter_exact (n : nat) (k : Z) :
  0 <= k ->
  Nat.iter n shr_1 {| shr_m := k * 2 ^ Z.of_nat n; shr_r := false; shr_s := false |}
  = {| shr_m := k; shr_r := false; shr_s := false |}.
Proof.
  revert k. induction n as [|n IH]; intros k Hk.
  - simpl. now rewrite Z.mul_1_r.
  - rewrite Nat.iter_succ_r.
    replace (k * 2 ^ Z.of_nat (S n)) with (2 * (k * 2 ^ Z.of_nat n))
      by (rewrite Nat2Z.inj_succ, Z.pow_succ_r; lia).
    assert (Hpos : 0 <= k * 2 ^ Z.of_nat n) by (apply Z.mul_nonneg_nonneg; lia).
    destruct (k * 2 ^ Z.of_nat n) as [|q|q] eqn:E; [| |lia].
    + simpl shr_1. rewrite <- E. now apply IH.
    + simpl shr_1. rewrite <- E. now apply IH.
Qed.

(** Bit lengths. *)
Lemma digits2_log2 (p : positive) : Z.pos (digits2_pos p) = Z.log2 (Z.pos p) + 1.
Proof.
  induction p as [p IH|p IH|]; simpl digits2_pos; try reflexivity;
    rewrite Pos2Z.inj_succ, IH; destruct p; simpl; lia.
Qed.

Lemma digits2_bounds (p : positive) :
  2 ^ (Z.pos (digits2_pos p) - 1) <= Z.pos p < 2 ^ Z.pos (digits2_pos p).
Proof.
  rewrite digits2_log2. replace (Z.log2 (Z.pos p) + 1 - 1) with (Z.log2 (Z.pos p)) by lia.
  apply Z.log2_spec. lia.
Qed.


Lemma fexp_eq (e : Z) : fexp prec emax e = Z.max (e - 53) (-1074).
Proof. reflexivity. Qed.

Lemma shr_record_of_loc_m (m : Z) (l : location) : shr_m (shr_record_of_loc m l) = m.
Proof. destruct l as [|[| |]]; reflexivity. Qed.

Lemma shr_fexp_m (m e : Z) (l : location) :
  0 <= m ->
  let k := Z.max 0 (fexp prec emax (Zdigits2 m + e) - e) in
  shr_m (fst (shr_fexp prec emax m e l)) = m / 2 ^ k
  /\ snd (shr_fexp prec emax m e l) = e + k.
Proof.
  intros Hm k. subst k. unfold shr_fexp, shr.
  destruct (fexp prec emax (Zdigits2 m + e) - e) as [|p|p] eqn:E; simpl fst; simpl snd.
  - rewrite shr_record_of_loc_m. simpl. rewrite Z.div_1_r. lia.
  - rewrite iter_pos_nat, shr_iter_m by (rewrite shr_record_of_loc_m; exact Hm).
    rewrite shr_record_of_loc_m, positive_nat_Z.
    replace (Z.max 0 (Z.pos p)) with (Z.pos p) by lia. split; reflexivity.
  - rewrite shr_record_of_loc_m. simpl. rewrite Z.div_1_r. lia.
Qed.

Lemma Zdigits2_bounds (m : Z) :
  0 < m -> 2 ^ (Zdigits2 m - 1) <= m < 2 ^ Zdigits2 m.
Proof.
  destruct m as [|p|p]; try lia. intros _. apply digits2_bounds.
Qed.

Lemma Zdigits2_pos (m : Z) : 0 < m -> 0 < Zdigits2 m.
Proof. destruct m; simpl; lia. Qed.

Lemma shr_fexp_pos (m e : Z) (l : location) :
  0 < m -> -1074 <= e ->
  0 < shr_m (fst (shr_fexp prec emax m e l))
  /\ -1074 <= snd (shr_fexp prec emax m e l).
Proof.
  intros Hm He.
  destruct (shr_fexp_m m e l) as [Hs He']; [lia|]. rewrite Hs, He'.
  pose proof (Zdigits2_bounds m Hm) as [Hlo _].
  pose proof (Zdigits2_pos m Hm) as Hd.
  rewrite fexp_eq. split; [|lia].
  apply Z.div_str_pos. split; [apply Z.pow_pos_nonneg; lia|].
  eapply Z.le_trans; [|exact Hlo].
  apply Z.pow_le_mono_r; lia.
Qed.

Lemma round_nearest_even_ge (m : Z) (l : location) : m <= round_nearest_even m l.
Proof.
  destruct l as [|[| |]]; simpl; try lia. destruct (Z.even m); lia.
Qed.

Lemma binary_round_aux_pos (m e : Z) (l : location) :
  0 < m -> -1074 <= e -> SFpos (binary_round_aux prec emax false m e l) = true.
Proof.
  intros Hm He. unfold binary_round_aux.
  destruct (shr_fexp_pos m e l Hm He) as [H1 H2].
  destruct (shr_fexp prec emax m e l) as [mrs' e']. simpl fst in *; simpl snd in *.
  pose proof (round_nearest_even_ge (shr_m mrs') (loc_of_shr_record mrs')) as Hr.
  destruct (shr_fexp_pos (round_nearest_even (shr_m mrs') (loc_of_shr_record mrs')) e' loc_Exact)
    as [H3 H4]; [lia|lia|].
  destruct (shr_fexp prec emax _ e' loc_Exact) as [mrs'' e'']. simpl fst in *; simpl snd in *.
  destruct (shr_m mrs'') as [|q|q]; try lia.
  destruct (e'' <=? emax - prec); reflexivity.
Qed.

Lemma binary_round_aux_nonneg (m e : Z) (l : location) :
  0 <= m -> SFnonneg (binary_round_aux prec emax false m e l) = true.
Proof.
  intros Hm. unfold binary_round_aux.
  destruct (shr_fexp_m m e l Hm) as [H1 _].
  destruct (shr_fexp prec emax m e l) as [mrs' e']. simpl fst in *.
  pose proof (round_nearest_even_ge (shr_m mrs') (loc_of_shr_record mrs')) as Hr.
  assert (H0 : 0 <= shr_m mrs') by (rewrite H1; apply Z.div_pos; [lia|apply Z.pow_pos_nonneg; lia]).
  destruct (shr_fexp_m (round_nearest_even (shr_m mrs') (loc_of_shr_record mrs')) e' loc_Exact)
    as [H3 _]; [lia|].
  destruct (shr_fexp prec emax _ e' loc_Exact) as [mrs'' e'']. simpl fst in *.
  assert (H4 : 0 <= shr_m mrs'').
  { rewrite H3. apply Z.div_pos; [lia|apply Z.pow_pos_nonneg; lia]. }
  destruct (shr_m mrs'') as [|q|q]; try lia; try reflexivity.
  destruct (e'' <=? emax - prec); reflexivity.
Qed.

(** Alignment of two mantissas on the smaller exponent. *)
Lemma iter_xO_val (m d : positive) : Z.pos (Pos.iter xO m d) = Z.pos m * 2 ^ Z.pos d.
Proof.
  induction d as [|d IH] using Pos.peano_ind.
  - simpl. lia.
  - rewrite Pos.iter_succ, Pos2Z.inj_xO, IH, Pos2Z.inj_succ, Z.pow_succ_r; lia.
Qed.

Lemma shl_align_val (m : positive) (e e' : Z) :
  Z.pos (fst (shl_align m e e')) = Z.pos m * 2 ^ Z.max 0 (e - e')
  /\ snd (shl_align m e e') = Z.min e e'.
Proof.
  unfold shl_align. destruct (e' - e) as [|d|d] eqn:E; simpl fst; simpl snd.
  - replace (Z.max 0 (e - e')) with 0 by lia. simpl. lia.
  - replace (Z.max 0 (e - e')) with 0 by lia. simpl. lia.
  - rewrite iter_xO_val. replace (Z.max 0 (e - e')) with (Z.pos d) by lia. lia.
Qed.

Lemma binary_round_pos (m : positive) (e : Z) :
  -1074 <= e -> SFpos (binary_round prec emax false m e) = true.
Proof.
  intros He. unfold binary_round.
  destruct (shl_align_val m e (fexp prec emax (Z.pos (digits2_pos m) + e))) as [_ H2].
  destruct (shl_align m e _) as [mz ez]. simpl snd in H2.
  apply binary_round_aux_pos; [lia|]. rewrite H2, fexp_eq. lia.
Qed.

Lemma binary_round_nonneg (m : positive) (e : Z) :
  SFnonneg (binary_round prec emax false m e) = true.
Proof.
  unfold binary_round. destruct (shl_align m e _) as [mz ez].
  apply binary_round_aux_nonneg. lia.
Qed.


Lemma SFadd_nonneg (x y : spec_float) :
  SFnonneg x = true -> SFnonneg y = true -> SFnonneg (SF64add x y) = true.
Proof.
  destruct x as [[|]|[|]| |[|] mx ex], y as [[|]|[|]| |[|] my ey];
    simpl; try discriminate; try reflexivity.
  intros _ _. unfold SF64add, SFadd, cond_Zopp.
  destruct (shl_align mx ex (Z.min ex ey)) as [mx' ?].
  destruct (shl_align my ey (Z.min ex ey)) as [my' ?].
  simpl fst. simpl Z.add. unfold binary_normalize. apply binary_round_nonneg.
Qed.

Lemma leb_zero_nonneg (x : float) : (0 <=? x)%float = SFnonneg (Prim2SF x).
Proof.
  rewrite leb_spec. change (Prim2SF 0) with (S754_zero false).
  destruct (Prim2SF x) as [[|]|[|]| |[|] mx ex]; reflexivity.
Qed.

Lemma add_nonneg (x y : float) :
  (0 <=? x)%float = true -> (0 <=? y)%float = true -> (0 <=? x + y)%float = true.
Proof.
  rewrite !leb_zero_nonneg, add_spec. apply SFadd_nonneg.
Qed.

(** The sign of a difference is the order of its operands. *)
Lemma valid_finite (s : bool) (m : positive) (e : Z) :
  valid_binary (S754_finite s m e) = true ->
  -1074 <= e /\ Z.pos (digits2_pos m) <= 53
  /\ (-1074 < e -> Z.pos (digits2_pos m) = 53).
Proof.
  simpl. unfold bounded, canonical_mantissa. rewrite andb_true_iff, Z.eqb_eq, fexp_eq.
  intros [H _]. lia.
Qed.

Lemma aligned_lt (mx my : positive) (ex ey : Z) :
  valid_binary (S754_finite false mx ex) = true ->
  valid_binary (S754_finite false my ey) = true ->
  ey < ex -> Z.pos my < Z.pos mx * 2 ^ (ex - ey).
Proof.
  intros Vx Vy Hlt.
  apply valid_finite in Vx as (Hx1 & Hx2 & Hx3), Vy as (Hy1 & Hy2 & Hy3).
  pose proof (digits2_bounds mx) as [Hlo _]. pose proof (digits2_bounds my) as [_ Hhi].
  rewrite Hx3 in Hlo by lia.
  assert (Z.pos my < 2 ^ 53).
  { eapply Z.lt_le_trans; [exact Hhi|]. apply Z.pow_le_mono_r; lia. }
  assert (2 ^ 1 <= 2 ^ (ex - ey)) by (apply Z.pow_le_mono_r; lia).
  change (2 ^ 53) with (2 ^ 52 * 2 ^ 1) in H.
  change (53 - 1) with 52 in Hlo. nia.
Qed.

Lemma SFltb_zero_normalize (d e : Z) :
  -1074 <= e ->
  SFltb (S754_zero false) (binary_normalize prec emax d e false) = (0 <? d).
Proof.
  intros He. destruct d as [|p|p]; simpl binary_normalize.
  - reflexivity.
  - pose proof (binary_round_pos p e He) as H.
    destruct (binary_round prec emax false p e) as [[|]|[|]| |[|] m' e']; try discriminate; reflexivity.
  - unfold binary_round. destruct (shl_align p e _) as [mz ez].
    unfold binary_round_aux.
    destruct (shr_fexp prec emax (Z.pos mz) ez loc_Exact) as [mrs' e'].
    destruct (shr_fexp prec emax _ e' loc_Exact) as [mrs'' e''].
    destruct (shr_m mrs''); try reflexivity.
    destruct (e'' <=? emax - prec); reflexivity.
Qed.

Lemma SFsub_sign (x y : spec_float) :
  valid_binary x = true -> valid_binary y = true ->
  SFltb (S754_zero false) (SF64sub x y) = SFltb y x.
Proof.
  intros Vx Vy.
  destruct x as [[|]|[|]| |sx mx ex], y as [[|]|[|]| |sy my ey];
    try reflexivity;
    try (destruct sx; reflexivity); try (destruct sy; reflexivity).
  unfold SF64sub, SFsub.
  pose proof (valid_finite _ _ _ Vx) as (Hx & _). pose proof (valid_finite _ _ _ Vy) as (Hy & _).
  rewrite SFltb_zero_normalize by lia.
  destruct (shl_align_val mx ex (Z.min ex ey)) as [Ax _].
  destruct (shl_align_val my ey (Z.min ex ey)) as [Ay _].
  rewrite Ax, Ay. unfold SFltb, SFcompare, cond_Zopp.
  change (Pos.compare_cont Eq) with Pos.compare.
  assert (Px : 0 < 2 ^ Z.max 0 (ex - Z.min ex ey)) by (apply Z.pow_pos_nonneg; lia).
  assert (Py : 0 < 2 ^ Z.max 0 (ey - Z.min ex ey)) by (apply Z.pow_pos_nonneg; lia).
  destruct sx, sy; try (apply Z.ltb_lt; nia); try (apply Z.ltb_ge; nia).
  - (* both negative *)
    destruct (Z.compare_spec ey ex) as [E|E|E].
    + subst. replace (Z.max 0 (ex - Z.min ex ex)) with 0 by lia. simpl Z.pow.
      rewrite (Pos.compare_antisym mx my), CompOpp_involutive.
      destruct (Pos.compare_spec mx my); [apply Z.ltb_ge|apply Z.ltb_lt|apply Z.ltb_ge]; lia.
    + pose proof (aligned_lt mx my ex ey) as H. simpl valid_binary in *. specialize (H Vx Vy E).
      replace (Z.max 0 (ex - Z.min ex ey)) with (ex - ey) by lia.
      replace (Z.max 0 (ey - Z.min ex ey)) with 0 by lia. apply Z.ltb_ge. lia.
    + pose proof (aligned_lt my mx ey ex) as H. simpl valid_binary in *. specialize (H Vy Vx E).
      replace (Z.max 0 (ey - Z.min ex ey)) with (ey - ex) by lia.
      replace (Z.max 0 (ex - Z.min ex ey)) with 0 by lia. apply Z.ltb_lt. lia.
  - (* both positive *)
    destruct (Z.compare_spec ey ex) as [E|E|E].
    + subst. replace (Z.max 0 (ex - Z.min ex ex)) with 0 by lia. simpl Z.pow.
      destruct (Pos.compare_spec my mx); [apply Z.ltb_ge|apply Z.ltb_lt|apply Z.ltb_ge]; lia.
    + pose proof (aligned_lt mx my ex ey) as H. simpl valid_binary in *. specialize (H Vx Vy E).
      replace (Z.max 0 (ex - Z.min ex ey)) with (ex - ey) by lia.
      replace (Z.max 0 (ey - Z.min ex ey)) with 0 by lia. apply Z.ltb_lt. lia.
    + pose proof (aligned_lt my mx ey ex) as H. simpl valid_binary in *. specialize (H Vy Vx E).
      replace (Z.max 0 (ey - Z.min ex ey)) with (ey - ex) by lia.
      replace (Z.max 0 (ex - Z.min ex ey)) with 0 by lia. apply Z.ltb_ge. lia.
Qed.

(** [x - y > 0] exactly when [y < x]; both are false when an operand is
    NaN or when the operands are equal infinities. *)
Lemma sub_sign (x y : float) : (0 <? x - y)%float = (y <? x)%float.
Proof.
  rewrite !ltb_spec, sub_spec. apply SFsub_sign; apply Prim2SF_valid.
Qed.


(** Values that fit in 53 bits are rounded to themselves. *)
Lemma shr_fexp_canonical (q : positive) (e : Z) :
  Z.pos (digits2_pos q) = 53 -> -1074 <= e ->
  shr_fexp prec emax (Z.pos q) e loc_Exact
  = ({| shr_m := Z.pos q; shr_r := false; shr_s := false |}, e).
Proof.
  intros Hd He. unfold shr_fexp. simpl Zdigits2. rewrite Hd, fexp_eq.
  replace (Z.max (53 + e - 53) (-1074) - e) with 0 by lia. reflexivity.
Qed.

Lemma binary_round_aux_finish (m e : Z) (q : positive) (e' : Z) :
  shr_fexp prec emax m e loc_Exact
  = ({| shr_m := Z.pos q; shr_r := false; shr_s := false |}, e') ->
  Z.pos (digits2_pos q) = 53 -> -1074 <= e' <= 971 ->
  binary_round_aux prec emax false m e loc_Exact = S754_finite false q e'.
Proof.
  intros Hs Hd He. unfold binary_round_aux. rewrite Hs.
  simpl loc_of_shr_record. simpl round_nearest_even.
  rewrite (shr_fexp_canonical q e' Hd) by lia. simpl shr_m.
  replace (e' <=? emax - prec) with true; [reflexivity|].
  symmetry. apply Z.leb_le. change (emax - prec) with 971. lia.
Qed.

Lemma digits2_shift (p q : positive) (k : Z) :
  0 <= k -> Z.pos p = Z.pos q * 2 ^ k ->
  Z.pos (digits2_pos p) = Z.pos (digits2_pos q) + k.
Proof.
  intros Hk E. rewrite !digits2_log2, E, Z.log2_mul_pow2; lia.
Qed.

(** [p = q * 2^k]: the low [k] bits are shifted out, all zero. *)
Lemma binary_round_shr (p q : positive) (e k : Z) :
  0 <= k -> Z.pos p = Z.pos q * 2 ^ k ->
  Z.pos (digits2_pos q) = 53 -> -1074 <= e + k <= 971 ->
  binary_round prec emax false p e = S754_finite false q (e + k).
Proof.
  intros Hk E Hd He. unfold binary_round.
  pose proof (digits2_shift p q k Hk E) as Hp.
  rewrite Hp, Hd, fexp_eq. replace (Z.max (53 + k + e - 53) (-1074)) with (e + k) by lia.
  unfold shl_align. replace (e + k - e) with k by lia.
  assert (Hfin : binary_round_aux prec emax false (Z.pos p) e loc_Exact
                 = S754_finite false q (e + k)).
  { apply binary_round_aux_finish; [|exact Hd|exact He].
    unfold shr_fexp. simpl Zdigits2. rewrite Hp, Hd, fexp_eq.
    replace (Z.max (53 + k + e - 53) (-1074) - e) with k by lia.
    unfold shr. destruct k as [|kk|kk]; [| |lia].
    - assert (p = q) by (change (2 ^ 0) with 1 in E; lia). subst p.
      rewrite Z.add_0_r. reflexivity.
    - simpl shr_record_of_loc. rewrite iter_pos_nat, E, <- (positive_nat_Z kk).
      rewrite shr_iter_exact by lia. rewrite positive_nat_Z. reflexivity. }
  destruct k; [exact Hfin|exact Hfin|lia].
Qed.

(** [q = p * 2^k]: the mantissa is widened to 53 bits. *)
Lemma binary_round_shl (p q : positive) (e k : Z) :
  0 <= k -> Z.pos q = Z.pos p * 2 ^ k ->
  Z.pos (digits2_pos q) = 53 -> -1074 <= e - k <= 971 ->
  binary_round prec emax false p e = S754_finite false q (e - k).
Proof.
  intros Hk E Hd He. unfold binary_round.
  pose proof (digits2_shift q p k Hk E) as Hp.
  replace (Z.pos (digits2_pos p)) with (53 - k) by lia.
  rewrite fexp_eq. replace (Z.max (53 - k + e - 53) (-1074)) with (e - k) by lia.
  destruct (shl_align_val p e (e - k)) as [Hv He'].
  destruct (shl_align p e (e - k)) as [mz ez]. simpl fst in Hv; simpl snd in He'.
  replace (Z.max 0 (e - (e - k))) with k in Hv by lia.
  assert (mz = q) by lia. subst mz. replace ez with (e - k) by lia.
  apply binary_round_aux_finish; [|exact Hd|exact He].
  apply shr_fexp_canonical; [exact Hd|lia].
Qed.

Lemma SFcount_pos (n : Z) :
  0 < n < 2 ^ 53 ->
  exists q, SFcount n = S754_finite false q (Zdigits2 n - 53)
            /\ Z.pos q = n * 2 ^ (53 - Zdigits2 n)
            /\ Z.pos (digits2_pos q) = 53.
Proof.
  intros [Hn Hlt]. destruct n as [|p|p]; try lia.
  pose proof (digits2_bounds p) as [Hlo Hhi]. simpl Zdigits2.
  assert (Hd : Z.pos (digits2_pos p) <= 53).
  { destruct (Z.le_gt_cases (Z.pos (digits2_pos p)) 53) as [H|H]; [exact H|].
    assert (2 ^ 53 <= 2 ^ (Z.pos (digits2_pos p) - 1)) by (apply Z.pow_le_mono_r; lia). lia. }
  set (k := 53 - Z.pos (digits2_pos p)).
  assert (Hq : 0 < Z.pos p * 2 ^ k) by (apply Z.mul_pos_pos; [lia|apply Z.pow_pos_nonneg; lia]).
  destruct (Z.pos p * 2 ^ k) as [|q|q] eqn:E; try lia.
  exists q. assert (Hdq : Z.pos (digits2_pos q) = 53).
  { rewrite (digits2_shift q p k); subst k; lia. }
  split; [|split; [reflexivity|exact Hdq]].
  unfold SFcount, binary_normalize.
  replace (Z.pos (digits2_pos p) - 53) with (0 - k) by (subst k; lia).
  apply binary_round_shl; subst k; lia.
Qed.

Lemma Zdigits2_mono (a b : Z) : 0 < a -> a <= b -> Zdigits2 a <= Zdigits2 b.
Proof.
  intros Ha Hab. destruct a as [|p|p], b as [|q|q]; try lia. simpl.
  rewrite !digits2_log2. pose proof (Z.log2_le_mono (Z.pos p) (Z.pos q) Hab). lia.
Qed.

Lemma SFcount_add (a b : Z) :
  0 <= a -> 0 <= b -> a + b < 2 ^ 53 ->
  SF64add (SFcount a) (SFcount b) = SFcount (a + b).
Proof.
  intros Ha Hb Hc.
  destruct (Z.eq_dec a 0) as [->|Na].
  { simpl Z.add. destruct (Z.eq_dec b 0) as [->|Nb]; [reflexivity|].
    destruct (SFcount_pos b) as (q & E & _); [lia|]. rewrite E. reflexivity. }
  destruct (Z.eq_dec b 0) as [->|Nb].
  { rewrite Z.add_0_r. destruct (SFcount_pos a) as (q & E & _); [lia|]. rewrite E. reflexivity. }
  destruct (SFcount_pos a) as (qa & Ea & Va & Da); [lia|].
  destruct (SFcount_pos b) as (qb & Eb & Vb & Db); [lia|].
  destruct (SFcount_pos (a + b)) as (qc & Ec & Vc & Dc); [lia|].
  pose proof (Zdigits2_mono a (a + b) ltac:(lia) ltac:(lia)) as Ma.
  pose proof (Zdigits2_mono b (a + b) ltac:(lia) ltac:(lia)) as Mb.
  pose proof (Zdigits2_pos a ltac:(lia)) as Pa. pose proof (Zdigits2_pos b ltac:(lia)) as Pb.
  pose proof (Zdigits2_bounds (a + b)) as [Hlo _]; [lia|].
  assert (Hdc : Zdigits2 (a + b) <= 53).
  { destruct (Z.le_gt_cases (Zdigits2 (a + b)) 53) as [H|H]; [exact H|].
    assert (2 ^ 53 <= 2 ^ (Zdigits2 (a + b) - 1)) by (apply Z.pow_le_mono_r; lia). lia. }
  rewrite Ea, Eb, Ec. unfold SF64add, SFadd, cond_Zopp.
  set (ez := Z.min (Zdigits2 a - 53) (Zdigits2 b - 53)).
  destruct (shl_align_val qa (Zdigits2 a - 53) ez) as [Aa _].
  destruct (shl_align_val qb (Zdigits2 b - 53) ez) as [Ab _].
  assert (Sa : Z.pos (fst (shl_align qa (Zdigits2 a - 53) ez)) = a * 2 ^ (- ez)).
  { rewrite Aa, Va, <- Z.mul_assoc, <- Z.pow_add_r by lia. f_equal. f_equal. lia. }
  assert (Sb : Z.pos (fst (shl_align qb (Zdigits2 b - 53) ez)) = b * 2 ^ (- ez)).
  { rewrite Ab, Vb, <- Z.mul_assoc, <- Z.pow_add_r by lia. f_equal. f_equal. lia. }
  destruct (shl_align qa (Zdigits2 a - 53) ez) as [ma ?].
  destruct (shl_align qb (Zdigits2 b - 53) ez) as [mb ?]. simpl fst in *.
  simpl Z.add. unfold binary_normalize.
  set (k := Zdigits2 (a + b) - 53 - ez).
  replace (Zdigits2 (a + b) - 53) with (ez + k) by (subst k; lia).
  apply binary_round_shr; try (subst k ez; lia).
  rewrite Pos2Z.inj_add, Sa, Sb, Vc, <- Z.mul_add_distr_r, <- Z.mul_assoc, <- Z.pow_add_r
    by (subst k ez; lia).
  f_equal. f_equal. subst k. lia.
Qed.

Lemma Prim2SF_count (n : Z) : 0 <= n < 2 ^ 53 -> Prim2SF (count_float n) = SFcount n.
Proof.
  intros Hn. unfold count_float. rewrite of_uint63_spec, Uint63.of_Z_spec.
  rewrite Z.mod_small; [reflexivity|]. change Uint63.wB with (2 ^ 63). 
  assert (2 ^ 53 < 2 ^ 63) by reflexivity. lia.
Qed.

Lemma count_float_add (a b : Z) :
  0 <= a -> 0 <= b -> a + b < 2 ^ 53 ->
  (count_float a + count_float b)%float = count_float (a + b).
Proof.
  intros Ha Hb Hc. apply Prim2SF_inj.
  rewrite add_spec, !Prim2SF_count by lia. now apply SFcount_add.
Qed.

End Binary64.

(** ** The recommendation rule engine *)

Section Recommendation.

Import Shopify.ROIAnalysisService.

Lemma below_not_gt (x a b : float) :
  (x <=? a)%float = true -> (a <=? b)%float = true -> (b <? x)%float = false.
Proof.
  intros Hxa Hab. apply leb_not_gt. exact (leb_trans x a b Hxa Hab).
Qed.

(** C1. Every ROI record gets one recommendation, chosen by the first
    matching threshold from the top, each threshold strict:
    [roi > 100] gives INCREASE_BUDGET with change [0.25];
    [30 < roi <= 100] gives MAINTAIN_BUDGET with [0];
    [0 < roi <= 30] gives OPTIMIZE with [0];
    [roi <= 0] gives DECREASE_BUDGET with [-0.4];
    so [roi] equal to 100, 30 and 0 fall to MAINTAIN_BUDGET, OPTIMIZE and
    DECREASE_BUDGET. *)
Theorem getRecommendation_tiers (r : ROI) :
  let rec := getRecommendation r in
  ((100 <? roi r)%float = true ->
     action rec = INCREASE_BUDGET /\ suggestedBudgetChange rec = 0.25%float) /\
  ((30 <? roi r)%float = true -> (roi r <=? 100)%float = true ->
     action rec = MAINTAIN_BUDGET /\ suggestedBudgetChange rec = 0%float) /\
  ((0 <? roi r)%float = true -> (roi r <=? 30)%float = true ->
     action rec = OPTIMIZE /\ suggestedBudgetChange rec = 0%float) /\
  ((roi r <=? 0)%float = true ->
     action rec = DECREASE_BUDGET /\ suggestedBudgetChange rec = (-0.4)%float) /\
  (roi r = 100%float -> action rec = MAINTAIN_BUDGET) /\
  (roi r = 30%float -> action rec = OPTIMIZE) /\
  (roi r = 0%float -> action rec = DECREASE_BUDGET).
Proof.
  assert (T2 : (30 <? roi r)%float = true -> (roi r <=? 100)%float = true ->
     action (getRecommendation r) = MAINTAIN_BUDGET
     /\ suggestedBudgetChange (getRecommendation r) = 0%float).
  { intros H30 H100. unfold getRecommendation.
    rewrite (leb_not_gt _ _ H100), H30. split; reflexivity. }
  assert (T3 : (0 <? roi r)%float = true -> (roi r <=? 30)%float = true ->
     action (getRecommendation r) = OPTIMIZE
     /\ suggestedBudgetChange (getRecommendation r) = 0%float).
  { intros H0 H30. unfold getRecommendation.
    rewrite (below_not_gt _ 30 100 H30 eq_refl), (leb_not_gt _ _ H30), H0.
    split; reflexivity. }
  assert (T4 : (roi r <=? 0)%float = true ->
     action (getRecommendation r) = DECREASE_BUDGET
     /\ suggestedBudgetChange (getRecommendation r) = (-0.4)%float).
  { intros H0. unfold getRecommendation.
    rewrite (below_not_gt _ 0 100 H0 eq_refl), (below_not_gt _ 0 30 H0 eq_refl),
      (leb_not_gt _ _ H0).
    split; reflexivity. }
  cbv zeta. split; [|split; [|split; [|split; [|split; [|split]]]]].
  - intros H. unfold getRecommendation. rewrite H. split; reflexivity.
  - exact T2.
  - exact T3.
  - exact T4.
  - intros E. apply T2; rewrite E; reflexivity.
  - intros E. apply T3; rewrite E; reflexivity.
  - intros E. apply T4; rewrite E; reflexivity.
Qed.

(** The examples of the rule table: an ROI of 150 and one of -10. *)
Lemma getRecommendation_tiers_witness :
  ((100 <? roi (fields roi_150))%float = true /\
   action (getRecommendation (fields roi_150)) = INCREASE_BUDGET /\
   suggestedBudgetChange (getRecommendation (fields roi_150)) = 0.25%float) /\
  ((roi (fields roi_minus_10) <=? 0)%float = true /\
   action (getRecommendation (fields roi_minus_10)) = DECREASE_BUDGET /\
   suggestedBudgetChange (getRecommendation (fields roi_minus_10)) = (-0.4)%float).
Proof.
  split; (split; [reflexivity|]).
  - apply (getRecommendation_tiers (fields roi_150)). reflexivity.
  - apply (getRecommendation_tiers (fields roi_minus_10)). reflexivity.
Defined.

End Recommendation.

(** ** The derived-metric calculator *)

Section DerivedMetrics.

Import Shopify.ROIAnalysisService.

Local Abbreviation D := Dashboard.calculateMetrics.
Local Abbreviation G := Shopify.GoogleAdsService.calculateMetrics.

(** C2. A zero denominator is never divided by: with [totalCost = 0] the
    ROAS and ROI are [0], with [totalClicks = 0] the CPC and conversion
    rate are [0], with [totalImpressions = 0] the CTR is [0]; the
    calculators are total functions, so nothing is thrown.  This holds for
    the dashboard summary, the Shopify summary and [calculateProductROI]. *)
Theorem zero_denominator_gives_zero
  (t : Dashboard.Totals) (s : Shopify.GoogleAdsService.Totals)
  (adData : Shopify.GoogleAdsService.AdData.t) (salesData : Shopify.SalesData.t) :
  ((Dashboard.totalCost t =? 0)%float = true ->
     Dashboard.roas (D t) = Num 0 /\ Dashboard.roi (D t) = Num 0) /\
  ((Dashboard.totalClicks t =? 0)%float = true ->
     Dashboard.avgCpc (D t) = Num 0 /\ Dashboard.conversionRate (D t) = Num 0) /\
  ((Dashboard.totalImpressions t =? 0)%float = true ->
     Dashboard.avgCtr (D t) = Num 0) /\
  ((Shopify.GoogleAdsService.totalSpend s =? 0)%float = true ->
     Shopify.GoogleAdsService.roas (G s) = 0%float) /\
  ((Shopify.GoogleAdsService.totalClicks s =? 0)%float = true ->
     Shopify.GoogleAdsService.cpc (G s) = 0%float
     /\ Shopify.GoogleAdsService.conversionRate (G s) = 0%float) /\
  ((Shopify.GoogleAdsService.AdData.adSpend adData =? 0)%float = true ->
     roi (fields (calculateProductROI adData salesData)) = 0%float).
Proof.
  repeat apply conj; intros H; apply eqb_not_gt in H; cbn; rewrite H;
    try split; reflexivity.
Qed.

Lemma zero_denominator_gives_zero_witness :
  ((Dashboard.totalCost idle_totals =? 0)%float = true /\
   Dashboard.roas (D idle_totals) = Num 0 /\ Dashboard.roi (D idle_totals) = Num 0) /\
  ((Dashboard.totalClicks idle_totals =? 0)%float = true /\
   Dashboard.avgCpc (D idle_totals) = Num 0
   /\ Dashboard.conversionRate (D idle_totals) = Num 0) /\
  ((Dashboard.totalImpressions idle_totals =? 0)%float = true /\
   Dashboard.avgCtr (D idle_totals) = Num 0) /\
  ((Shopify.GoogleAdsService.AdData.adSpend ad_idle =? 0)%float = true /\
   roi (fields (calculateProductROI ad_idle (sales_of 0))) = 0%float).
Proof.
  pose proof (zero_denominator_gives_zero idle_totals
                Shopify.GoogleAdsService.initial ad_idle (sales_of 0))
    as (H1 & H2 & H3 & _ & _ & H6).
  repeat apply conj;
    try (apply H1; reflexivity); try (apply H2; reflexivity);
    try (apply H3; reflexivity); try (apply H6; reflexivity); reflexivity.
Defined.

(** C3, as the code has it. With a positive denominator the dashboard
    summary stores each ratio formatted by [toFixed(2)], a string of the
    value rounded to two decimals: ROAS [revenue / cost], ROI
    [((revenue - cost) / cost) * 100], CPC [cost / clicks], conversion rate
    [(conversions / clicks) * 100] and CTR [(clicks / impressions) * 100].
    The Shopify summary and [calculateProductROI] keep ROAS, CPC,
    conversion rate and ROI as the unformatted numbers. *)
Theorem positive_denominator_metrics
  (t : Dashboard.Totals) (s : Shopify.GoogleAdsService.Totals)
  (adData : Shopify.GoogleAdsService.AdData.t) (salesData : Shopify.SalesData.t) :
  ((0 <? Dashboard.totalCost t)%float = true ->
     Dashboard.roas (D t)
       = Str (toFixed (Dashboard.totalRevenue t / Dashboard.totalCost t) 2)
     /\ Dashboard.roi (D t)
       = Str (toFixed (((Dashboard.totalRevenue t - Dashboard.totalCost t)
                        / Dashboard.totalCost t) * 100) 2)) /\
  ((0 <? Dashboard.totalClicks t)%float = true ->
     Dashboard.avgCpc (D t)
       = Str (toFixed (Dashboard.totalCost t / Dashboard.totalClicks t) 2)
     /\ Dashboard.conversionRate (D t)
       = Str (toFixed ((Dashboard.totalConversions t / Dashboard.totalClicks t) * 100) 2)) /\
  ((0 <? Dashboard.totalImpressions t)%float = true ->
     Dashboard.avgCtr (D t)
       = Str (toFixed ((Dashboard.totalClicks t / Dashboard.totalImpressions t) * 100) 2)) /\
  ((0 <? Shopify.GoogleAdsService.totalSpend s)%float = true ->
     Shopify.GoogleAdsService.roas (G s)
       = (Shopify.GoogleAdsService.totalRevenue s
          / Shopify.GoogleAdsService.totalSpend s)%float) /\
  ((0 <? Shopify.GoogleAdsService.totalClicks s)%float = true ->
     Shopify.GoogleAdsService.cpc (G s)
       = (Shopify.GoogleAdsService.totalSpend s
          / Shopify.GoogleAdsService.totalClicks s)%float
     /\ Shopify.GoogleAdsService.conversionRate (G s)
       = ((Shopify.GoogleAdsService.totalConversions s
           / Shopify.GoogleAdsService.totalClicks s) * 100)%float) /\
  ((0 <? Shopify.GoogleAdsService.AdData.adSpend adData)%float = true ->
     roi (fields (calculateProductROI adData salesData))
       = (((Shopify.SalesData.revenue salesData
            - Shopify.GoogleAdsService.AdData.adSpend adData)
           / Shopify.GoogleAdsService.AdData.adSpend adData) * 100)%float).
Proof.
  repeat apply conj; intros H; cbn; rewrite H; try split; reflexivity.
Qed.

Lemma positive_denominator_metrics_witness :
  (0 <? Dashboard.totalCost thirds_totals)%float = true /\
  Dashboard.roas (D thirds_totals) = Str "0.33" /\
  Dashboard.roi (D thirds_totals) = Str "-66.67" /\
  (0 <? Shopify.GoogleAdsService.AdData.adSpend ad_100)%float = true /\
  roi (fields (calculateProductROI ad_100 (sales_of 250))) = 150%float.
Proof.
  pose proof (positive_denominator_metrics thirds_totals example_spend ad_100 (sales_of 250))
    as (H1 & _ & _ & _ & _ & H6).
  split; [reflexivity|].
  split; [exact (proj1 (H1 eq_refl))|].
  split; [exact (proj2 (H1 eq_refl))|].
  split; [reflexivity|].
  exact (H6 eq_refl).
Defined.

(** C3 as stated fails on the dashboard summary: for 1 earned on 3 spent
    the stored ROAS is the string "0.33", not the quotient [1 / 3]. *)
Lemma dashboard_roas_is_not_the_quotient :
  (0 <? Dashboard.totalCost thirds_totals)%float = true /\
  Dashboard.roas (D thirds_totals) = Str "0.33" /\
  Dashboard.roas (D thirds_totals)
    <> Num (Dashboard.totalRevenue thirds_totals / Dashboard.totalCost thirds_totals).
Proof.
  split; [reflexivity|]. split; [reflexivity|].
  intros H. vm_compute in H. discriminate H.
Qed.

(** C8, as the code has it. For the totals of the guide's example response
    the dashboard summary holds ROAS "6.38", ROI "538.21", CPC "0.20",
    conversion rate "7.21" and CTR "2.70"; the unformatted ROAS, CPC and
    conversion rate of the Shopify summary agree with them to two
    decimals. *)
Theorem example_response_metrics :
  D example_totals
    = {| Dashboard.roas := Str "6.38";
         Dashboard.roi := Str "538.21";
         Dashboard.avgCpc := Str "0.20";
         Dashboard.conversionRate := Str "7.21";
         Dashboard.avgCtr := Str "2.70" |}
  /\ toFixed (Shopify.GoogleAdsService.roas (G example_spend)) 2 = "6.38"
  /\ toFixed (Shopify.GoogleAdsService.cpc (G example_spend)) 2 = "0.20"
  /\ toFixed (Shopify.GoogleAdsService.conversionRate (G example_spend)) 2 = "7.21".
Proof.
  repeat apply conj; vm_compute; reflexivity.
Qed.

(** C8 as stated fails in its ROI figure: the summary does not hold
    "538.08", and the unrounded ROI of the example totals exceeds 538.2. *)
Lemma example_response_roi_is_not_538_08 :
  Dashboard.roi (D example_totals) <> Str "538.08"
  /\ (538.2 <? ((Dashboard.totalRevenue example_totals - Dashboard.totalCost example_totals)
                / Dashboard.totalCost example_totals) * 100)%float = true.
Proof.
  split; [|reflexivity].
  intros H. vm_compute in H. discriminate H.
Qed.

End DerivedMetrics.

(** ** The row normalizer *)

Section Normalizer.

(** Dividing what [ToNumber] makes of the field is the conversion. *)
Lemma converted_div (micros : field) : converted micros (ToNumber micros / 1000000)%float.
Proof.
  split.
  - intros x ->. reflexivity.
  - intros ->. reflexivity.
Qed.

Lemma dashboard_push_rows_ok (rows : list Dashboard.Row.t) :
  forallb dashboard_complete rows = true ->
  forall acc, exists cs,
    Dashboard.push_rows rows acc = Ok (acc ++ cs)%list /\ Forall2 dashboard_copy rows cs.
Proof.
  induction rows as [|row rest IH]; simpl; intros Hall acc.
  - exists []. rewrite app_nil_r. split; constructor.
  - apply andb_true_iff in Hall as [Hrow Hrest].
    unfold dashboard_complete in Hrow. unfold Dashboard.push_row.
    destruct (Dashboard.Row.campaign_of row) as [c|] eqn:Ec; [|discriminate].
    destruct (Dashboard.Row.metrics_of row) as [m|] eqn:Em; [|discriminate].
    cbn [get bind].
    match goal with |- context [(acc ++ [?x])%list] => set (pushed := x) end.
    destruct (IH Hrest (acc ++ [pushed])%list) as (cs & Hcs & Hcopy).
    exists (pushed :: cs). rewrite Hcs, <- app_assoc. split; [reflexivity|].
    constructor; [|exact Hcopy].
    exists m. rewrite Em. split; [reflexivity|]. split; [apply converted_div|].
    repeat split; reflexivity.
Qed.

Lemma dashboard_push_rows_throw (rows : list Dashboard.Row.t) :
  forallb dashboard_complete rows = false ->
  forall acc, exists msg, Dashboard.push_rows rows acc = Throw (TypeError msg).
Proof.
  induction rows as [|row rest IH]; simpl; intros Hall acc; [discriminate|].
  unfold Dashboard.push_row.
  destruct (dashboard_complete row) eqn:Hrow; unfold dashboard_complete in Hrow;
    destruct (Dashboard.Row.campaign_of row) as [c|];
    destruct (Dashboard.Row.metrics_of row) as [m|]; try discriminate;
    cbn [get bind]; eauto.
Qed.

Lemma shopify_push_rows_ok (rows : list Shopify.GoogleAdsService.Row.t) :
  forallb shopify_complete rows = true ->
  forall acc, exists cs,
    Shopify.GoogleAdsService.push_rows rows acc = Ok (acc ++ cs)%list
    /\ Forall2 shopify_copy rows cs.
Proof.
  induction rows as [|row rest IH]; simpl; intros Hall acc.
  - exists []. rewrite app_nil_r. split; constructor.
  - apply andb_true_iff in Hall as [Hrow Hrest].
    unfold shopify_complete in Hrow. unfold Shopify.GoogleAdsService.push_row.
    destruct (Shopify.GoogleAdsService.Row.campaign_of row) as [c|] eqn:Ec; [|discriminate].
    destruct (Shopify.GoogleAdsService.Row.metrics_of row) as [m|] eqn:Em; [|discriminate].
    cbn [get bind].
    match goal with |- context [(acc ++ [?x])%list] => set (pushed := x) end.
    destruct (IH Hrest (acc ++ [pushed])%list) as (cs & Hcs & Hcopy).
    exists (pushed :: cs). rewrite Hcs, <- app_assoc. split; [reflexivity|].
    constructor; [|exact Hcopy].
    exists m. rewrite Em. split; [reflexivity|]. split; [apply converted_div|].
    repeat split; reflexivity.
Qed.

(** C7. Rows whose [campaign] and [metrics] objects are present are all
    normalized, one record per row in order: the cost is the number in
    [cost_micros] divided by 1,000,000 (NaN if the row has none) and
    clicks, impressions, conversions and revenue are the row's own values,
    in [getCampaigns] and in [getAdSpend]. *)
Theorem normalizer_converts_and_copies
  (rows : list Dashboard.Row.t) (rows' : list Shopify.GoogleAdsService.Row.t) :
  (forallb dashboard_complete rows = true ->
     exists cs, Dashboard.getCampaigns (Ok rows) = Ok cs /\ Forall2 dashboard_copy rows cs) /\
  (forallb shopify_complete rows' = true ->
     exists cs, Shopify.GoogleAdsService.getAdSpend (Ok rows') = Ok cs
                /\ Forall2 shopify_copy rows' cs).
Proof.
  split; intros H.
  - destruct (dashboard_push_rows_ok rows H []) as (cs & Hcs & Hcopy). eauto.
  - destruct (shopify_push_rows_ok rows' H []) as (cs & Hcs & Hcopy). eauto.
Qed.

Lemma normalizer_converts_and_copies_witness :
  (forallb dashboard_complete [full_row] = true /\
   exists c, Dashboard.getCampaigns (Ok [full_row]) = Ok [c]
             /\ Dashboard.Campaign.cost c = 12.5%float
             /\ Dashboard.Campaign.clicks c = Some 40%float
             /\ Dashboard.Campaign.revenue c = Some 80.25%float) /\
  (forallb shopify_complete [spend_row] = true /\
   exists c, Shopify.GoogleAdsService.getAdSpend (Ok [spend_row]) = Ok [c]
             /\ Shopify.GoogleAdsService.Campaign.cost c = 3.75%float
             /\ Shopify.GoogleAdsService.Campaign.conversionValue c = Some 19.5%float).
Proof.
  split; (split; [reflexivity|]).
  - destruct (proj1 (normalizer_converts_and_copies [full_row] []) eq_refl)
      as (cs & Hcs & Hcopy).
    inversion Hcopy as [|r c rs cs' Hc Hrest]; subst.
    inversion Hrest; subst.
    exists c. split; [exact Hcs|].
    destruct Hc as (m & Hm & Hcost & Hclicks & _ & _ & Hrevenue).
    injection Hm as <-.
    split; [exact (proj1 Hcost _ eq_refl)|]. split; [exact Hclicks|exact Hrevenue].
  - destruct (proj2 (normalizer_converts_and_copies [] [spend_row]) eq_refl)
      as (cs & Hcs & Hcopy).
    inversion Hcopy as [|r c rs cs' Hc Hrest]; subst.
    inversion Hrest; subst.
    exists c. split; [exact Hcs|].
    destruct Hc as (m & Hm & Hcost & _ & _ & _ & Hvalue).
    injection Hm as <-.
    split; [exact (proj1 Hcost _ eq_refl)|exact Hvalue].
Defined.

(** C6, as the code has it. The normalizer validates nothing.  A row
    without its [campaign] or [metrics] object makes the property read
    throw a TypeError, which reaches the caller and leaves no list; a
    rejected query is passed on as it is.  Rows that only lack leaf fields
    are normalized without an error, whatever is missing. *)
Theorem normalizer_failure_modes (rows : list Dashboard.Row.t) :
  (forallb dashboard_complete rows = false ->
     exists msg, Dashboard.getCampaigns (Ok rows) = Throw (TypeError msg)) /\
  (forallb dashboard_complete rows = true ->
     exists cs, Dashboard.getCampaigns (Ok rows) = Ok cs
                /\ List.length cs = List.length rows) /\
  (forall e, Dashboard.getCampaigns (Throw e) = Throw e).
Proof.
  repeat apply conj.
  - intros H. exact (dashboard_push_rows_throw rows H []).
  - intros H. destruct (dashboard_push_rows_ok rows H []) as (cs & Hcs & Hcopy).
    exists cs. split; [exact Hcs|]. symmetry. exact (Forall2_length Hcopy).
  - reflexivity.
Qed.

Lemma normalizer_failure_modes_witness :
  (forallb dashboard_complete [full_row; headless_row] = false /\
   exists msg, Dashboard.getCampaigns (Ok [full_row; headless_row]) = Throw (TypeError msg)) /\
  (forallb dashboard_complete [sparse_row] = true /\
   exists cs, Dashboard.getCampaigns (Ok [sparse_row]) = Ok cs
              /\ List.length cs = List.length [sparse_row]).
Proof.
  split; (split; [reflexivity|]).
  - exact (proj1 (normalizer_failure_modes [full_row; headless_row]) eq_refl).
  - exact (proj1 (proj2 (normalizer_failure_modes [sparse_row])) eq_refl).
Defined.

(** C6 as stated fails: a row that lacks cost, clicks, conversions and
    conversion value is not rejected; [getCampaigns] returns a record for
    it with a NaN cost and the missing fields undefined. *)
Lemma missing_fields_are_not_rejected :
  Dashboard.getCampaigns (Ok [sparse_row])
  = Ok [ {| Dashboard.Campaign.id := Num 7;
            Dashboard.Campaign.name := Str "Spring sale";
            Dashboard.Campaign.status := Str "ENABLED";
            Dashboard.Campaign.type := Str "SEARCH";
            Dashboard.Campaign.cost := nan;
            Dashboard.Campaign.clicks := None;
            Dashboard.Campaign.impressions := Some 900%float;
            Dashboard.Campaign.conversions := None;
            Dashboard.Campaign.revenue := None;
            Dashboard.Campaign.avgCpc := nan;
            Dashboard.Campaign.ctr := None |} ].
Proof. reflexivity. Qed.

End Normalizer.

(** ** The aggregator *)

Section Aggregator.

Lemma fold_add_nonneg (xs : list float) (acc : float) :
  nonneg acc = true -> forallb nonneg xs = true ->
  nonneg (fold_left PrimFloat.add xs acc) = true.
Proof.
  revert acc. induction xs as [|x xs IH]; simpl; intros acc Hacc Hxs; [exact Hacc|].
  apply andb_true_iff in Hxs as [Hx Hxs].
  apply IH; [|exact Hxs]. now apply add_nonneg.
Qed.

Lemma count_float_0 : count_float 0 = 0%float.
Proof. reflexivity. Qed.

Lemma Zsum_nonneg (ns : list Z) : Forall (fun n => 0 <= n)%Z ns -> (0 <= Zsum ns)%Z.
Proof. induction 1; simpl; lia. Qed.

Lemma Zsum_perm (ns ns' : list Z) : Permutation ns ns' -> Zsum ns = Zsum ns'.
Proof. induction 1; simpl; lia. Qed.

Lemma is_count_nonneg (xs : list field) (ns : list Z) :
  Forall2 is_count xs ns -> Forall (fun n => 0 <= n)%Z ns.
Proof. induction 1 as [|x n xs ns [Hn _] _ IH]; constructor; assumption. Qed.

(** Counts add up without rounding while the total stays below 2^53. *)
Lemma fold_add_counts (xs : list field) (ns : list Z) :
  Forall2 is_count xs ns ->
  forall a, (0 <= a)%Z -> (a + Zsum ns < 2 ^ 53)%Z ->
  fold_left PrimFloat.add (map ToNumber xs) (count_float a) = count_float (a + Zsum ns).
Proof.
  induction 1 as [|x n xs ns [Hn Hx] Hrest IH]; simpl; intros a Ha Hlt.
  - now rewrite Z.add_0_r.
  - pose proof (Zsum_nonneg ns (is_count_nonneg xs ns Hrest)) as Hs.
    rewrite Hx. simpl ToNumber. rewrite count_float_add by lia.
    rewrite IH by lia. f_equal. lia.
Qed.

Lemma sum_counts (xs : list field) (ns : list Z) :
  Forall2 is_count xs ns -> (Zsum ns < 2 ^ 53)%Z ->
  sum (map ToNumber xs) = count_float (Zsum ns).
Proof.
  intros H Hlt. unfold sum. rewrite <- count_float_0.
  now rewrite (fold_add_counts xs ns H 0%Z) by lia.
Qed.

Lemma sum_counts_perm (xs xs' : list field) (ns : list Z) :
  Permutation xs xs' -> Forall2 is_count xs ns -> (Zsum ns < 2 ^ 53)%Z ->
  sum (map ToNumber xs') = sum (map ToNumber xs).
Proof.
  intros Hp Hc Hlt.
  destruct (Permutation_Forall2 Hp Hc) as (ns' & Hpn & Hc').
  rewrite (sum_counts xs ns Hc Hlt).
  rewrite (sum_counts xs' ns' Hc') by (rewrite <- (Zsum_perm _ _ Hpn); exact Hlt).
  now rewrite (Zsum_perm _ _ Hpn).
Qed.

(** The record fold of [reduce] is five independent folds. *)
Lemma dashboard_fold_fields (cs : list Dashboard.Campaign.t) (acc : Dashboard.Totals) :
  fold_left Dashboard.reducer cs acc
  = {| Dashboard.totalCost :=
         fold_left PrimFloat.add (map Dashboard.Campaign.cost cs) (Dashboard.totalCost acc);
       Dashboard.totalClicks :=
         fold_left PrimFloat.add (map ToNumber (map Dashboard.Campaign.clicks cs))
           (Dashboard.totalClicks acc);
       Dashboard.totalImpressions :=
         fold_left PrimFloat.add (map ToNumber (map Dashboard.Campaign.impressions cs))
           (Dashboard.totalImpressions acc);
       Dashboard.totalConversions :=
         fold_left PrimFloat.add (map ToNumber (map Dashboard.Campaign.conversions cs))
           (Dashboard.totalConversions acc);
       Dashboard.totalRevenue :=
         fold_left PrimFloat.add (map ToNumber (map Dashboard.Campaign.revenue cs))
           (Dashboard.totalRevenue acc) |}.
Proof.
  revert acc. induction cs as [|c cs IH]; intros acc; simpl.
  - destruct acc; reflexivity.
  - rewrite IH. reflexivity.
Qed.

Lemma shopify_fold_fields (cs : list Shopify.GoogleAdsService.Campaign.t)
  (acc : Shopify.GoogleAdsService.Totals) :
  fold_left Shopify.GoogleAdsService.reducer cs acc
  = {| Shopify.GoogleAdsService.totalSpend :=
         fold_left PrimFloat.add (map Shopify.GoogleAdsService.Campaign.cost cs)
           (Shopify.GoogleAdsService.totalSpend acc);
       Shopify.GoogleAdsService.totalClicks :=
         fold_left PrimFloat.add
           (map ToNumber (map Shopify.GoogleAdsService.Campaign.clicks cs))
           (Shopify.GoogleAdsService.totalClicks acc);
       Shopify.GoogleAdsService.totalImpressions :=
         fold_left PrimFloat.add
           (map ToNumber (map Shopify.GoogleAdsService.Campaign.impressions cs))
           (Shopify.GoogleAdsService.totalImpressions acc);
       Shopify.GoogleAdsService.totalConversions :=
         fold_left PrimFloat.add
           (map ToNumber (map Shopify.GoogleAdsService.Campaign.conversions cs))
           (Shopify.GoogleAdsService.totalConversions acc);
       Shopify.GoogleAdsService.totalRevenue :=
         fold_left PrimFloat.add
           (map ToNumber (map Shopify.GoogleAdsService.Campaign.conversionValue cs))
           (Shopify.GoogleAdsService.totalRevenue acc) |}.
Proof.
  revert acc. induction cs as [|c cs IH]; intros acc; simpl.
  - destruct acc; reflexivity.
  - rewrite IH. reflexivity.
Qed.

Lemma dashboard_reduce_fields (cs : list Dashboard.Campaign.t) :
  Dashboard.reduce cs
  = {| Dashboard.totalCost := sum (map Dashboard.Campaign.cost cs);
       Dashboard.totalClicks := sum (map ToNumber (map Dashboard.Campaign.clicks cs));
       Dashboard.totalImpressions :=
         sum (map ToNumber (map Dashboard.Campaign.impressions cs));
       Dashboard.totalConversions :=
         sum (map ToNumber (map Dashboard.Campaign.conversions cs));
       Dashboard.totalRevenue := sum (map ToNumber (map Dashboard.Campaign.revenue cs)) |}.
Proof. unfold Dashboard.reduce. rewrite dashboard_fold_fields. reflexivity. Qed.

Lemma shopify_reduce_fields (cs : list Shopify.GoogleAdsService.Campaign.t) :
  Shopify.GoogleAdsService.reduce cs
  = {| Shopify.GoogleAdsService.totalSpend :=
         sum (map Shopify.GoogleAdsService.Campaign.cost cs);
       Shopify.GoogleAdsService.totalClicks :=
         sum (map ToNumber (map Shopify.GoogleAdsService.Campaign.clicks cs));
       Shopify.GoogleAdsService.totalImpressions :=
         sum (map ToNumber (map Shopify.GoogleAdsService.Campaign.impressions cs));
       Shopify.GoogleAdsService.totalConversions :=
         sum (map ToNumber (map Shopify.GoogleAdsService.Campaign.conversions cs));
       Shopify.GoogleAdsService.totalRevenue :=
         sum (map ToNumber (map Shopify.GoogleAdsService.Campaign.conversionValue cs)) |}.
Proof. unfold Shopify.GoogleAdsService.reduce. rewrite shopify_fold_fields. reflexivity. Qed.




Lemma forallb_map {A B : Type} (f : A -> B) (P : B -> bool) (l : list A) :
  forallb P (map f l) = forallb (fun a => P (f a)) l.
Proof. induction l as [|a l IH]; simpl; [reflexivity|now rewrite IH]. Qed.

Lemma forallb_weaken {A : Type} (P Q : A -> bool) (l : list A) :
  (forall a, P a = true -> Q a = true) -> forallb P l = true -> forallb Q l = true.
Proof.
  intros HPQ. induction l as [|a l IH]; simpl; [reflexivity|].
  rewrite !andb_true_iff. intros [Ha Hl]. split; [now apply HPQ|now apply IH].
Qed.

Lemma sum_nonneg (xs : list float) : forallb nonneg xs = true -> nonneg (sum xs) = true.
Proof. intros H. unfold sum. now apply fold_add_nonneg. Qed.

(** C9. When every metric of every record is [>= 0], every total is
    [>= 0]: rounding never turns a sum of non-negative doubles negative,
    and an overflow gives [+Infinity]. *)
Theorem totals_never_negative
  (cs : list Dashboard.Campaign.t) (cs' : list Shopify.GoogleAdsService.Campaign.t) :
  (forallb dashboard_nonneg cs = true ->
     nonneg (Dashboard.totalCost (Dashboard.reduce cs)) = true
     /\ nonneg (Dashboard.totalClicks (Dashboard.reduce cs)) = true
     /\ nonneg (Dashboard.totalImpressions (Dashboard.reduce cs)) = true
     /\ nonneg (Dashboard.totalConversions (Dashboard.reduce cs)) = true
     /\ nonneg (Dashboard.totalRevenue (Dashboard.reduce cs)) = true) /\
  (forallb shopify_nonneg cs' = true ->
     nonneg (Shopify.GoogleAdsService.totalSpend (Shopify.GoogleAdsService.reduce cs')) = true
     /\ nonneg (Shopify.GoogleAdsService.totalClicks
                  (Shopify.GoogleAdsService.reduce cs')) = true
     /\ nonneg (Shopify.GoogleAdsService.totalImpressions
                  (Shopify.GoogleAdsService.reduce cs')) = true
     /\ nonneg (Shopify.GoogleAdsService.totalConversions
                  (Shopify.GoogleAdsService.reduce cs')) = true
     /\ nonneg (Shopify.GoogleAdsService.totalRevenue
                  (Shopify.GoogleAdsService.reduce cs')) = true).
Proof.
  split; intros H.
  - rewrite dashboard_reduce_fields. cbn.
    repeat apply conj; apply sum_nonneg; rewrite ?forallb_map;
      (eapply forallb_weaken; [|exact H]); intros c Hc; unfold dashboard_nonneg in Hc;
      repeat (apply andb_true_iff in Hc as [Hc ?]); assumption.
  - rewrite shopify_reduce_fields. cbn.
    repeat apply conj; apply sum_nonneg; rewrite ?forallb_map;
      (eapply forallb_weaken; [|exact H]); intros c Hc; unfold shopify_nonneg in Hc;
      repeat (apply andb_true_iff in Hc as [Hc ?]); assumption.
Qed.

Lemma totals_never_negative_witness :
  forallb dashboard_nonneg [priced 100000 3; priced 200000 4; priced 300000 0] = true
  /\ nonneg (Dashboard.totalCost
               (Dashboard.reduce [priced 100000 3; priced 200000 4; priced 300000 0])) = true
  /\ nonneg (Dashboard.totalRevenue
               (Dashboard.reduce [priced 100000 3; priced 200000 4; priced 300000 0])) = true.
Proof.
  split; [reflexivity|].
  destruct (proj1 (totals_never_negative
                     [priced 100000 3; priced 200000 4; priced 300000 0] []) eq_refl)
    as (H1 & _ & _ & _ & H5).
  split; [exact H1|exact H5].
Defined.

(** C5, as the code has it. The totals are double sums taken in sequence
    order.  On the integer-valued fields, clicks and impressions, they do
    not depend on the order of the records as long as the values are
    non-negative integers whose sum is below 2^53, since these additions
    are exact.  (The decimal fields are rounded at every step and their
    totals can change with the order.) *)
Theorem count_totals_order_independent
  (cs cs' : list Dashboard.Campaign.t) (clicks impressions : list Z) :
  Permutation cs cs' ->
  (Forall2 is_count (map Dashboard.Campaign.clicks cs) clicks ->
   (Zsum clicks < 2 ^ 53)%Z ->
   Dashboard.totalClicks (Dashboard.reduce cs')
   = Dashboard.totalClicks (Dashboard.reduce cs)) /\
  (Forall2 is_count (map Dashboard.Campaign.impressions cs) impressions ->
   (Zsum impressions < 2 ^ 53)%Z ->
   Dashboard.totalImpressions (Dashboard.reduce cs')
   = Dashboard.totalImpressions (Dashboard.reduce cs)).
Proof.
  intros Hp. split; intros Hc Hlt; rewrite !dashboard_reduce_fields; cbn;
    (eapply sum_counts_perm; [apply Permutation_map; exact Hp|exact Hc|exact Hlt]).
Qed.

Lemma count_totals_order_independent_witness :
  Permutation [priced 100000 3; priced 200000 4; priced 300000 5]
              [priced 300000 5; priced 200000 4; priced 100000 3]
  /\ Forall2 is_count
       (map Dashboard.Campaign.clicks [priced 100000 3; priced 200000 4; priced 300000 5])
       [3; 4; 5]%Z
  /\ (Zsum [3; 4; 5] < 2 ^ 53)%Z
  /\ Dashboard.totalClicks
       (Dashboard.reduce [priced 300000 5; priced 200000 4; priced 100000 3])
     = Dashboard.totalClicks
         (Dashboard.reduce [priced 100000 3; priced 200000 4; priced 300000 5]).
Proof.
  assert (Hp : Permutation [priced 100000 3; priced 200000 4; priced 300000 5]
                           [priced 300000 5; priced 200000 4; priced 100000 3]).
  { change [priced 300000 5; priced 200000 4; priced 100000 3]
      with (rev [priced 100000 3; priced 200000 4; priced 300000 5]).
    apply Permutation_rev. }
  assert (Hc : Forall2 is_count
                 (map Dashboard.Campaign.clicks
                    [priced 100000 3; priced 200000 4; priced 300000 5]) [3; 4; 5]%Z).
  { repeat constructor; lia. }
  split; [exact Hp|]. split; [exact Hc|]. split; [reflexivity|].
  exact (proj1 (count_totals_order_independent _ _ [3; 4; 5]%Z [] Hp) Hc eq_refl).
Defined.

(** C5 as stated fails: campaigns costing 0.1, 0.2 and 0.3 (100000,
    200000 and 300000 micros) total 0.6000000000000001 in that order and
    0.6 in the reverse order. *)
Lemma cost_total_depends_on_order :
  Permutation [priced 100000 3; priced 200000 4; priced 300000 5]
              [priced 300000 5; priced 200000 4; priced 100000 3]
  /\ Dashboard.reduce [priced 100000 3; priced 200000 4; priced 300000 5]
     <> Dashboard.reduce [priced 300000 5; priced 200000 4; priced 100000 3].
Proof.
  split.
  - change [priced 300000 5; priced 200000 4; priced 100000 3]
      with (rev [priced 100000 3; priced 200000 4; priced 300000 5]).
    apply Permutation_rev.
  - intros H. apply (f_equal (fun t => Prim2SF (Dashboard.totalCost t))) in H.
    vm_compute in H. discriminate H.
Qed.

End Aggregator.

(** ** Ranking of products *)

Section Ranking.

Import Shopify.ROIAnalysisService.

Lemma ltb_leb (x y : float) : (x <? y)%float = true -> (x <=? y)%float = true.
Proof.
  rewrite ltb_spec, leb_spec. unfold SFltb, SFleb.
  destruct (SFcompare (Prim2SF x) (Prim2SF y)) as [[| |]|]; congruence.
Qed.

Section Sort.
Context {A : Type}.
Variable key : A -> float.

(** The comparator [(a, b) => b.key - a.key]. *)
Let by_key_desc (a b : A) : float := (key b - key a)%float.
Let no_ascent (a b : A) : Prop := (key a <? key b)%float = false.
Let ge (a b : A) : Prop := (key b <=? key a)%float = true.
Let number (a : A) : bool := is_number (key a).

Lemma insert_perm (x : A) (l : list A) : Permutation (insert by_key_desc x l) (x :: l).
Proof.
  induction l as [|y l IH]; simpl; [reflexivity|].
  destruct (after by_key_desc x y); [|reflexivity].
  rewrite IH. apply perm_swap.
Qed.

Lemma sort_perm (l : list A) : Permutation (sort by_key_desc l) l.
Proof.
  induction l as [|x l IH]; simpl; [reflexivity|].
  rewrite insert_perm. now constructor.
Qed.

(** [a] goes after [b] exactly when its key is strictly lower. *)
Lemma after_lt (x y : A) : after by_key_desc x y = (key x <? key y)%float.
Proof. unfold after, by_key_desc. apply sub_sign. Qed.

Lemma insert_sorted (x : A) (l : list A) :
  Sorted no_ascent l -> Sorted no_ascent (insert by_key_desc x l).
Proof.
  induction l as [|y l IH]; simpl; intros Hs.
  - repeat constructor.
  - apply Sorted_inv in Hs as [Hs Hhd].
    rewrite (after_lt x y).
    destruct (key x <? key y)%float eqn:E.
    + constructor; [now apply IH|].
      assert (Hyx : no_ascent y x) by (apply leb_not_gt; now apply ltb_leb).
      destruct l as [|z l]; simpl.
      * constructor. exact Hyx.
      * rewrite (after_lt x z).
        destruct (key x <? key z)%float.
        -- constructor. now apply HdRel_inv in Hhd.
        -- constructor. exact Hyx.
    + constructor; [now constructor|]. constructor. exact E.
Qed.

Lemma sort_sorted (l : list A) : Sorted no_ascent (sort by_key_desc l).
Proof.
  induction l as [|x l IH]; simpl; [constructor|]. now apply insert_sorted.
Qed.

Lemma forallb_perm (P : A -> bool) (l l' : list A) :
  Permutation l l' -> forallb P l = true -> forallb P l' = true.
Proof.
  intros Hp. rewrite !forallb_forall. intros H a Ha.
  apply H. now apply (Permutation_in a (Permutation_sym Hp)).
Qed.

(** Among numbers, no ascent between neighbours is a descending order. *)
Lemma sorted_numbers (l : list A) :
  forallb number l = true -> Sorted no_ascent l -> StronglySorted ge l.
Proof.
  intros Hn Hs. apply Sorted_StronglySorted.
  - intros a b c Hab Hbc. unfold ge in *. exact (leb_trans _ _ _ Hbc Hab).
  - induction Hs as [|a l Hs IH Hhd]; [constructor|].
    simpl in Hn. apply andb_true_iff in Hn as [Ha Hl].
    constructor; [now apply IH|].
    destruct Hhd as [|b l Hab]; constructor.
    simpl in Hl. apply andb_true_iff in Hl as [Hb _].
    unfold ge, no_ascent in *.
    pose proof (ltb_negb_leb (key b) (key a) Hb Ha) as H.
    rewrite Hab in H. now destruct (key b <=? key a)%float.
Qed.

Lemma sort_strongly_sorted (l : list A) :
  forallb number l = true -> StronglySorted ge (sort by_key_desc l).
Proof.
  intros Hl. apply sorted_numbers; [|apply sort_sorted].
  apply (forallb_perm number l); [symmetry; apply sort_perm|exact Hl].
Qed.

End Sort.

Lemma map_from_product (i : nat) (l : list ProductROI) :
  map product (map_from (fun product index => {| product := product; rank := index + 1 |}) i l)
  = l.
Proof.
  revert i. induction l as [|p l IH]; intros i; simpl; [reflexivity|now rewrite IH].
Qed.

Lemma map_from_rank (i : nat) (l : list ProductROI) :
  map rank (map_from (fun product index => {| product := product; rank := index + 1 |}) i l)
  = seq (i + 1) (List.length l).
Proof.
  revert i. induction l as [|p l IH]; intros i; simpl; [reflexivity|].
  rewrite IH. reflexivity.
Qed.

Lemma leb_nan_l (x : float) : (nan <=? x)%float = false.
Proof. rewrite leb_spec. reflexivity. Qed.

Lemma leb_nan_r (x : float) : (x <=? nan)%float = false.
Proof. rewrite leb_spec. unfold SFleb. now destruct (Prim2SF x) as [[|]|[|]| |[|] ? ?]. Qed.

(** C10, as the code has it. When every ROI is a number (none is NaN),
    [compareProducts] returns the given products, each once and unchanged
    apart from the added [rank], with ranks 1, 2, ..., n down the list, in
    non-increasing order of ROI: every product has an ROI at least that
    of each product after it, so the product ranked 1 has the highest
    ROI. *)
Theorem compareProducts_ranks_by_roi (productsROI : list ProductROI) :
  forallb roi_is_number productsROI = true ->
  Permutation (map product (compareProducts productsROI)) productsROI
  /\ map rank (compareProducts productsROI) = seq 1 (List.length productsROI)
  /\ StronglySorted roi_ge (map product (compareProducts productsROI)).
Proof.
  intros H. unfold compareProducts, map_index. rewrite map_from_product, map_from_rank.
  split; [apply sort_perm|]. split.
  - f_equal. apply Permutation_length. apply sort_perm.
  - exact (sort_strongly_sorted (fun p => roi (fields p)) productsROI H).
Qed.

Lemma compareProducts_ranks_by_roi_witness :
  forallb roi_is_number [roi_minus_10; roi_150] = true
  /\ StronglySorted roi_ge (map product (compareProducts [roi_minus_10; roi_150]))
  /\ map product (compareProducts [roi_minus_10; roi_150]) = [roi_150; roi_minus_10]
  /\ map rank (compareProducts [roi_minus_10; roi_150]) = [1; 2].
Proof.
  split; [reflexivity|].
  split; [|split; reflexivity].
  exact (proj2 (proj2 (compareProducts_ranks_by_roi [roi_minus_10; roi_150] eq_refl))).
Defined.

(** C10 as stated fails once an ROI is NaN.  Of the products with ROI
    -10, NaN and 150, in this order, no arrangement at all is in
    non-increasing order of ROI, whatever the engine's [sort] returns;
    the comparator's result is NaN next to the NaN product, which leaves
    the three where they are: ROI -10 is ranked 1 and ROI 150 is ranked
    3. *)
Lemma nan_roi_has_no_ranking :
  forallb roi_is_number [roi_minus_10; roi_nan; roi_150] = false
  /\ (forall out, Permutation [roi_minus_10; roi_nan; roi_150] out -> ~ Sorted roi_ge out)
  /\ map product (compareProducts [roi_minus_10; roi_nan; roi_150])
     = [roi_minus_10; roi_nan; roi_150]
  /\ map rank (compareProducts [roi_minus_10; roi_nan; roi_150]) = [1; 2; 3].
Proof.
  split; [reflexivity|]. split; [|split; reflexivity].
  intros out Hp Hs.
  pose proof (Permutation_length Hp) as Hlen.
  pose proof (Permutation_in roi_nan Hp (or_intror (or_introl eq_refl))) as Hin.
  destruct out as [|a [|b [|c [|d out]]]]; try discriminate Hlen.
  apply Sorted_inv in Hs as [Hs Hab]. apply HdRel_inv in Hab.
  apply Sorted_inv in Hs as [_ Hbc]. apply HdRel_inv in Hbc.
  unfold roi_ge in Hab, Hbc.
  destruct Hin as [->|[->|[->|[]]]].
  - change (roi (fields roi_nan)) with nan in Hab. rewrite leb_nan_r in Hab. discriminate.
  - change (roi (fields roi_nan)) with nan in Hab. rewrite leb_nan_l in Hab. discriminate.
  - change (roi (fields roi_nan)) with nan in Hbc. rewrite leb_nan_l in Hbc. discriminate.
Qed.

End Ranking.

(** ** Further facts about binary64 arithmetic *)

Section Signs.

Local Open Scope Z_scope.

Lemma SFltb_trans (x y z : spec_float) :
  SFltb x y = true -> SFltb y z = true -> SFltb x z = true.
Proof.
  unfold SFltb.
  destruct x as [[|]|[|]| |[|] ? ?], y as [[|]|[|]| |[|] ? ?], z as [[|]|[|]| |[|] ? ?];
    simpl; try discriminate; try reflexivity;
    change (Pos.compare_cont Eq) with Pos.compare;
    repeat match goal with
    | |- context [Z.compare ?a ?b] => destruct (Z.compare_spec a b)
    | |- context [Pos.compare ?a ?b] => destruct (Pos.compare_spec a b)
    end; simpl; try discriminate; try reflexivity; intros; subst; try lia.
Qed.

Lemma ltb_trans (x y z : float) :
  (x <? y)%float = true -> (y <? z)%float = true -> (x <? z)%float = true.
Proof. rewrite !ltb_spec. apply SFltb_trans. Qed.

(** A rounding with the sign bit set is never above zero. *)
Lemma binary_round_aux_neg (m e : Z) (l : location) :
  SFltb (S754_zero false) (binary_round_aux prec emax true m e l) = false.
Proof.
  unfold binary_round_aux.
  destruct (shr_fexp prec emax m e l) as [mrs' e'].
  destruct (shr_fexp prec emax _ e' loc_Exact) as [mrs'' e''].
  destruct (shr_m mrs''); try reflexivity.
  destruct (e'' <=? emax - prec); reflexivity.
Qed.

Lemma SFdiv_not_pos (x y : spec_float) :
  SFltb (S754_zero false) x = false -> SFltb (S754_zero false) y = true ->
  SFltb (S754_zero false) (SF64div x y) = false.
Proof.
  destruct x as [[|]|[|]| |[|] mx ex], y as [[|]|[|]| |[|] my ey];
    try discriminate; try reflexivity.
  intros _ _. unfold SF64div, SFdiv.
  destruct (SFdiv_core_binary prec emax (Z.pos mx) ex (Z.pos my) ey) as [[mz ez] lz].
  apply binary_round_aux_neg.
Qed.

Lemma SFmul_not_pos (x y : spec_float) :
  SFltb (S754_zero false) x = false -> SFltb (S754_zero false) y = true ->
  SFltb (S754_zero false) (SF64mul x y) = false.
Proof.
  destruct x as [[|]|[|]| |[|] mx ex], y as [[|]|[|]| |[|] my ey];
    try discriminate; try reflexivity.
  intros _ _. unfold SF64mul, SFmul. apply binary_round_aux_neg.
Qed.

Lemma div_not_pos (x y : float) :
  (0 <? x)%float = false -> (0 <? y)%float = true -> (0 <? x / y)%float = false.
Proof. rewrite !ltb_spec, div_spec. apply SFdiv_not_pos. Qed.

Lemma mul_not_pos (x y : float) :
  (0 <? x)%float = false -> (0 <? y)%float = true -> (0 <? x * y)%float = false.
Proof. rewrite !ltb_spec, mul_spec. apply SFmul_not_pos. Qed.

(** [x] is neither infinite nor NaN. *)
Lemma finite_cases (x : float) :
  (abs x <? infinity)%float = true ->
  (exists s, Prim2SF x = S754_zero s) \/ (exists s m e, Prim2SF x = S754_finite s m e).
Proof.
  rewrite ltb_spec, abs_spec. change (Prim2SF infinity) with (S754_infinity false).
  destruct (Prim2SF x) as [s|s| |s m e]; try discriminate; eauto.
Qed.

Lemma pos_finite (x : float) :
  (0 <? x)%float = true -> (abs x <? infinity)%float = true ->
  exists m e, Prim2SF x = S754_finite false m e.
Proof.
  intros Hp Hf. destruct (finite_cases x Hf) as [[s E]|(s & m & e & E)];
    rewrite ltb_spec, E in Hp; change (Prim2SF 0) with (S754_zero false) in Hp.
  - discriminate.
  - destruct s; [discriminate|]. eauto.
Qed.

(** A quotient of a non-negative number by a positive finite one is
    non-negative. *)
Lemma SFdiv_nonneg (x : spec_float) (my : positive) (ey : Z) :
  SFnonneg x = true -> SFnonneg (SF64div x (S754_finite false my ey)) = true.
Proof.
  destruct x as [[|]|[|]| |[|] mx ex]; try discriminate; try reflexivity.
  intros _. unfold SF64div, SFdiv, SFdiv_core_binary.
  set (s := ex - ey - _).
  set (m' := match s with Z.pos _ => Z.shiftl (Z.pos mx) s | 0 => Z.pos mx | Z.neg _ => 0 end).
  assert (Hm' : 0 <= m').
  { subst m'. destruct s; try lia. apply Z.shiftl_nonneg. lia. }
  pose proof (Z_div_mod m' (Z.pos my) ltac:(lia)) as Hdm.
  destruct (Z.div_eucl m' (Z.pos my)) as [q r].
  apply binary_round_aux_nonneg. destruct Hdm as [Hq Hr]. nia.
Qed.

Lemma div_nonneg (x y : float) :
  (0 <=? x)%float = true ->
  (0 <? y)%float = true -> (abs y <? infinity)%float = true ->
  (0 <=? x / y)%float = true.
Proof.
  intros Hx Hp Hf. destruct (pos_finite y Hp Hf) as (m & e & E).
  rewrite leb_zero_nonneg in *. rewrite div_spec, E. now apply SFdiv_nonneg.
Qed.

(** A positive finite number divided by itself is exactly 1. *)
Lemma div_self (x : float) :
  (0 <? x)%float = true -> (abs x <? infinity)%float = true -> (x / x)%float = 1%float.
Proof.
  intros Hp Hf. destruct (pos_finite x Hp Hf) as (m & e & E).
  apply Prim2SF_inj. rewrite div_spec, E.
  unfold SF64div, SFdiv, SFdiv_core_binary.
  replace (Zdigits2 (Z.pos m) + e - (Zdigits2 (Z.pos m) + e)) with 0 by lia.
  replace (e - e) with 0 by lia.
  change (Z.min (fexp prec emax 0) 0) with (-53). change (0 - -53) with 53.
  cbv iota. rewrite Z.shiftl_mul_pow2 by lia.
  rewrite (Z.mul_comm (Z.pos m)).
  assert (Hqr : Z.div_eucl (2 ^ 53 * Z.pos m) (Z.pos m) = (2 ^ 53, 0)).
  { generalize (Z.div_mul (2 ^ 53) (Z.pos m) ltac:(lia)).
    generalize (Z.mod_mul (2 ^ 53) (Z.pos m) ltac:(lia)).
    unfold Z.div, Z.modulo.
    destruct (Z.div_eucl (2 ^ 53 * Z.pos m) (Z.pos m)) as [q r].
    now intros -> ->. }
  rewrite Hqr. unfold new_location, new_location_even, new_location_odd.
  destruct (Z.even (Z.pos m)); vm_compute; reflexivity.
Qed.

(** A finite number minus itself is [+0]. *)
Lemma sub_self (x : float) :
  (abs x <? infinity)%float = true -> (x - x)%float = 0%float.
Proof.
  intros Hf. apply Prim2SF_inj. rewrite sub_spec.
  destruct (finite_cases x Hf) as [[s E]|(s & m & e & E)]; rewrite E.
  - destruct s; reflexivity.
  - unfold SF64sub, SFsub. rewrite Z.sub_diag. reflexivity.
Qed.

Lemma zero_div_pos (x : float) :
  (0 <? x)%float = true -> (abs x <? infinity)%float = true -> (0 / x)%float = 0%float.
Proof.
  intros Hp Hf. destruct (pos_finite x Hp Hf) as (m & e & E).
  apply Prim2SF_inj. rewrite div_spec, E. reflexivity.
Qed.

End Signs.

(** ** What the recommendation depends on *)

Section RecommendationMore.

Import Shopify.ROIAnalysisService.

Lemma gt_100_gt_30 (x : float) : (100 <? x)%float = true -> (30 <? x)%float = true.
Proof. apply (ltb_trans 30 100 x). reflexivity. Qed.

Lemma gt_30_gt_0 (x : float) : (30 <? x)%float = true -> (0 <? x)%float = true.
Proof. apply (ltb_trans 0 30 x). reflexivity. Qed.

(** X1. The action is read off three tests alone: DECREASE_BUDGET exactly
    when [roi > 0] fails, which takes in negative ROI, both zeros and NaN;
    INCREASE_BUDGET exactly when [roi > 100]; MAINTAIN_BUDGET exactly when
    [roi > 30] but not [roi > 100]; OPTIMIZE exactly when [roi > 0] but not
    [roi > 30]. *)
Theorem recommendation_partition (r : ROI) :
  (action (getRecommendation r) = DECREASE_BUDGET <-> (0 <? roi r)%float = false) /\
  (action (getRecommendation r) = INCREASE_BUDGET <-> (100 <? roi r)%float = true) /\
  (action (getRecommendation r) = MAINTAIN_BUDGET
     <-> (30 <? roi r)%float = true /\ (100 <? roi r)%float = false) /\
  (action (getRecommendation r) = OPTIMIZE
     <-> (0 <? roi r)%float = true /\ (30 <? roi r)%float = false).
Proof.
  pose proof (gt_100_gt_30 (roi r)) as H1. pose proof (gt_30_gt_0 (roi r)) as H2.
  unfold getRecommendation.
  destruct (100 <? roi r)%float eqn:E100; [rewrite (H1 eq_refl) in *; rewrite (H2 eq_refl)|];
    [|destruct (30 <? roi r)%float eqn:E30; [rewrite (H2 eq_refl)|];
      [|destruct (0 <? roi r)%float eqn:E0]];
    cbn; repeat split; intros; try discriminate; try reflexivity;
    try (destruct H; discriminate).
Qed.

Lemma not_pos_decrease (r : ROI) :
  (0 <? roi r)%float = false ->
  action (getRecommendation r) = DECREASE_BUDGET
  /\ suggestedBudgetChange (getRecommendation r) = (-0.4)%float.
Proof.
  intros H0. unfold getRecommendation.
  destruct (100 <? roi r)%float eqn:E100.
  { rewrite (gt_30_gt_0 _ (gt_100_gt_30 _ E100)) in H0. discriminate. }
  destruct (30 <? roi r)%float eqn:E30.
  { rewrite (gt_30_gt_0 _ E30) in H0. discriminate. }
  rewrite H0. split; reflexivity.
Qed.

(** X2. A product that did not earn more than its ad spend, or whose ad
    spend is not above zero, is always told DECREASE_BUDGET with a change
    of [-0.4]: the ROI of [calculateProductROI] is then never above
    zero. *)
Theorem no_profit_means_decrease
  (adData : Shopify.GoogleAdsService.AdData.t) (salesData : Shopify.SalesData.t) :
  (0 <? Shopify.GoogleAdsService.AdData.adSpend adData)%float = false
  \/ (Shopify.SalesData.revenue salesData
      <=? Shopify.GoogleAdsService.AdData.adSpend adData)%float = true ->
  (0 <? roi (fields (calculateProductROI adData salesData)))%float = false
  /\ action (recommendation (calculateProductROI adData salesData)) = DECREASE_BUDGET
  /\ suggestedBudgetChange (recommendation (calculateProductROI adData salesData))
     = (-0.4)%float.
Proof.
  intros H.
  assert (H0 : (0 <? roi (fields (calculateProductROI adData salesData)))%float = false).
  { cbn. destruct (0 <? Shopify.GoogleAdsService.AdData.adSpend adData)%float eqn:E;
      [|reflexivity].
    destruct H as [H|H]; [discriminate|].
    apply mul_not_pos; [|reflexivity].
    apply div_not_pos; [|exact E].
    rewrite sub_sign. now apply leb_not_gt. }
  split; [exact H0|]. exact (not_pos_decrease _ H0).
Qed.

Lemma no_profit_means_decrease_witness :
  (Shopify.SalesData.revenue (sales_of 90)
   <=? Shopify.GoogleAdsService.AdData.adSpend ad_100)%float = true
  /\ action (recommendation (calculateProductROI ad_100 (sales_of 90))) = DECREASE_BUDGET.
Proof.
  split; [reflexivity|].
  exact (proj1 (proj2 (no_profit_means_decrease ad_100 (sales_of 90) (or_intror eq_refl)))).
Defined.

End RecommendationMore.

(** ** Ad performance of one product *)

Section ProductAds.

Import Shopify.GoogleAdsService Shopify.ROIAnalysisService.

Lemma product_rows_ok (rows : list Row.t) :
  forallb shopify_has_metrics rows = true ->
  forall c v r,
    product_rows rows (c, v, r)
    = Ok (fold_left PrimFloat.add (map shopify_cost rows) c,
          fold_left PrimFloat.add (map shopify_conversions rows) v,
          fold_left PrimFloat.add (map shopify_value rows) r).
Proof.
  induction rows as [|row rows IH]; simpl; intros Hall c v r; [reflexivity|].
  apply andb_true_iff in Hall as [Hrow Hrest].
  unfold shopify_has_metrics, shopify_cost, shopify_conversions, shopify_value in *.
  destruct (Row.metrics_of row) as [m|]; [|discriminate].
  cbn [get bind add_product_row]. now rewrite IH.
Qed.

Lemma product_rows_throw (rows : list Row.t) :
  forallb shopify_has_metrics rows = false ->
  forall acc, exists msg, product_rows rows acc = Throw (TypeError msg).
Proof.
  induction rows as [|row rows IH]; simpl; intros Hall acc; [discriminate|].
  unfold shopify_has_metrics in *.
  destruct (Row.metrics_of row) as [m|]; cbn [get bind]; eauto.
Qed.

(** X3. [getProductAdPerformance] adds up cost (converted from micros),
    conversions and conversion value over the rows, from [0] in row order,
    and reports ROAS [revenue / adSpend] only when the spend is above
    zero, [0] otherwise; one row without a [metrics] object makes the
    call throw a TypeError instead. *)
Theorem getProductAdPerformance_totals (productId : string) (rows : list Row.t) :
  (forallb shopify_has_metrics rows = true ->
     getProductAdPerformance productId (Ok rows)
     = Ok {| AdData.productId := productId;
             AdData.adSpend := sum (map shopify_cost rows);
             AdData.conversions := sum (map shopify_conversions rows);
             AdData.revenue := sum (map shopify_value rows);
             AdData.roas :=
               if (0 <? sum (map shopify_cost rows))%float
               then (sum (map shopify_value rows) / sum (map shopify_cost rows))%float
               else 0%float |}) /\
  (forallb shopify_has_metrics rows = false ->
     exists msg, getProductAdPerformance productId (Ok rows) = Throw (TypeError msg)).
Proof.
  split; intros H; unfold getProductAdPerformance; cbn [bind].
  - rewrite (product_rows_ok rows H). reflexivity.
  - destruct (product_rows_throw rows H (0%float, 0%float, 0%float)) as [msg E].
    rewrite E. cbn [bind]. eauto.
Qed.

Lemma getProductAdPerformance_totals_witness :
  forallb shopify_has_metrics [shopping_row 100000 1.5; shopping_row 200000 4] = true
  /\ getProductAdPerformance "gid-1" (Ok [shopping_row 100000 1.5; shopping_row 200000 4])
     = Ok {| AdData.productId := "gid-1";
             AdData.adSpend := sum (map shopify_cost
                                      [shopping_row 100000 1.5; shopping_row 200000 4]);
             AdData.conversions := 4;
             AdData.revenue := 5.5;
             AdData.roas :=
               (5.5 / sum (map shopify_cost
                             [shopping_row 100000 1.5; shopping_row 200000 4]))%float |}.
Proof.
  split; [reflexivity|].
  exact (proj1 (getProductAdPerformance_totals "gid-1"
                  [shopping_row 100000 1.5; shopping_row 200000 4]) eq_refl).
Defined.

(** X4. A product for which the ads query returns no rows has ad spend
    [0] and ROAS [0]; whatever it sold, [calculateProductROI] then gives
    it ROI [0] and the recommendation DECREASE_BUDGET. *)
Theorem product_without_ad_rows (productId : string) (salesData : Shopify.SalesData.t) :
  exists adData,
    getProductAdPerformance productId (Ok []) = Ok adData
    /\ AdData.adSpend adData = 0%float
    /\ AdData.roas adData = 0%float
    /\ roi (fields (calculateProductROI adData salesData)) = 0%float
    /\ action (recommendation (calculateProductROI adData salesData)) = DECREASE_BUDGET.
Proof.
  eexists. split; [reflexivity|]. repeat split.
Qed.

End ProductAds.

(** ** Break-even *)

Section BreakEven.

Import Shopify.ROIAnalysisService.

Lemma break_even_roi (c : float) :
  (0 <? c)%float = true -> is_finite c = true ->
  (((c - c) / c) * 100)%float = 0%float.
Proof.
  intros Hp Hf. unfold is_finite in Hf.
  rewrite (sub_self c Hf), (zero_div_pos c Hp Hf). reflexivity.
Qed.

(** X5. Totals that break even, revenue equal to a positive finite cost,
    give exactly ROAS 1 and ROI 0: the dashboard summary shows "1.00" and
    "0.00", the Shopify summary holds the number [1], and
    [calculateProductROI] holds ROI [0]. *)
Theorem break_even_metrics
  (t : Dashboard.Totals) (s : Shopify.GoogleAdsService.Totals)
  (adData : Shopify.GoogleAdsService.AdData.t) (salesData : Shopify.SalesData.t) :
  (Dashboard.totalRevenue t = Dashboard.totalCost t ->
   (0 <? Dashboard.totalCost t)%float = true -> is_finite (Dashboard.totalCost t) = true ->
   Dashboard.roas (Dashboard.calculateMetrics t) = Str "1.00"
   /\ Dashboard.roi (Dashboard.calculateMetrics t) = Str "0.00") /\
  (Shopify.GoogleAdsService.totalRevenue s = Shopify.GoogleAdsService.totalSpend s ->
   (0 <? Shopify.GoogleAdsService.totalSpend s)%float = true ->
   is_finite (Shopify.GoogleAdsService.totalSpend s) = true ->
   Shopify.GoogleAdsService.roas (Shopify.GoogleAdsService.calculateMetrics s) = 1%float) /\
  (Shopify.SalesData.revenue salesData = Shopify.GoogleAdsService.AdData.adSpend adData ->
   (0 <? Shopify.GoogleAdsService.AdData.adSpend adData)%float = true ->
   is_finite (Shopify.GoogleAdsService.AdData.adSpend adData) = true ->
   roi (fields (calculateProductROI adData salesData)) = 0%float
   /\ profit (fields (calculateProductROI adData salesData)) = 0%float).
Proof.
  repeat apply conj.
  - intros E Hp Hf. cbn. rewrite Hp, E.
    rewrite (div_self _ Hp Hf), (break_even_roi _ Hp Hf). split; reflexivity.
  - intros E Hp Hf. cbn. rewrite Hp, E. exact (div_self _ Hp Hf).
  - intros E Hp Hf. cbn. rewrite Hp, E.
    split; [exact (break_even_roi _ Hp Hf)|exact (sub_self _ Hf)].
Qed.

Lemma break_even_metrics_witness :
  Dashboard.totalRevenue even_totals = Dashboard.totalCost even_totals
  /\ (0 <? Dashboard.totalCost even_totals)%float = true
  /\ is_finite (Dashboard.totalCost even_totals) = true
  /\ Dashboard.roas (Dashboard.calculateMetrics even_totals) = Str "1.00"
  /\ Dashboard.roi (Dashboard.calculateMetrics even_totals) = Str "0.00".
Proof.
  split; [reflexivity|]. split; [reflexivity|]. split; [reflexivity|].
  exact (proj1 (break_even_metrics even_totals Shopify.GoogleAdsService.initial
                  ad_100 (sales_of 100)) eq_refl eq_refl eq_refl).
Defined.

End BreakEven.

(** ** The dashboard summary from rows to totals *)

Section SummaryEndToEnd.

Lemma dashboard_push_rows_pushed (rows : list Dashboard.Row.t) :
  forallb dashboard_complete rows = true ->
  forall acc, exists cs,
    Dashboard.push_rows rows acc = Ok (acc ++ cs)%list /\ Forall2 dashboard_pushed rows cs.
Proof.
  induction rows as [|row rest IH]; simpl; intros Hall acc.
  - exists []. rewrite app_nil_r. split; constructor.
  - apply andb_true_iff in Hall as [Hrow Hrest].
    assert (Hp : exists c, Dashboard.push_row row = Ok c).
    { unfold dashboard_complete in Hrow. unfold Dashboard.push_row.
      destruct (Dashboard.Row.campaign_of row); [|discriminate].
      destruct (Dashboard.Row.metrics_of row); [|discriminate].
      cbn [get bind]. eauto. }
    destruct Hp as [c Hc]. rewrite Hc. cbn [bind].
    destruct (IH Hrest (acc ++ [c])%list) as (cs & Hcs & Hall').
    exists (c :: cs). rewrite Hcs, <- app_assoc. split; [reflexivity|].
    constructor; assumption.
Qed.

Lemma row_nonneg_complete (rows : list Dashboard.Row.t) :
  forallb row_nonneg rows = true -> forallb dashboard_complete rows = true.
Proof.
  apply forallb_weaken. intros row. unfold row_nonneg, dashboard_complete.
  destruct (Dashboard.Row.campaign_of row), (Dashboard.Row.metrics_of row); congruence.
Qed.

Lemma pushed_nonneg (rows : list Dashboard.Row.t) (cs : list Dashboard.Campaign.t) :
  Forall2 dashboard_pushed rows cs ->
  forallb row_nonneg rows = true -> forallb dashboard_nonneg cs = true.
Proof.
  induction 1 as [|row c rows cs Hp _ IH]; simpl; [reflexivity|].
  rewrite !andb_true_iff. intros [Hrow Hrest]. split; [|now apply IH].
  unfold dashboard_pushed, Dashboard.push_row, row_nonneg in *.
  destruct (Dashboard.Row.campaign_of row); [|discriminate].
  destruct (Dashboard.Row.metrics_of row) as [m|]; [|discriminate].
  cbn [get bind] in Hp. injection Hp as <-.
  unfold dashboard_nonneg. cbn.
  repeat (apply andb_true_iff in Hrow as [Hrow ?]).
  repeat (apply andb_true_iff; split); try assumption.
  unfold nonneg in *. apply div_nonneg; [assumption|reflexivity|reflexivity].
Qed.

Lemma dashboard_reduce_nonneg (cs : list Dashboard.Campaign.t) :
  forallb dashboard_nonneg cs = true ->
  nonneg (Dashboard.totalCost (Dashboard.reduce cs)) = true
  /\ nonneg (Dashboard.totalClicks (Dashboard.reduce cs)) = true
  /\ nonneg (Dashboard.totalImpressions (Dashboard.reduce cs)) = true
  /\ nonneg (Dashboard.totalConversions (Dashboard.reduce cs)) = true
  /\ nonneg (Dashboard.totalRevenue (Dashboard.reduce cs)) = true.
Proof.
  intros H. rewrite dashboard_reduce_fields. cbn.
  repeat apply conj; apply sum_nonneg; rewrite ?forallb_map;
    (eapply forallb_weaken; [|exact H]); intros c Hc; unfold dashboard_nonneg in Hc;
    repeat (apply andb_true_iff in Hc as [Hc ?]); assumption.
Qed.

(** X6. From rows to totals: when every row has its [campaign] object and
    its [cost_micros], clicks, impressions, conversions and conversion
    value are [>= 0], [getCampaignSummary] succeeds and each of its five
    totals is [>= 0]; converting micros never produces a negative cost. *)
Theorem summary_of_nonneg_rows (rows : list Dashboard.Row.t) :
  forallb row_nonneg rows = true ->
  exists s,
    Dashboard.getCampaignSummary (Ok rows) = Ok s
    /\ nonneg (Dashboard.totalCost (Dashboard.totals s)) = true
    /\ nonneg (Dashboard.totalClicks (Dashboard.totals s)) = true
    /\ nonneg (Dashboard.totalImpressions (Dashboard.totals s)) = true
    /\ nonneg (Dashboard.totalConversions (Dashboard.totals s)) = true
    /\ nonneg (Dashboard.totalRevenue (Dashboard.totals s)) = true.
Proof.
  intros H.
  destruct (dashboard_push_rows_pushed rows (row_nonneg_complete rows H) [])
    as (cs & Hcs & Hp).
  unfold Dashboard.getCampaignSummary, Dashboard.getCampaigns. cbn [bind].
  rewrite Hcs. cbn [bind app]. eexists. split; [reflexivity|].
  cbn [Dashboard.totals]. apply dashboard_reduce_nonneg.
  exact (pushed_nonneg rows cs Hp H).
Qed.

Lemma summary_of_nonneg_rows_witness :
  forallb row_nonneg [full_row; paused_row] = true
  /\ exists s,
       Dashboard.getCampaignSummary (Ok [full_row; paused_row]) = Ok s
       /\ nonneg (Dashboard.totalCost (Dashboard.totals s)) = true.
Proof.
  split; [reflexivity|].
  destruct (summary_of_nonneg_rows [full_row; paused_row] eq_refl) as (s & Hs & H1 & _).
  exists s. split; assumption.
Defined.

Lemma pushed_enabled (rows : list Dashboard.Row.t) (cs : list Dashboard.Campaign.t) :
  Forall2 dashboard_pushed rows cs ->
  List.length (filter (fun c => strict_eq_string (Dashboard.Campaign.status c) "ENABLED") cs)
  = List.length (filter row_enabled rows).
Proof.
  induction 1 as [|row c rows cs Hp _ IH]; simpl; [reflexivity|].
  assert (E : strict_eq_string (Dashboard.Campaign.status c) "ENABLED" = row_enabled row).
  { unfold dashboard_pushed, Dashboard.push_row, row_enabled in *.
    destruct (Dashboard.Row.campaign_of row); [|discriminate].
    destruct (Dashboard.Row.metrics_of row); [|discriminate].
    cbn [get bind] in Hp. injection Hp as <-. reflexivity. }
  rewrite E. destruct (row_enabled row); simpl; now rewrite IH.
Qed.

(** X7. [getCampaignSummary] fails exactly when some row lacks its
    [campaign] or [metrics] object.  Otherwise [totalCampaigns] is the
    number of rows and [activeCampaigns] the number of rows whose status
    is the string ENABLED, so [activeCampaigns] never exceeds
    [totalCampaigns]. *)
Theorem summary_campaign_counts (rows : list Dashboard.Row.t) :
  (forallb dashboard_complete rows = true ->
     exists s,
       Dashboard.getCampaignSummary (Ok rows) = Ok s
       /\ Dashboard.totalCampaigns s = List.length rows
       /\ Dashboard.activeCampaigns s = List.length (filter row_enabled rows)
       /\ Dashboard.activeCampaigns s <= Dashboard.totalCampaigns s) /\
  (forallb dashboard_complete rows = false ->
     exists msg, Dashboard.getCampaignSummary (Ok rows) = Throw (TypeError msg)).
Proof.
  split; intros H.
  - destruct (dashboard_push_rows_pushed rows H []) as (cs & Hcs & Hp).
    unfold Dashboard.getCampaignSummary, Dashboard.getCampaigns. cbn [bind].
    rewrite Hcs. cbn [bind app]. eexists. split; [reflexivity|].
    cbn [Dashboard.totalCampaigns Dashboard.activeCampaigns].
    rewrite (pushed_enabled rows cs Hp), <- (Forall2_length Hp).
    split; [reflexivity|]. split; [reflexivity|]. apply filter_length_le.
  - destruct (dashboard_push_rows_throw rows H []) as [msg E].
    unfold Dashboard.getCampaignSummary, Dashboard.getCampaigns. cbn [bind].
    rewrite E. cbn [bind]. eauto.
Qed.

Lemma summary_campaign_counts_witness :
  forallb dashboard_complete [full_row; paused_row; sparse_row] = true
  /\ exists s,
       Dashboard.getCampaignSummary (Ok [full_row; paused_row; sparse_row]) = Ok s
       /\ Dashboard.totalCampaigns s = 3
       /\ Dashboard.activeCampaigns s = 2.
Proof.
  split; [reflexivity|].
  destruct (proj1 (summary_campaign_counts [full_row; paused_row; sparse_row]) eq_refl)
    as (s & Hs & Ht & Ha & _).
  exists s. split; [exact Hs|]. split; [exact Ht|exact Ha].
Defined.

End SummaryEndToEnd.

(** ** Ties and repeated ranking *)

Section RankingMore.

Import Shopify.ROIAnalysisService.

Lemma SFeqb_not_lt (x y k : spec_float) :
  SFeqb x k = true -> SFeqb y k = true -> SFltb x y = false.
Proof.
  unfold SFeqb, SFltb.
  destruct x as [[|]|[|]| |[|] ? ?], y as [[|]|[|]| |[|] ? ?], k as [[|]|[|]| |[|] ? ?];
    simpl; try discriminate; try reflexivity;
    change (Pos.compare_cont Eq) with Pos.compare;
    repeat match goal with
    | |- context [Z.compare ?a ?b] => destruct (Z.compare_spec a b)
    | |- context [Pos.compare ?a ?b] => destruct (Pos.compare_spec a b)
    end; simpl; try discriminate; try reflexivity; intros; subst; try lia.
Qed.

Lemma eqb_not_lt (x y k : float) :
  (x =? k)%float = true -> (y =? k)%float = true -> (x <? y)%float = false.
Proof. rewrite !eqb_spec, ltb_spec. apply SFeqb_not_lt. Qed.

Section SortMore.
Context {A : Type}.
Variable key : A -> float.

Let by_key_desc (a b : A) : float := (key b - key a)%float.
Let no_ascent (a b : A) : Prop := (key a <? key b)%float = false.
Let tied (k : float) (a : A) : bool := (key a =? k)%float.

Lemma filter_insert_tied (k : float) (x : A) (l : list A) :
  filter (tied k) (insert by_key_desc x l)
  = if tied k x then x :: filter (tied k) l else filter (tied k) l.
Proof.
  unfold by_key_desc. induction l as [|y l IH]; simpl.
  - destruct (tied k x); reflexivity.
  - rewrite (after_lt key x y).
    destruct (key x <? key y)%float eqn:E; simpl.
    + rewrite IH. destruct (tied k x) eqn:Tx; [|reflexivity].
      destruct (tied k y) eqn:Ty; [|reflexivity].
      unfold tied in *. rewrite (eqb_not_lt _ _ _ Tx Ty) in E. discriminate.
    + reflexivity.
Qed.

Lemma filter_sort_tied (k : float) (l : list A) :
  filter (tied k) (sort by_key_desc l) = filter (tied k) l.
Proof.
  induction l as [|x l IH]; simpl; [reflexivity|].
  rewrite filter_insert_tied, IH. reflexivity.
Qed.

Lemma sort_sorted_id (l : list A) : Sorted no_ascent l -> sort by_key_desc l = l.
Proof.
  unfold by_key_desc. induction 1 as [|a l Hs IH Hhd]; simpl; [reflexivity|].
  rewrite IH. destruct Hhd as [|b l' Hab]; simpl; [reflexivity|].
  rewrite (after_lt key a b). unfold no_ascent in Hab. now rewrite Hab.
Qed.

End SortMore.

Lemma ge_no_ascent (l : list ProductROI) : Sorted roi_ge l -> Sorted roi_no_ascent l.
Proof.
  induction 1 as [|a l Hs IH Hhd]; constructor; [exact IH|].
  destruct Hhd as [|b l' Hab]; constructor. now apply leb_not_gt.
Qed.

(** X8. Ties keep their order: when every ROI is a number, then for every
    ROI value the products whose ROI equals it (as [==] compares numbers)
    come out of [compareProducts] in the order they went in. *)
Theorem compareProducts_keeps_ties_in_order (productsROI : list ProductROI) (k : float) :
  forallb roi_is_number productsROI = true ->
  filter (fun p => (roi (fields p) =? k)%float) (map product (compareProducts productsROI))
  = filter (fun p => (roi (fields p) =? k)%float) productsROI.
Proof.
  intros _. unfold compareProducts, map_index. rewrite map_from_product.
  exact (filter_sort_tied (fun p => roi (fields p)) k productsROI).
Qed.

Lemma compareProducts_keeps_ties_in_order_witness :
  forallb roi_is_number [roi_150_too; roi_minus_10; roi_150] = true
  /\ map product (compareProducts [roi_150_too; roi_minus_10; roi_150])
     = [roi_150_too; roi_150; roi_minus_10]
  /\ filter (fun p => (roi (fields p) =? 150)%float)
       (map product (compareProducts [roi_150_too; roi_minus_10; roi_150]))
     = [roi_150_too; roi_150].
Proof.
  split; [reflexivity|]. split; [reflexivity|].
  exact (eq_trans
           (compareProducts_keeps_ties_in_order
              [roi_150_too; roi_minus_10; roi_150] 150 eq_refl)
           eq_refl).
Defined.

(** X9. When every ROI is a number, a list already in non-increasing ROI
    order comes back in the same order, and ranking the products of a
    ranked list again gives the same ranking. *)
Theorem compareProducts_fixes_ranked_lists (productsROI : list ProductROI) :
  forallb roi_is_number productsROI = true ->
  (Sorted roi_ge productsROI ->
     map product (compareProducts productsROI) = productsROI) /\
  compareProducts (map product (compareProducts productsROI)) = compareProducts productsROI.
Proof.
  intros _.
  assert (Hid : forall l, Sorted roi_no_ascent l ->
                  sort (fun a b => (roi (fields b) - roi (fields a))%float) l = l).
  { intros l. exact (sort_sorted_id (fun p => roi (fields p)) l). }
  split.
  - intros Hs. unfold compareProducts, map_index. rewrite map_from_product.
    apply Hid. now apply ge_no_ascent.
  - unfold compareProducts, map_index. rewrite map_from_product.
    rewrite Hid; [reflexivity|].
    exact (sort_sorted (fun p => roi (fields p)) productsROI).
Qed.

Lemma compareProducts_fixes_ranked_lists_witness :
  forallb roi_is_number [roi_150; roi_minus_10] = true
  /\ Sorted roi_ge [roi_150; roi_minus_10]
  /\ map product (compareProducts [roi_150; roi_minus_10]) = [roi_150; roi_minus_10]
  /\ compareProducts (map product (compareProducts [roi_minus_10; roi_150]))
     = compareProducts [roi_minus_10; roi_150].
Proof.
  assert (Hs : Sorted roi_ge [roi_150; roi_minus_10]).
  { repeat constructor. }
  split; [reflexivity|]. split; [exact Hs|]. split.
  - exact (proj1 (compareProducts_fixes_ranked_lists [roi_150; roi_minus_10] eq_refl) Hs).
  - exact (proj2 (compareProducts_fixes_ranked_lists [roi_minus_10; roi_150] eq_refl)).
Defined.

End RankingMore.

(** ** Ad groups, keywords and products *)

Section Views.

Import DashboardViews.

(** A loop that pushes one record per row returns them all in row order,
    or throws what the first failing row throws. *)
Section PushEach.
Context {R O : Type}.
Variable body : R -> result O.
Variable complete : R -> bool.
Variable copy : R -> O -> Prop.
Hypothesis body_ok : forall r, complete r = true -> exists o, body r = Ok o /\ copy r o.
Hypothesis body_throw :
  forall r, complete r = false -> exists msg, body r = Throw (TypeError msg).

Lemma push_each_ok (rows : list R) :
  forallb complete rows = true ->
  forall acc, exists outs,
    push_each body rows acc = Ok (acc ++ outs)%list /\ Forall2 copy rows outs.
Proof.
  induction rows as [|row rest IH]; simpl; intros Hall acc.
  - exists []. rewrite app_nil_r. split; constructor.
  - apply andb_true_iff in Hall as [Hrow Hrest].
    destruct (body_ok row Hrow) as (o & Ho & Hc). rewrite Ho. cbn [bind].
    destruct (IH Hrest (acc ++ [o])%list) as (outs & Houts & Hall').
    exists (o :: outs). rewrite Houts, <- app_assoc. split; [reflexivity|].
    constructor; assumption.
Qed.

Lemma push_each_throw (rows : list R) :
  forallb complete rows = false ->
  forall acc, exists msg, push_each body rows acc = Throw (TypeError msg).
Proof.
  induction rows as [|row rest IH]; simpl; intros Hall acc; [discriminate|].
  destruct (complete row) eqn:Hrow.
  - destruct (body_ok row Hrow) as (o & Ho & _). rewrite Ho. cbn [bind].
    apply IH. exact Hall.
  - destruct (body_throw row Hrow) as [msg Hm]. rewrite Hm. cbn [bind]. eauto.
Qed.

End PushEach.

Lemma push_ad_group_ok (row : AdGroupRow.t) :
  adgroup_complete row = true -> exists a, push_ad_group row = Ok a /\ adgroup_copy row a.
Proof.
  unfold adgroup_complete, push_ad_group, adgroup_copy.
  destruct (AdGroupRow.ad_group_of row) as [g|]; [|discriminate].
  destruct (AdGroupRow.campaign_of row) as [c|]; [|discriminate].
  destruct (AdGroupRow.metrics_of row) as [m|]; [|discriminate].
  intros _. cbn [get bind]. eexists. split; [reflexivity|].
  exists g, c, m. cbn.
  repeat (split; [first [reflexivity | apply converted_div]|]). reflexivity.
Qed.

Lemma push_ad_group_throw (row : AdGroupRow.t) :
  adgroup_complete row = false -> exists msg, push_ad_group row = Throw (TypeError msg).
Proof.
  unfold adgroup_complete, push_ad_group.
  destruct (AdGroupRow.ad_group_of row) as [g|]; [|cbn [get bind]; eauto].
  destruct (AdGroupRow.campaign_of row) as [c|]; [|cbn [get bind]; eauto].
  destruct (AdGroupRow.metrics_of row) as [m|]; [discriminate|cbn [get bind]; eauto].
Qed.

(** X10. [getAdGroups] returns one record per row in query order, with
    the cost converted from micros and the other fields copied, when every
    row has its [ad_group], [campaign] and [metrics] objects; a single row
    lacking one of them makes the whole call throw a TypeError, and a
    rejected query is passed on. *)
Theorem getAdGroups_all_or_nothing (rows : list AdGroupRow.t) :
  (forallb adgroup_complete rows = true ->
     exists out, getAdGroups (Ok rows) = Ok out /\ Forall2 adgroup_copy rows out) /\
  (forallb adgroup_complete rows = false ->
     exists msg, getAdGroups (Ok rows) = Throw (TypeError msg)) /\
  (forall e, getAdGroups (Throw e) = Throw e).
Proof.
  repeat apply conj.
  - intros H.
    destruct (push_each_ok push_ad_group adgroup_complete adgroup_copy
                push_ad_group_ok rows H []) as (out & Hout & Hall). eauto.
  - intros H.
    exact (push_each_throw push_ad_group adgroup_complete adgroup_copy
             push_ad_group_ok push_ad_group_throw rows H []).
  - reflexivity.
Qed.

Lemma getAdGroups_all_or_nothing_witness :
  forallb adgroup_complete [adgroup_row; adgroup_row] = true
  /\ exists out, getAdGroups (Ok [adgroup_row; adgroup_row]) = Ok out
                 /\ Forall2 adgroup_copy [adgroup_row; adgroup_row] out.
Proof.
  split; [reflexivity|].
  exact (proj1 (getAdGroups_all_or_nothing [adgroup_row; adgroup_row]) eq_refl).
Defined.

Lemma push_keyword_ok (row : KeywordRow.t) :
  keyword_complete row = true -> exists k, push_keyword row = Ok k /\ keyword_copy row k.
Proof.
  unfold keyword_complete, push_keyword, keyword_copy.
  destruct (KeywordRow.ad_group_criterion_of row) as [crit|]; [|discriminate].
  destruct (KeywordRow.ad_group_of row) as [g|]; [|discriminate].
  destruct (KeywordRow.campaign_of row) as [c|]; [|discriminate].
  destruct (KeywordRow.metrics_of row) as [m|]; [|discriminate].
  cbn [get bind].
  destruct (KeywordRow.keyword_of crit) as [kw|] eqn:Ek; [|discriminate].
  intros _. cbn [get bind]. eexists. split; [reflexivity|].
  exists crit, kw, g, c, m. cbn.
  repeat (split; [first [reflexivity | exact Ek | apply converted_div]|]). reflexivity.
Qed.

Lemma push_keyword_throw (row : KeywordRow.t) :
  keyword_complete row = false -> exists msg, push_keyword row = Throw (TypeError msg).
Proof.
  unfold keyword_complete, push_keyword.
  destruct (KeywordRow.ad_group_criterion_of row) as [crit|]; [|cbn [get bind]; eauto].
  cbn [get bind].
  destruct (KeywordRow.keyword_of crit) as [kw|]; [|cbn [get bind]; eauto].
  cbn [get bind].
  destruct (KeywordRow.ad_group_of row) as [g|]; [|cbn [get bind]; eauto].
  destruct (KeywordRow.campaign_of row) as [c|]; [|cbn [get bind]; eauto].
  destruct (KeywordRow.metrics_of row) as [m|]; [discriminate|cbn [get bind]; eauto].
Qed.

(** X11. [getKeywords] returns one record per row in query order, cost
    and average CPC converted from micros and the rest copied, when every
    row has its [ad_group_criterion] with a [keyword] inside, its
    [ad_group], [campaign] and [metrics]; a row lacking one of them, the
    nested [keyword] included, makes the whole call throw a TypeError. *)
Theorem getKeywords_all_or_nothing (rows : list KeywordRow.t) :
  (forallb keyword_complete rows = true ->
     exists out, getKeywords (Ok rows) = Ok out /\ Forall2 keyword_copy rows out) /\
  (forallb keyword_complete rows = false ->
     exists msg, getKeywords (Ok rows) = Throw (TypeError msg)) /\
  (forall e, getKeywords (Throw e) = Throw e).
Proof.
  repeat apply conj.
  - intros H.
    destruct (push_each_ok push_keyword keyword_complete keyword_copy
                push_keyword_ok rows H []) as (out & Hout & Hall). eauto.
  - intros H.
    exact (push_each_throw push_keyword keyword_complete keyword_copy
             push_keyword_ok push_keyword_throw rows H []).
  - reflexivity.
Qed.

Lemma getKeywords_all_or_nothing_witness :
  (forallb keyword_complete [keyword_row] = true
   /\ exists out, getKeywords (Ok [keyword_row]) = Ok out
                  /\ Forall2 keyword_copy [keyword_row] out) /\
  (forallb keyword_complete [keyword_row; criterion_only_row] = false
   /\ exists msg, getKeywords (Ok [keyword_row; criterion_only_row]) = Throw (TypeError msg)).
Proof.
  split; (split; [reflexivity|]).
  - exact (proj1 (getKeywords_all_or_nothing [keyword_row]) eq_refl).
  - exact (proj1 (proj2 (getKeywords_all_or_nothing [keyword_row; criterion_only_row]))
             eq_refl).
Defined.

Lemma nan_div (c : float) : (nan / c)%float = nan.
Proof. apply Prim2SF_inj. rewrite div_spec. reflexivity. Qed.

Lemma nan_sub (c : float) : (nan - c)%float = nan.
Proof. apply Prim2SF_inj. rewrite sub_spec. reflexivity. Qed.

Lemma push_product_ok (row : ProductRow.t) :
  product_complete row = true -> exists p, push_product row = Ok p /\ product_copy row p.
Proof.
  unfold product_complete, push_product, product_copy.
  destruct (ProductRow.segments_of row) as [sg|]; [|discriminate].
  destruct (ProductRow.metrics_of row) as [m|]; [|discriminate].
  intros _. cbn [get bind]. eexists. split; [reflexivity|].
  exists sg, m. cbn.
  split; [reflexivity|]. split; [reflexivity|]. split; [reflexivity|].
  split; [reflexivity|]. split; [apply converted_div|]. split; [reflexivity|].
  split; [reflexivity|]. split; [reflexivity|]. split; [reflexivity|].
  split; [|split; [|split]].
  - intros H. rewrite H. split; reflexivity.
  - intros H. rewrite H. split; reflexivity.
  - intros Hp Hv. rewrite Hp, Hv. cbn [ToNumber].
    rewrite nan_sub, !nan_div. split; reflexivity.
  - intros Hp Hf Hv. rewrite Hp, Hv. cbn [ToNumber]. unfold is_finite in Hf.
    rewrite (div_self _ Hp Hf), (sub_self _ Hf), (zero_div_pos _ Hp Hf).
    split; reflexivity.
Qed.

Lemma push_product_throw (row : ProductRow.t) :
  product_complete row = false -> exists msg, push_product row = Throw (TypeError msg).
Proof.
  unfold product_complete, push_product.
  destruct (ProductRow.metrics_of row) as [m|]; [|cbn [get bind]; eauto].
  destruct (ProductRow.segments_of row) as [sg|]; [discriminate|cbn [get bind]; eauto].
Qed.

(** X12. [getProductPerformance] returns one product per row in query
    order when every row has its [segments] and [metrics] objects, and
    throws a TypeError for the whole call otherwise.  Each product's ROAS
    and ROI are the number [0] when its cost is not above zero, which
    includes a row without [cost_micros]; they are the string "NaN" when
    the cost is positive but the conversion value is absent; and they are
    "1.00" and "0.00" when the conversion value equals a positive finite
    cost. *)
Theorem getProductPerformance_rows (rows : list ProductRow.t) :
  (forallb product_complete rows = true ->
     exists out, getProductPerformance (Ok rows) = Ok out /\ Forall2 product_copy rows out) /\
  (forallb product_complete rows = false ->
     exists msg, getProductPerformance (Ok rows) = Throw (TypeError msg)).
Proof.
  split.
  - intros H.
    destruct (push_each_ok push_product product_complete product_copy
                push_product_ok rows H []) as (out & Hout & Hall). eauto.
  - intros H.
    exact (push_each_throw push_product product_complete product_copy
             push_product_ok push_product_throw rows H []).
Qed.

Lemma getProductPerformance_rows_witness :
  forallb product_complete
    [product_row (Some 2000000%float) None; product_row None (Some 5%float)] = true
  /\ exists out,
       getProductPerformance
         (Ok [product_row (Some 2000000%float) None; product_row None (Some 5%float)])
       = Ok out
       /\ map Product.roas out = [Str "NaN"; Num 0]
       /\ map Product.roi out = [Str "NaN"; Num 0].
Proof.
  split; [reflexivity|].
  destruct (proj1 (getProductPerformance_rows
                     [product_row (Some 2000000%float) None;
                      product_row None (Some 5%float)]) eq_refl)
    as (out & Hout & _).
  exists out. split; [exact Hout|].
  cbv in Hout. injection Hout as <-. split; reflexivity.
Defined.

End Views.

(** ** The daily trend *)

Section Daily.

Import DashboardViews.

(** *** Objects keyed by distinct strings *)

Section Keyed.
Context {V : Type}.

Lemma own_keyed (f : string -> V) (ks : list string) (k : string) :
  own (map (fun k' => (k', f k')) ks) k = if in_dec string_dec k ks then Some (f k) else None.
Proof.
  induction ks as [|k0 ks IH]; simpl; [reflexivity|].
  destruct (String.eqb_spec k0 k) as [->|Hne].
  - destruct (string_dec k k); [reflexivity|congruence].
  - rewrite IH. destruct (string_dec k0 k); [congruence|].
    destruct (in_dec string_dec k ks); reflexivity.
Qed.

Lemma assign_new (o : object V) (k : string) (v : V) :
  own o k = None -> assign o k v = (o ++ [(k, v)])%list.
Proof.
  induction o as [|[k0 v0] o IH]; simpl; [reflexivity|].
  destruct (String.eqb k0 k); [discriminate|]. intros H. now rewrite IH.
Qed.

Lemma assign_keyed (f : string -> V) (ks : list string) (k : string) (v : V) :
  NoDup ks -> In k ks ->
  assign (map (fun k' => (k', f k')) ks) k v
  = map (fun k' => (k', if String.eqb k' k then v else f k')) ks.
Proof.
  induction 1 as [|k0 ks Hnotin Hnd IH]; simpl; [contradiction|].
  destruct (String.eqb_spec k0 k) as [->|Hne]; intros Hin.
  - f_equal. apply map_ext_in. intros k' Hk'.
    destruct (String.eqb_spec k' k) as [->|]; [contradiction|reflexivity].
  - f_equal. apply IH. destruct Hin; [contradiction|assumption].
Qed.

Lemma own_assign (o : object V) (k : string) (v : V) : own (assign o k v) k = Some v.
Proof.
  induction o as [|[k0 v0] o IH]; simpl.
  - now rewrite String.eqb_refl.
  - destruct (String.eqb k0 k) eqn:E; simpl; rewrite E; [reflexivity|exact IH].
Qed.

Lemma assign_assign (o : object V) (k : string) (v v' : V) :
  assign (assign o k v) k v' = assign o k v'.
Proof.
  induction o as [|[k0 v0] o IH]; simpl.
  - now rewrite String.eqb_refl.
  - destruct (String.eqb k0 k) eqn:E; simpl; rewrite E; [reflexivity|now rewrite IH].
Qed.

Lemma index_properties_plain (o : object V) :
  forallb (fun kv => negb (is_array_index (fst kv))) o = true ->
  index_properties o = [] /\ filter (fun kv => negb (is_array_index (fst kv))) o = o.
Proof.
  induction o as [|[k v] o IH]; simpl; [split; reflexivity|].
  rewrite andb_true_iff. intros [Hk Ho]. destruct (IH Ho) as [H1 H2].
  rewrite Hk, H2. unfold is_array_index in Hk.
  destruct (array_index k); [discriminate|]. split; [exact H1|reflexivity].
Qed.

Lemma Object_values_plain (o : object V) :
  forallb (fun kv => negb (is_array_index (fst kv))) o = true ->
  Object_values o = map snd o.
Proof.
  intros H. unfold Object_values. destruct (index_properties_plain o H) as [-> ->].
  reflexivity.
Qed.

End Keyed.

(** *** First appearances *)

Lemma first_seen_snoc (ks : list string) (k : string) :
  first_seen (ks ++ [k])
  = if in_dec string_dec k ks then first_seen ks else (first_seen ks ++ [k])%list.
Proof.
  unfold first_seen. rewrite rev_app_distr. simpl.
  destruct (in_dec string_dec k (rev ks)) as [Hin|Hnin];
    destruct (in_dec string_dec k ks) as [Hin'|Hnin']; try reflexivity.
  - exfalso. apply Hnin'. now apply in_rev.
  - exfalso. apply Hnin. now apply in_rev in Hin'.
Qed.

Lemma first_seen_in (ks : list string) (k : string) : In k (first_seen ks) <-> In k ks.
Proof.
  unfold first_seen. rewrite <- in_rev, nodup_In, <- in_rev. reflexivity.
Qed.

Lemma first_seen_nodup (ks : list string) : NoDup (first_seen ks).
Proof. unfold first_seen. apply NoDup_rev. apply NoDup_nodup. Qed.

(** *** The loop over the rows *)

Lemma visit_plain (o : object Day.t) (row : DailyRow.t) :
  daily_plain row = true -> visit o row = Ok (daily_step o row).
Proof.
  unfold daily_plain, daily_complete, plain_key, visit, daily_step, daily_key, daily_date,
    daily_add, daily_metric.
  destruct (DailyRow.segments_of row) as [sg|]; [|discriminate].
  destruct (DailyRow.metrics_of row) as [m|]; [|discriminate].
  cbn [get bind andb]. rewrite andb_true_iff, !negb_true_iff. intros [Hinh _].
  rewrite Hinh.
  destruct (own o (ToPropertyKey (DailyRow.date sg))) as [d|] eqn:E.
  - rewrite E. reflexivity.
  - rewrite own_assign, assign_assign. reflexivity.
Qed.

Lemma visit_all_plain (rows : list DailyRow.t) :
  forallb daily_plain rows = true ->
  forall o, visit_all rows o = Ok (fold_left daily_step rows o).
Proof.
  induction rows as [|row rows IH]; simpl; intros Hall o; [reflexivity|].
  apply andb_true_iff in Hall as [Hrow Hrest].
  rewrite (visit_plain o row Hrow). cbn [bind]. now apply IH.
Qed.

Lemma rows_of_snoc (k : string) (rows : list DailyRow.t) (r : DailyRow.t) :
  rows_of k (rows ++ [r])
  = (rows_of k rows ++ if String.eqb (daily_key r) k then [r] else [])%list.
Proof. unfold rows_of. rewrite filter_app. reflexivity. Qed.

Lemma rows_of_nil (k : string) (rows : list DailyRow.t) :
  ~ In k (map daily_key rows) -> rows_of k rows = [].
Proof.
  induction rows as [|r rows IH]; simpl; [reflexivity|]. intros Hnin.
  destruct (String.eqb_spec (daily_key r) k) as [E|_]; [tauto|]. apply IH. tauto.
Qed.

Lemma rows_of_cons (k : string) (rows : list DailyRow.t) :
  In k (map daily_key rows) -> rows_of k rows <> [].
Proof.
  induction rows as [|r rows IH]; simpl; [tauto|]. intros Hin.
  destruct (String.eqb_spec (daily_key r) k) as [E|Hne]; [discriminate|].
  apply IH. destruct Hin; [contradiction|assumption].
Qed.

Lemma day_fold_snoc (rs : list DailyRow.t) (r : DailyRow.t) :
  rs <> [] -> day_fold (rs ++ [r]) = daily_add (day_fold rs) r.
Proof.
  destruct rs as [|r0 rs]; [congruence|]. intros _.
  unfold day_fold. rewrite fold_left_app. reflexivity.
Qed.

Lemma daily_state_snoc (rows : list DailyRow.t) (r : DailyRow.t) :
  daily_state (rows ++ [r]) = daily_step (daily_state rows) r.
Proof.
  unfold daily_state, daily_step. rewrite map_app. simpl map at 1.
  rewrite first_seen_snoc, own_keyed.
  destruct (in_dec string_dec (daily_key r) (map daily_key rows)) as [Hin|Hnin].
  - destruct (in_dec string_dec (daily_key r) (first_seen (map daily_key rows)))
      as [Hin'|Hnin']; [|exfalso; apply Hnin'; now apply first_seen_in].
    rewrite assign_keyed by (apply first_seen_nodup || exact Hin').
    apply map_ext. intros k. rewrite rows_of_snoc.
    rewrite (String.eqb_sym k). destruct (String.eqb_spec (daily_key r) k) as [<-|Hne].
    + rewrite day_fold_snoc by now apply rows_of_cons. reflexivity.
    + now rewrite app_nil_r.
  - destruct (in_dec string_dec (daily_key r) (first_seen (map daily_key rows)))
      as [Hin'|Hnin']; [exfalso; apply Hnin; now apply first_seen_in|].
    rewrite assign_new.
    + rewrite map_app. simpl. f_equal.
      * apply map_ext_in. intros k Hk. rewrite rows_of_snoc.
        destruct (String.eqb_spec (daily_key r) k) as [<-|Hne];
          [contradiction|now rewrite app_nil_r].
      * rewrite rows_of_snoc, String.eqb_refl, (rows_of_nil _ _ Hnin). reflexivity.
    + rewrite own_keyed.
      destruct (in_dec string_dec (daily_key r) (first_seen (map daily_key rows)));
        [contradiction|reflexivity].
Qed.

Lemma fold_daily_step (rows : list DailyRow.t) : fold_left daily_step rows [] = daily_state rows.
Proof.
  induction rows as [|r rows IH] using rev_ind; [reflexivity|].
  rewrite fold_left_app. simpl. rewrite IH. symmetry. apply daily_state_snoc.
Qed.

Lemma fold_daily_add (rs : list DailyRow.t) (d : Day.t) :
  fold_left daily_add rs d
  = {| Day.date := Day.date d;
       Day.cost :=
         fold_left PrimFloat.add
           (map (daily_metric
                   (fun m => (ToNumber (Dashboard.Row.cost_micros m) / 1000000)%float)) rs)
           (Day.cost d);
       Day.clicks :=
         fold_left PrimFloat.add
           (map (daily_metric (fun m => ToNumber (Dashboard.Row.clicks m))) rs)
           (Day.clicks d);
       Day.impressions :=
         fold_left PrimFloat.add
           (map (daily_metric (fun m => ToNumber (Dashboard.Row.impressions m))) rs)
           (Day.impressions d);
       Day.conversions :=
         fold_left PrimFloat.add
           (map (daily_metric (fun m => ToNumber (Dashboard.Row.conversions m))) rs)
           (Day.conversions d);
       Day.revenue :=
         fold_left PrimFloat.add
           (map (daily_metric (fun m => ToNumber (Dashboard.Row.conversions_value m))) rs)
           (Day.revenue d) |}.
Proof.
  revert d. induction rs as [|r rs IH]; intros d; simpl.
  - destruct d; reflexivity.
  - rewrite IH. reflexivity.
Qed.

Lemma day_fold_total (rs : list DailyRow.t) : day_fold rs = day_total rs.
Proof. unfold day_fold. rewrite fold_daily_add. reflexivity. Qed.

Lemma daily_state_plain (rows : list DailyRow.t) :
  forallb daily_plain rows = true ->
  forallb (fun kv : string * Day.t => negb (is_array_index (fst kv))) (daily_state rows) = true.
Proof.
  intros Hall. apply forallb_forall. intros [k d] Hin. simpl.
  unfold daily_state in Hin. apply in_map_iff in Hin as (k' & E & Hk').
  injection E as -> _. apply first_seen_in, in_map_iff in Hk' as (r & <- & Hr).
  rewrite forallb_forall in Hall. specialize (Hall r Hr).
  unfold daily_plain, plain_key in Hall.
  apply andb_true_iff in Hall as [_ Hall]. now apply andb_true_iff in Hall as [_ Hall].
Qed.

Lemma getDailyPerformance_groups_by_date_helper (rows : list DailyRow.t) :
  forallb daily_plain rows = true ->
  getDailyPerformance (Ok rows) = Ok (daily_groups rows).
Proof.
  intros Hall. unfold getDailyPerformance. cbn [bind].
  rewrite (visit_all_plain rows Hall). cbn [bind].
  rewrite fold_daily_step, (Object_values_plain _ (daily_state_plain rows Hall)).
  unfold daily_state, daily_groups. rewrite map_map. simpl.
  f_equal. apply map_ext. intros k. apply day_fold_total.
Qed.

(** X13. [getDailyPerformance] groups the rows by date: it returns one
    day per distinct date, in the order the dates first appear, holding
    the date and, for each of cost (converted from micros), clicks,
    impressions, conversions and revenue, the sum over the rows of that
    date in row order.  This holds when every row has its [segments] and
    [metrics] objects and its date is a plain key, neither a member name
    of [Object.prototype] nor an array index, as every date string
    containing a hyphen is. *)
Theorem getDailyPerformance_groups_by_date (rows : list DailyRow.t) :
  forallb daily_plain rows = true ->
  getDailyPerformance (Ok rows) = Ok (daily_groups rows).
Proof. exact (getDailyPerformance_groups_by_date_helper rows). Qed.

Lemma getDailyPerformance_groups_by_date_witness :
  forallb daily_plain january_rows = true
  /\ getDailyPerformance (Ok january_rows) = Ok (daily_groups january_rows)
  /\ map Day.date (daily_groups january_rows) = [Some "2026-01-22"; Some "2026-01-21"]
  /\ map Day.clicks (daily_groups january_rows) = [8%float; 4%float].
Proof.
  split; [reflexivity|].
  split; [exact (getDailyPerformance_groups_by_date january_rows eq_refl)|].
  split; reflexivity.
Defined.

(** *** Size and failure *)

Lemma assign_length (o : object Day.t) (k : string) (v : Day.t) :
  List.length (assign o k v) <= S (List.length o).
Proof.
  induction o as [|[k0 v0] o IH]; simpl; [lia|].
  destruct (String.eqb k0 k); simpl; lia.
Qed.

Lemma insert_index_length (n : N) (v : Day.t) (l : list (N * Day.t)) :
  List.length (insert_index n v l) = S (List.length l).
Proof.
  induction l as [|[n' v'] l IH]; simpl; [reflexivity|].
  destruct (n <? n')%N; simpl; [reflexivity|now rewrite IH].
Qed.

Lemma Object_values_length (o : object Day.t) :
  List.length (Object_values o) = List.length o.
Proof.
  unfold Object_values. rewrite length_app, !length_map.
  induction o as [|[k v] o IH]; [reflexivity|].
  cbn [index_properties filter fst]. unfold is_array_index at 1.
  destruct (array_index k); cbn [negb List.length].
  - rewrite insert_index_length. simpl. lia.
  - simpl. lia.
Qed.

Lemma visit_complete (o : object Day.t) (row : DailyRow.t) :
  daily_complete row = true ->
  exists o', visit o row = Ok o' /\ List.length o' <= S (List.length o).
Proof.
  unfold daily_complete, visit.
  destruct (DailyRow.segments_of row) as [sg|]; [|discriminate].
  destruct (DailyRow.metrics_of row) as [m|]; [|discriminate].
  intros _. cbn [get bind].
  destruct (own o (ToPropertyKey (DailyRow.date sg))) as [d|] eqn:E.
  - rewrite E. eexists. split; [reflexivity|apply assign_length].
  - destruct (inherited (ToPropertyKey (DailyRow.date sg))).
    + rewrite E. eexists. split; [reflexivity|lia].
    + rewrite own_assign, assign_assign. eexists. split; [reflexivity|apply assign_length].
Qed.

Lemma visit_incomplete (o : object Day.t) (row : DailyRow.t) :
  daily_complete row = false -> exists msg, visit o row = Throw (TypeError msg).
Proof.
  unfold daily_complete, visit.
  destruct (DailyRow.segments_of row) as [sg|]; [|cbn [get bind]; eauto].
  destruct (DailyRow.metrics_of row) as [m|]; [discriminate|].
  intros _. cbn [get bind]. eauto.
Qed.

Lemma visit_all_complete (rows : list DailyRow.t) :
  forallb daily_complete rows = true ->
  forall o, exists o',
    visit_all rows o = Ok o' /\ List.length o' <= List.length rows + List.length o.
Proof.
  induction rows as [|row rows IH]; simpl; intros Hall o.
  - exists o. split; [reflexivity|lia].
  - apply andb_true_iff in Hall as [Hrow Hrest].
    destruct (visit_complete o row Hrow) as (o1 & E1 & L1). rewrite E1. cbn [bind].
    destruct (IH Hrest o1) as (o' & E' & L'). exists o'. split; [exact E'|lia].
Qed.

Lemma visit_all_incomplete (rows : list DailyRow.t) :
  forallb daily_complete rows = false ->
  forall o, exists msg, visit_all rows o = Throw (TypeError msg).
Proof.
  induction rows as [|row rows IH]; simpl; intros Hall o; [discriminate|].
  destruct (daily_complete row) eqn:Hrow.
  - destruct (visit_complete o row Hrow) as (o1 & E1 & _). rewrite E1. cbn [bind].
    apply IH. exact Hall.
  - destruct (visit_incomplete o row Hrow) as [msg E]. rewrite E. cbn [bind]. eauto.
Qed.

(** X14. [getDailyPerformance] throws a TypeError exactly when some row
    lacks its [segments] or [metrics] object, whatever the rows before it
    held; otherwise it returns at most as many days as there are rows,
    and no days for no rows.  A rejected query is passed on. *)
Theorem getDailyPerformance_failure_and_size (rows : list DailyRow.t) :
  (forallb daily_complete rows = true ->
     exists days, getDailyPerformance (Ok rows) = Ok days
                  /\ List.length days <= List.length rows) /\
  (forallb daily_complete rows = false ->
     exists msg, getDailyPerformance (Ok rows) = Throw (TypeError msg)) /\
  getDailyPerformance (Ok []) = Ok [] /\
  (forall e, getDailyPerformance (Throw e) = Throw e).
Proof.
  repeat apply conj; try reflexivity.
  - intros H. destruct (visit_all_complete rows H []) as (o & E & L).
    unfold getDailyPerformance. cbn [bind]. rewrite E. cbn [bind].
    eexists. split; [reflexivity|]. rewrite Object_values_length. simpl in L. lia.
  - intros H. destruct (visit_all_incomplete rows H []) as [msg E].
    unfold getDailyPerformance. cbn [bind]. rewrite E. cbn [bind]. eauto.
Qed.

Lemma getDailyPerformance_failure_and_size_witness :
  (forallb daily_complete january_rows = true
   /\ exists days, getDailyPerformance (Ok january_rows) = Ok days
                   /\ List.length days <= List.length january_rows) /\
  (forallb daily_complete (january_rows ++ [dateless_metrics_row])%list = false
   /\ exists msg, getDailyPerformance (Ok (january_rows ++ [dateless_metrics_row])%list)
                  = Throw (TypeError msg)).
Proof.
  split; (split; [reflexivity|]).
  - exact (proj1 (getDailyPerformance_failure_and_size january_rows) eq_refl).
  - exact (proj1 (proj2 (getDailyPerformance_failure_and_size
                           (january_rows ++ [dateless_metrics_row])%list)) eq_refl).
Defined.

(** *** Dates with a hyphen are plain keys *)

Lemma uint_no_hyphen (u : Decimal.uint) : has_hyphen (NilEmpty.string_of_uint u) = false.
Proof. induction u; simpl; assumption || reflexivity. Qed.

Lemma hyphen_not_index (k : string) : has_hyphen k = true -> is_array_index k = false.
Proof.
  intros Hk. unfold is_array_index, array_index.
  destruct (NilZero.uint_of_string k) as [u|]; [|reflexivity].
  destruct (String.eqb_spec (NilEmpty.string_of_uint (N.to_uint (N.of_uint u))) k) as [E|];
    [|reflexivity].
  rewrite <- E, uint_no_hyphen in Hk. discriminate.
Qed.

Lemma hyphen_not_inherited (k : string) : has_hyphen k = true -> inherited k = false.
Proof.
  intros Hk. unfold inherited, Object_prototype_names. simpl existsb.
  repeat match goal with
  | |- context [String.eqb k ?name] =>
    destruct (String.eqb_spec k name) as [->|_]; [discriminate Hk|]
  end. reflexivity.
Qed.

Lemma hyphen_plain (k : string) : has_hyphen k = true -> plain_key k = true.
Proof.
  intros Hk. unfold plain_key.
  now rewrite (hyphen_not_inherited k Hk), (hyphen_not_index k Hk).
Qed.

(** X15. For rows with their [segments] and [metrics] objects whose dates
    are strings containing a hyphen, such as YYYY-MM-DD, the result of
    [getDailyPerformance] lists every distinct date once, in order of
    first appearance, and never more than once. *)
Theorem getDailyPerformance_dates (rows : list DailyRow.t) :
  forallb (fun row => daily_complete row && has_hyphen (daily_key row)) rows = true ->
  exists days,
    getDailyPerformance (Ok rows) = Ok days
    /\ map (fun d => ToPropertyKey (Day.date d)) days = first_seen (map daily_key rows)
    /\ NoDup (map (fun d => ToPropertyKey (Day.date d)) days).
Proof.
  intros Hall.
  assert (Hplain : forallb daily_plain rows = true).
  { eapply forallb_weaken; [|exact Hall]. intros row Hrow. unfold daily_plain.
    apply andb_true_iff in Hrow as [Hc Hh]. rewrite Hc. now apply hyphen_plain. }
  exists (daily_groups rows).
  split; [exact (getDailyPerformance_groups_by_date_helper rows Hplain)|].
  assert (Hkeys : map (fun d => ToPropertyKey (Day.date d)) (daily_groups rows)
                  = first_seen (map daily_key rows)).
  { unfold daily_groups. rewrite map_map.
    rewrite <- (map_id (first_seen (map daily_key rows))) at 2.
    apply map_ext_in. intros k Hk. simpl.
    apply (proj1 (first_seen_in _ _)) in Hk. pose proof (rows_of_cons k rows Hk) as Hne.
    destruct (rows_of k rows) as [|r rs] eqn:E; [congruence|].
    assert (Hr : In r (rows_of k rows)) by (rewrite E; now left).
    unfold rows_of in Hr. apply filter_In in Hr as [_ Hr].
    apply String.eqb_eq in Hr. rewrite <- Hr. unfold daily_key, daily_date.
    destruct (DailyRow.segments_of r); reflexivity. }
  split; [exact Hkeys|]. rewrite Hkeys. apply first_seen_nodup.
Qed.

Lemma getDailyPerformance_dates_witness :
  forallb (fun row => daily_complete row && has_hyphen (daily_key row)) january_rows = true
  /\ exists days,
       getDailyPerformance (Ok january_rows) = Ok days
       /\ map (fun d => ToPropertyKey (Day.date d)) days = ["2026-01-22"; "2026-01-21"].
Proof.
  split; [reflexivity|].
  destruct (getDailyPerformance_dates january_rows eq_refl) as (days & Hd & Hk & _).
  exists days. split; [exact Hd|exact Hk].
Defined.

(** *** The days add up to the period *)

Lemma sum_count_floats (zs : list Z) :
  Forall (fun z => 0 <= z)%Z zs -> (Zsum zs < 2 ^ 53)%Z ->
  sum (map count_float zs) = count_float (Zsum zs).
Proof.
  intros Hz Hlt.
  rewrite <- (sum_counts (map (fun z => Some (count_float z)) zs) zs); [|  |exact Hlt].
  - rewrite map_map. reflexivity.
  - clear Hlt. induction Hz as [|z zs Hz0 _ IH]; simpl; constructor;
      [split; [assumption|reflexivity]|exact IH].
Qed.

Section Counts.
Variable g : Dashboard.Row.metrics -> field.
Variable count : DailyRow.t -> Z.

Lemma counted_sum (rs : list DailyRow.t) :
  (forall r, In r rs -> is_count (daily_field g r) (count r)) ->
  (Zsum (map count rs) < 2 ^ 53)%Z ->
  sum (map (daily_metric (fun m => ToNumber (g m))) rs) = count_float (Zsum (map count rs)).
Proof.
  intros Hc Hlt.
  rewrite <- (sum_counts (map (daily_field g) rs) (map count rs)); [| |exact Hlt].
  - rewrite map_map. f_equal. apply map_ext. intros r.
    unfold daily_metric, daily_field. destruct (DailyRow.metrics_of r); reflexivity.
  - clear Hlt. induction rs as [|r rs IH]; simpl; constructor.
    + apply Hc. now left.
    + apply IH. intros r' Hr'. apply Hc. now right.
Qed.

Lemma counted_nonneg (rs : list DailyRow.t) :
  (forall r, In r rs -> is_count (daily_field g r) (count r)) ->
  (0 <= Zsum (map count rs))%Z.
Proof.
  induction rs as [|r rs IH]; simpl; intros Hc; [lia|].
  destruct (Hc r (or_introl eq_refl)) as [Hr _].
  specialize (IH (fun r' Hr' => Hc r' (or_intror Hr'))). lia.
Qed.

Lemma counted_rows_of (k : string) (rows : list DailyRow.t) :
  (forall r, In r rows -> is_count (daily_field g r) (count r)) ->
  (0 <= Zsum (map count (rows_of k rows)) <= Zsum (map count rows))%Z.
Proof.
  induction rows as [|r rows IH]; simpl; intros Hc; [lia|].
  destruct (Hc r (or_introl eq_refl)) as [Hr _].
  specialize (IH (fun r' Hr' => Hc r' (or_intror Hr'))).
  destruct (String.eqb (daily_key r) k); simpl; lia.
Qed.

Lemma Zsum_map_add (f h : string -> Z) (ks : list string) :
  Zsum (map (fun k => f k + h k)%Z ks) = (Zsum (map f ks) + Zsum (map h ks))%Z.
Proof. induction ks as [|k ks IH]; simpl; lia. Qed.

Lemma Zsum_one_hit (x : string) (c : Z) (ks : list string) :
  NoDup ks -> In x ks ->
  Zsum (map (fun k => if String.eqb x k then c else 0%Z) ks) = c.
Proof.
  induction 1 as [|k ks Hnotin Hnd IH]; simpl; [contradiction|]. intros Hin.
  destruct (String.eqb_spec x k) as [->|Hne].
  - assert (Hz : Zsum (map (fun k' => if String.eqb k k' then c else 0%Z) ks) = 0%Z).
    { clear IH Hnd Hin. induction ks as [|k' ks IH]; simpl; [reflexivity|].
      destruct (String.eqb_spec k k') as [->|_]; [simpl in Hnotin; tauto|].
      rewrite IH; [reflexivity|]. simpl in Hnotin. tauto. }
    lia.
  - destruct Hin as [Hin|Hin]; [congruence|]. rewrite (IH Hin). lia.
Qed.

(** Each row is counted under exactly one of the distinct keys. *)
Lemma counted_partition (keys : list string) (rows : list DailyRow.t) :
  NoDup keys -> (forall r, In r rows -> In (daily_key r) keys) ->
  Zsum (map (fun k => Zsum (map count (rows_of k rows))) keys) = Zsum (map count rows).
Proof.
  intros Hnd. induction rows as [|r rows IH]; intros Hin.
  - simpl. clear Hnd Hin. induction keys as [|k keys IHk]; simpl; [reflexivity|exact IHk].
  - rewrite (map_ext _ (fun k => ((if String.eqb (daily_key r) k then count r else 0)
                                  + Zsum (map count (rows_of k rows)))%Z)).
    + rewrite Zsum_map_add, IH by (intros r' Hr'; apply Hin; now right).
      rewrite (Zsum_one_hit (daily_key r) (count r) keys Hnd (Hin r (or_introl eq_refl))).
      reflexivity.
    + intros k. unfold rows_of. simpl.
      destruct (String.eqb (daily_key r) k); simpl; lia.
Qed.

Lemma counted_days (rows : list DailyRow.t) :
  (forall r, In r rows -> is_count (daily_field g r) (count r)) ->
  (Zsum (map count rows) < 2 ^ 53)%Z ->
  sum (map (fun k => sum (map (daily_metric (fun m => ToNumber (g m))) (rows_of k rows)))
         (first_seen (map daily_key rows)))
  = count_float (Zsum (map count rows)).
Proof.
  intros Hc Hlt.
  assert (Hsub : forall k r, In r (rows_of k rows) -> is_count (daily_field g r) (count r)).
  { intros k r Hr. apply Hc. unfold rows_of in Hr. now apply filter_In in Hr. }
  rewrite (map_ext _ (fun k => count_float (Zsum (map count (rows_of k rows))))).
  - rewrite <- (map_map (fun k => Zsum (map count (rows_of k rows))) count_float).
    rewrite sum_count_floats.
    + f_equal. apply counted_partition; [apply first_seen_nodup|].
      intros r Hr. apply first_seen_in. now apply in_map.
    + apply Forall_forall. intros z Hz. apply in_map_iff in Hz as (k & <- & _).
      apply (counted_rows_of k rows Hc).
    + rewrite counted_partition; [exact Hlt|apply first_seen_nodup|].
      intros r Hr. apply first_seen_in. now apply in_map.
  - intros k. apply counted_sum; [exact (Hsub k)|].
    pose proof (counted_rows_of k rows Hc). lia.
Qed.

End Counts.

(** X16. The days add up to the period: when clicks and impressions are
    non-negative integers whose totals over all rows stay below 2^53, the
    clicks of the returned days sum exactly to the total clicks of all
    rows, and likewise the impressions.  (For rows with [segments] and
    [metrics] whose dates are plain keys.) *)
Theorem daily_counts_add_up
  (rows : list DailyRow.t) (clicks impressions : DailyRow.t -> Z) :
  forallb daily_plain rows = true ->
  (forall r, In r rows ->
     is_count (daily_field Dashboard.Row.clicks r) (clicks r)
     /\ is_count (daily_field Dashboard.Row.impressions r) (impressions r)) ->
  (Zsum (map clicks rows) < 2 ^ 53)%Z -> (Zsum (map impressions rows) < 2 ^ 53)%Z ->
  exists days,
    getDailyPerformance (Ok rows) = Ok days
    /\ sum (map Day.clicks days) = count_float (Zsum (map clicks rows))
    /\ sum (map Day.impressions days) = count_float (Zsum (map impressions rows)).
Proof.
  intros Hplain Hc Hlc Hli. exists (daily_groups rows).
  split; [exact (getDailyPerformance_groups_by_date_helper rows Hplain)|].
  unfold daily_groups. rewrite !map_map. cbn [Day.clicks Day.impressions day_total].
  split.
  - apply (counted_days Dashboard.Row.clicks clicks rows); [|exact Hlc].
    intros r Hr. exact (proj1 (Hc r Hr)).
  - apply (counted_days Dashboard.Row.impressions impressions rows); [|exact Hli].
    intros r Hr. exact (proj2 (Hc r Hr)).
Qed.

Lemma daily_counts_add_up_witness :
  forallb daily_plain january_rows = true
  /\ (Zsum (map daily_clicks january_rows) < 2 ^ 53)%Z
  /\ exists days,
       getDailyPerformance (Ok january_rows) = Ok days
       /\ sum (map Day.clicks days) = count_float 12
       /\ sum (map Day.impressions days) = count_float 300.
Proof.
  split; [reflexivity|]. split; [reflexivity|].
  apply (daily_counts_add_up january_rows daily_clicks daily_impressions);
    try reflexivity.
  intros r Hr. unfold january_rows in Hr. simpl in Hr. destruct Hr as [<-|[<-|[<-|[]]]];
    (split; (split; [apply Z.leb_le; reflexivity|reflexivity])).
Defined.

End Daily.

(** ** Sales of one product *)

Section ProductSales.

Import ShopifyService.

Variable parseFloat : value -> float.

Let revenue_of (item : Item) : float :=
  (parseFloat (price item) * ToNumber (quantity item))%float.
Let quantity_of (item : Item) : float := ToNumber (quantity item).
Let one (item : Item) : float := 1%float.

Lemma each_items_ok (productId : string) (items : list Item) :
  forallb has_id items = true ->
  forall a b c,
    each_items parseFloat productId items (a, b, c)
    = Ok (fold_left PrimFloat.add (map revenue_of (filter (sold productId) items)) a,
          fold_left PrimFloat.add (map quantity_of (filter (sold productId) items)) b,
          fold_left PrimFloat.add (map one (filter (sold productId) items)) c).
Proof.
  induction items as [|item items IH]; simpl; intros Hall a b c; [reflexivity|].
  apply andb_true_iff in Hall as [Hid Hrest].
  unfold has_id in Hid.
  destruct (product_id item) as [id|] eqn:Eid; [|discriminate]. cbn [get bind].
  assert (Hs : sold productId item = String.eqb (Number_toString id) productId)
    by (unfold sold; now rewrite Eid).
  rewrite Hs.
  destruct (String.eqb (Number_toString id) productId); simpl; now rewrite IH.
Qed.

Lemma each_items_throw (productId : string) (items : list Item) :
  forallb has_id items = false ->
  forall acc,
    each_items parseFloat productId items acc
    = Throw (TypeError "Cannot read properties of undefined (reading 'toString')").
Proof.
  induction items as [|item items IH]; intros Hall [[a b] c]; [discriminate|].
  simpl in Hall |- *. unfold has_id in Hall at 1.
  destruct (product_id item) as [id|]; cbn [get bind]; [|reflexivity].
  simpl in Hall. destruct (String.eqb (Number_toString id) productId);
    cbn [bind]; now apply IH.
Qed.

Lemma each_order_spec (productId : string) (orders : list Order) :
  forall a b c,
    each_order parseFloat productId orders (a, b, c)
    = match sales_fault orders with
      | Some msg => Throw (TypeError msg)
      | None =>
        Ok (fold_left PrimFloat.add
              (map revenue_of (filter (sold productId) (all_items orders))) a,
            fold_left PrimFloat.add
              (map quantity_of (filter (sold productId) (all_items orders))) b,
            fold_left PrimFloat.add
              (map one (filter (sold productId) (all_items orders))) c)
      end.
Proof.
  induction orders as [|o orders IH]; simpl; intros a b c; [reflexivity|].
  destruct (line_items o) as [items|]; cbn [get bind]; [|reflexivity].
  destruct (forallb has_id items) eqn:Hids.
  - rewrite (each_items_ok productId items Hids). cbn [bind]. rewrite IH.
    destruct (sales_fault orders); [reflexivity|].
    now rewrite !filter_app, !map_app, !fold_left_app.
  - rewrite (each_items_throw productId items Hids). reflexivity.
Qed.

(** How ids are told apart: [toString] prints an integer id in plain
    decimal below 10^21 and in exponent notation from there on, so a line
    item whose id is the number 10^21 is not one of the product
    "1000000000000000000000". *)
Lemma ids_as_text :
  Number_toString 7654321098765 = "7654321098765"
  /\ Number_toString 1e21 = "1e+21"
  /\ sold "7654321098765"
       {| product_id := Some 7654321098765%float; price := Str "19.99";
          quantity := Some 2%float |} = true
  /\ sold "1000000000000000000000"
       {| product_id := Some 1e21%float; price := Str "19.99";
          quantity := Some 2%float |} = false.
Proof. vm_compute. repeat split. Qed.

(** X17. [getProductSales] visits every line item of every order.  It
    throws a TypeError as soon as an order has no [line_items] or a line
    item has no [product_id], also when that item is of another product.
    Otherwise the line items of the product are those whose id, printed
    by [toString], is [productId]: revenue is the sum of
    [parseFloat(price) * quantity] and quantity the sum of [quantity]
    over them, and [orderCount] adds one per such line item, not per
    order, so an order listing the product twice counts twice;
    [averageOrderValue] is [revenue / orderCount], or [0] when nothing
    was sold. *)
Theorem getProductSales_sums_line_items (productId : string) (orders : list Order) :
  getProductSales parseFloat productId (Ok orders)
  = match sales_fault orders with
    | Some msg => Throw (TypeError msg)
    | None =>
      let items := filter (sold productId) (all_items orders) in
      Ok {| Shopify.SalesData.productId := productId;
            Shopify.SalesData.revenue := sum (map revenue_of items);
            Shopify.SalesData.quantity := sum (map quantity_of items);
            Shopify.SalesData.orderCount := sum (map one items);
            Shopify.SalesData.averageOrderValue :=
              if (0 <? sum (map one items))%float
              then (sum (map revenue_of items) / sum (map one items))%float
              else 0%float |}
    end.
Proof.
  unfold getProductSales. cbn [bind]. rewrite each_order_spec.
  destruct (sales_fault orders); reflexivity.
Qed.

End ProductSales.
